(** * financials-mcp: the extraction core of [src/financial-api.js]

    A shallow embedding of the Yahoo Finance / FRED extraction pipeline:
    formatted-value decoders, the regular-expression field signatures, the
    summary and profile extractors with their row builders, the batched
    economic-indicator fetch with its treasury fallback, the vintage revision
    analyzer and the proxy correlation matrix.

    JavaScript numbers are IEEE 754 binary64 values: they are modelled by
    Rocq's primitive floats, whose kernel arithmetic is the same
    round-to-nearest-even arithmetic.  Strings are sequences of code units,
    restricted here to the 8-bit range ([ascii]).  The network (axios), the
    DOM scanner (cheerio) and [JSON.parse] are external: functions take their
    answers as arguments or as section variables.  The top-level fetches
    return their row (or rows); the markdown text that the source renders
    from them is left out. *)

From Stdlib Require Import ZArith Floats Strings.String Strings.Ascii List Bool Lia.
From Stdlib Require DecimalString.
From stdpp Require Import gmap strings.
Import ListNotations.

Set Warnings "-register-all,-inexact-float".

Local Open Scope string_scope.
Local Open Scope list_scope.
Local Open Scope Z_scope.

(** ** JavaScript numbers *)

Module JsNum.

Abbreviation number := float.

Definition NaN : number := PrimFloat.nan.
Definition Infinity : number := PrimFloat.infinity.

Definition isNaN (x : number) : bool := negb (PrimFloat.eqb x x).

(** [ToBoolean] on a number: [0], [-0] and [NaN] are falsy. *)
Definition truthy (x : number) : bool :=
  negb (isNaN x) && negb (PrimFloat.eqb x 0%float).

Definition lt (x y : number) : bool := PrimFloat.ltb x y.
Definition gt (x y : number) : bool := PrimFloat.ltb y x.
Definition le (x y : number) : bool := PrimFloat.leb x y.

Definition ofZ (z : Z) : number :=
  match z with
  | Z0 => 0%float
  | Zpos p => SF2Prim (S754_finite false p 0)
  | Zneg p => SF2Prim (S754_finite true p 0)
  end.

(** [Math.abs], [Math.max], [Math.min] (two arguments). *)
Definition abs (x : number) : number := PrimFloat.abs x.

Definition isNegZero (x : number) : bool :=
  PrimFloat.eqb x 0%float && PrimFloat.ltb (PrimFloat.div 1%float x) 0%float.

Definition max (x y : number) : number :=
  if isNaN x || isNaN y then NaN
  else if PrimFloat.ltb x y then y
  else if PrimFloat.ltb y x then x
  else if isNegZero x then y else x.

Definition min (x y : number) : number :=
  if isNaN x || isNaN y then NaN
  else if PrimFloat.ltb x y then x
  else if PrimFloat.ltb y x then y
  else if isNegZero x then x else y.

(** [Math.round]: the integer nearest to [x], ties towards [+Infinity];
    [NaN], the infinities and the zeros are returned unchanged. *)
Definition round (x : number) : number :=
  match Prim2SF x with
  | S754_finite s m e =>
      if 0 <=? e then x
      else
        let sm := if s then Z.neg m else Z.pos m in
        let n := (2 * sm + 2 ^ (- e)) / 2 ^ (1 - e) in
        if n =? 0 then (if s then PrimFloat.opp 0%float else 0%float)
        else ofZ n
  | _ => x
  end.

(** *** Decimal literals

    [decimalToNumber neg n e10] is the binary64 value nearest to
    [n * 10 ^ e10] (ties to even), the rounding [parseFloat] and numeric
    literals apply. *)

Definition roundRatio (num den : Z) : number :=
  (* 0 < num, 0 < den *)
  let l := Z.log2 num - Z.log2 den in
  let scaled e := if e <? 0 then (num * 2 ^ (- e)) / den else num / (den * 2 ^ e) in
  let e0 := if 2 ^ 52 <=? scaled (l - 52) then l - 52 else l - 53 in
  let e := Z.max e0 (-1074) in
  let n := if e <? 0 then num * 2 ^ (- e) else num in
  let d := if e <? 0 then den else den * 2 ^ e in
  let q := n / d in
  let r := n mod d in
  let q' := if (d <? 2 * r) || ((d =? 2 * r) && Z.odd q) then q + 1 else q in
  if 971 <? e then Infinity
  else match q' with
       | Zpos p => SF2Prim (S754_finite false p e)
       | _ => 0%float
       end.

Definition decimalToNumber (neg : bool) (n e10 : Z) : number :=
  let mag :=
    if n <=? 0 then 0%float
    else
      if 0 <=? e10 then
        (* 2 ^ (log2 n + 3 e10) <= n * 10 ^ e10 *)
        if 1030 <? Z.log2 n + 3 * e10 then Infinity
        else roundRatio (n * 10 ^ e10) 1
      else
        (* n * 10 ^ e10 < 2 ^ (log2 n + 1 + 3 e10) *)
        if Z.log2 n + 1 + 3 * e10 <? -1080 then 0%float
        else roundRatio n (10 ^ (- e10)) in
  if neg then PrimFloat.opp mag else mag.

End JsNum.

(** ** Strings as code-unit lists, and [parseFloat] *)

Module Text.

Definition dq : ascii := ascii_of_nat 34.

(** Source text is written with ['] standing for the double quote. *)
Definition q (s : string) : list ascii :=
  map (fun c => if Ascii.eqb c "'"%char then dq else c) (list_ascii_of_string s).

Definition isDigit (c : ascii) : bool :=
  let n := nat_of_ascii c in (48 <=? n)%nat && (n <=? 57)%nat.

Definition digitVal (c : ascii) : Z := Z.of_nat (nat_of_ascii c) - 48.

(** [StrWhiteSpaceChar], restricted to 8-bit code units. *)
Definition isWhite (c : ascii) : bool :=
  let n := nat_of_ascii c in
  ((9 <=? n)%nat && (n <=? 13)%nat) || (n =? 32)%nat || (n =? 160)%nat.

Fixpoint span (p : ascii -> bool) (s : list ascii) : list ascii * list ascii :=
  match s with
  | c :: s' =>
      if p c then let (a, b) := span p s' in (c :: a, b) else ([], s)
  | [] => ([], [])
  end.

Fixpoint startsWith (p s : list ascii) : bool :=
  match p, s with
  | [], _ => true
  | a :: p', b :: s' => Ascii.eqb a b && startsWith p' s'
  | _ :: _, [] => false
  end.

(** [String.prototype.includes] with a one-character needle. *)
Definition includes (c : ascii) (s : list ascii) : bool :=
  existsb (Ascii.eqb c) s.

Definition digitsToZ (ds : list ascii) : Z :=
  fold_left (fun acc c => 10 * acc + digitVal c) ds 0.

(** An optional sign: whether it is a minus, and the text after it. *)
Definition readSign (s : list ascii) : bool * list ascii :=
  match s with
  | c :: t =>
      if Ascii.eqb c "-"%char then (true, t)
      else if Ascii.eqb c "+"%char then (false, t)
      else (false, s)
  | [] => (false, s)
  end.

Definition scanExponent (s : list ascii) : Z :=
  match s with
  | c :: r =>
      if Ascii.eqb c "e"%char || Ascii.eqb c "E"%char then
        let '(neg, r') := readSign r in
        match fst (span isDigit r') with
        | [] => 0
        | ed => if neg then - digitsToZ ed else digitsToZ ed
        end
      else 0
  | [] => 0
  end.

(** The longest prefix that is a [StrDecimalLiteral] (sign already read). *)
Definition scanDecimal (neg : bool) (s : list ascii) : JsNum.number :=
  let '(ip, r1) := span isDigit s in
  let '(fp, r2) :=
    match r1 with
    | c :: r => if Ascii.eqb c "."%char then span isDigit r else ([], r1)
    | [] => ([], r1)
    end in
  match ip ++ fp with
  | [] => JsNum.NaN
  | ds => JsNum.decimalToNumber neg (digitsToZ ds)
            (scanExponent r2 - Z.of_nat (length fp))
  end.

Definition parseFloatChars (s : list ascii) : JsNum.number :=
  let t := snd (span isWhite s) in
  let '(neg, u) := readSign t in
  if startsWith (list_ascii_of_string "Infinity") u
  then (if neg then PrimFloat.neg_infinity else JsNum.Infinity)
  else scanDecimal neg u.

Definition parseFloat (s : string) : JsNum.number :=
  parseFloatChars (list_ascii_of_string s).

End Text.

(** ** Regular expressions

    Every pattern of the source is a sequence of literals and quantified
    one-character classes with capture groups that do not nest.  Matching is
    the backtracking search of [RegExp.prototype.exec]: alternatives of a
    quantifier are tried in priority order (greedy: longest first, lazy:
    shortest first), start positions from left to right. *)

Module Regex.
Import Text.

Inductive quant := One | Opt | Star | Plus | LazyStar.

Inductive item :=
| Lit (s : list ascii)
| Cls (p : ascii -> bool) (k : quant)
| GOpen
| GClose.

Definition regex := list item.

Fixpoint downFrom (n : nat) : list nat :=
  match n with O => [O] | S m => n :: downFrom m end.

Fixpoint downTo1 (n : nat) : list nat :=
  match n with O => [] | S m => n :: downTo1 m end.

Definition runLength (p : ascii -> bool) (s : list ascii) : nat :=
  length (fst (span p s)).

(** How many code units the item may consume at the head of [s], in the
    order the matcher tries them. *)
Definition candidates (it : item) (s : list ascii) : list nat :=
  match it with
  | Lit l => if startsWith l s then [length l] else []
  | Cls p One => match s with c :: _ => if p c then [1%nat] else [] | [] => [] end
  | Cls p Opt => match s with c :: _ => if p c then [1%nat; O] else [O] | [] => [O] end
  | Cls p Star => downFrom (runLength p s)
  | Cls p Plus => downTo1 (runLength p s)
  | Cls p LazyStar => rev (downFrom (runLength p s))
  | GOpen | GClose => [O]
  end.

Fixpoint firstSome {A B : Type} (f : A -> option B) (l : list A) : option B :=
  match l with
  | [] => None
  | a :: l' => match f a with Some b => Some b | None => firstSome f l' end
  end.

(** The text consumed by each item, when the pattern matches at the head. *)
Fixpoint matchHere (r : regex) (s : list ascii) : option (list (list ascii)) :=
  match r with
  | [] => Some []
  | it :: r' =>
      firstSome
        (fun n => option_map (cons (firstn n s)) (matchHere r' (skipn n s)))
        (candidates it s)
  end.

Fixpoint search (r : regex) (s : list ascii) : option (list (list ascii)) :=
  match matchHere r s with
  | Some cs => Some cs
  | None => match s with [] => None | _ :: s' => search r s' end
  end.

(** The captures [match[1]], [match[2]], ... *)
Fixpoint groups (r : regex) (cs : list (list ascii)) (cur : option (list ascii))
  : list (list ascii) :=
  match r, cs with
  | GOpen :: r', _ :: cs' => groups r' cs' (Some [])
  | GClose :: r', _ :: cs' =>
      match cur with
      | Some g => g :: groups r' cs' None
      | None => groups r' cs' None
      end
  | _ :: r', c :: cs' => groups r' cs' (option_map (fun g => g ++ c) cur)
  | _, _ => []
  end.

(** [str.match(r)] for a pattern without the [g] flag; [None] is [null]. *)
Definition jsMatch (r : regex) (s : list ascii) : option (list (list ascii)) :=
  option_map (fun cs => groups r cs None) (search r s).

(** [str.replace(/x/g, y)] for a literal [x]. *)
Fixpoint replaceAll (x y : list ascii) (fuel : nat) (s : list ascii) : list ascii :=
  match fuel with
  | O => s
  | S fuel' =>
      match s with
      | [] => []
      | c :: s' =>
          if negb (Nat.eqb (length x) 0) && startsWith x s
          then y ++ replaceAll x y fuel' (skipn (length x) s)
          else c :: replaceAll x y fuel' s'
      end
  end.

(** Character classes of the source patterns. *)
Definition anyOf (set : string) (c : ascii) : bool :=
  existsb (Ascii.eqb c) (list_ascii_of_string set).
Definition noneOf (set : list ascii) (c : ascii) : bool :=
  negb (existsb (Ascii.eqb c) set).
Definition digitOrDot (c : ascii) : bool := isDigit c || Ascii.eqb c "."%char.
(** [.] : anything but a line terminator. *)
Definition dot (c : ascii) : bool :=
  negb (Ascii.eqb c (ascii_of_nat 10) || Ascii.eqb c (ascii_of_nat 13)).

End Regex.

(** ** Values and exceptions *)

Module Js.

(** The result of running a function body: a returned value or a thrown
    exception (its message). *)
Inductive Outcome (A : Type) : Type :=
| Ret (a : A)
| Throw (msg : string).
Arguments Ret {A} a.
Arguments Throw {A} msg.

Definition bind {A B : Type} (m : Outcome A) (f : A -> Outcome B) : Outcome B :=
  match m with
  | Ret a => f a
  | Throw e => Throw e
  end.

(** [try { body } catch (e) { handler }] *)
Definition tryCatch {A : Type} (body : Outcome A) (handler : string -> Outcome A)
  : Outcome A :=
  match body with
  | Ret a => Ret a
  | Throw e => handler e
  end.

Definition typeError : string := "TypeError".

Inductive JsValue : Type :=
| JUndefined
| JNull
| JBool (b : bool)
| JNum (x : JsNum.number)
| JStr (s : string)
| JArr (l : list JsValue)
| JObj (fields : list (string * JsValue)).

(** [ToBoolean] *)
Definition truthy (v : JsValue) : bool :=
  match v with
  | JUndefined | JNull => false
  | JBool b => b
  | JNum x => JsNum.truthy x
  | JStr s => negb (String.eqb s "")
  | JArr _ | JObj _ => true
  end.

Fixpoint assoc {A : Type} (k : string) (l : list (string * A)) : option A :=
  match l with
  | [] => None
  | (k', v) :: l' => if String.eqb k k' then Some v else assoc k l'
  end.

(** [v.k] for the data properties [raw], [fmt], [value], ...: reading a
    property of [undefined] or [null] throws, a missing one is
    [undefined]. *)
Definition getProp (v : JsValue) (k : string) : Outcome JsValue :=
  match v with
  | JUndefined | JNull => Throw typeError
  | JObj fields => Ret (match assoc k fields with Some x => x | None => JUndefined end)
  | _ => Ret JUndefined
  end.

Definition isUndefined (v : JsValue) : bool :=
  match v with JUndefined => true | _ => false end.

(** Neither an object nor an array. *)
Definition isPrimitive (v : JsValue) : bool :=
  match v with
  | JArr _ | JObj _ => false
  | _ => true
  end.

End Js.

Declare Scope js_scope.
Delimit Scope js_scope with js.
Notation "'let*' x ':=' m 'in' k" := (Js.bind m (fun x => k))
  (at level 10, x name, m at level 100, k at level 200) : js_scope.

(** ** Revision / vintage analysis ([analyzeRevisions]) *)

Module Vintage.
Import Js.

Record Observation := {
  date : string;
  value : JsNum.number;
  realtime_start : string;
  realtime_end : string
}.

Record Vintage := {
  vintageDate : string;
  observations : list Observation
}.

Record Revision := {
  rev_date : string;
  latestValue : JsNum.number;
  previousValue : JsNum.number;
  revision : JsNum.number;
  revisionPercent : JsNum.number;
  vintageComparison : string
}.

(** The [analysis] sentence.  [LatestRevision r p] stands for the template
    filled with [r.toFixed(3)] and [p.toFixed(2)], a [+] in front of each
    when it is positive. *)
Inductive AnalysisText :=
| InsufficientData
| NoRevisionsDetected
| LatestRevision (r p : JsNum.number).

(** [revisions = None] is the result object that has no such member. *)
Record RevisionAnalysis := {
  hasRevisions : bool;
  revisions : option (list Revision);
  analysis : AnalysisText
}.

Definition insufficient : RevisionAnalysis :=
  {| hasRevisions := false; revisions := None; analysis := InsufficientData |}.

Definition report (revs : list Revision) : RevisionAnalysis :=
  {| hasRevisions := (0 <? length revs)%nat;
     revisions := Some revs;
     analysis := match revs with
                 | r :: _ => LatestRevision (revision r) (revisionPercent r)
                 | [] => NoRevisionsDetected
                 end |}.

Definition compare (latest previous : Vintage) (latestData matching : Observation)
  : Revision :=
  let rev := PrimFloat.sub (value latestData) (value matching) in
  let pct := PrimFloat.mul (PrimFloat.div rev (value matching)) 100%float in
  {| rev_date := date latestData;
     latestValue := value latestData;
     previousValue := value matching;
     revision := rev;
     revisionPercent := pct;
     vintageComparison :=
       (vintageDate previous ++ " → " ++ vintageDate latest)%string |}.

(** An element of [vintageData] is [None] where the array holds
    [undefined] (a vintage whose response carried no observation list);
    the argument itself is [None] for [null] / [undefined]. *)
Definition analyzeRevisions (vintageData : option (list (option Vintage)))
  : Outcome RevisionAnalysis :=
  match vintageData with
  | None => Ret insufficient
  | Some vs =>
      match vs with
      | latestVintage :: previousVintage :: _ =>
          match latestVintage with
          | None => Throw typeError
          | Some latest =>
              match observations latest with
              | [] => Ret (report [])
              | latestData :: _ =>
                  match previousVintage with
                  | None => Throw typeError
                  | Some previous =>
                      match observations previous with
                      | [] => Ret (report [])
                      | _ :: _ =>
                          match find (fun obs => String.eqb (date obs) (date latestData))
                                  (observations previous) with
                          | Some matchingPrevious =>
                              Ret (report [compare latest previous latestData matchingPrevious])
                          | None => Ret (report [])
                          end
                      end
                  end
              end
          end
      | _ => Ret insufficient
      end
  end.

End Vintage.

(** ** Formatted-value decoders *)

Module Decode.
Import Text Regex.

(** [/([\d.]+)([BKMGT]?)/] of [parseRevenueValue]; [getValue] in
    [toStockSummaryRow] writes the same class as [[TKMBG]]. *)
Definition magnitudePattern : regex :=
  [GOpen; Cls digitOrDot Plus; GClose; GOpen; Cls (anyOf "BKMGT") Opt; GClose].

(** The [multipliers] table; [None] is a missing property. *)
Definition multipliers (suffix : list ascii) : option JsNum.number :=
  match suffix with
  | [c] =>
      if Ascii.eqb c "K"%char then Some 1e3%float
      else if Ascii.eqb c "M"%char then Some 1e6%float
      else if Ascii.eqb c "B"%char then Some 1e9%float
      else if Ascii.eqb c "T"%char then Some 1e12%float
      else if Ascii.eqb c "G"%char then Some 1e9%float
      else None
  | _ => None
  end.

(** [num * (multipliers[suffix] || 1)] *)
Definition scaleBySuffix (num : JsNum.number) (suffix : list ascii) : JsNum.number :=
  PrimFloat.mul num (match multipliers suffix with Some k => k | None => 1%float end).

Definition decodeMagnitude (text : list ascii) : option JsNum.number :=
  match jsMatch magnitudePattern text with
  | Some [m1; m2] => Some (scaleBySuffix (parseFloatChars m1) m2)
  | _ => None
  end.

(** The formatted strings of the decoders: an unsigned numeral is a
    non-empty run of digits and dots, a unit suffix one of K, M, B, T with
    its power of ten. *)
Definition numeral (num : list ascii) : Prop :=
  num <> [] /\ Forall (fun a => digitOrDot a = true) num.

Definition unitSuffixes : list (ascii * JsNum.number) :=
  [("K"%char, 1e3%float); ("M"%char, 1e6%float); ("B"%char, 1e9%float);
   ("T"%char, 1e12%float)].

(** [parseRevenueValue(text)]; [None] is [null]. *)
Definition parseRevenueValue (text : string) : option JsNum.number :=
  if String.eqb text "" || String.eqb text "--" || String.eqb text "N/A" then None
  else decodeMagnitude (list_ascii_of_string text).

Definition removeCommas (s : list ascii) : list ascii :=
  List.filter (fun c => negb (Ascii.eqb c ","%char)) s.

(** [parseFinancialValue(value, text)] inside [extractSummaryData]:
    [value] is the [data-value] attribute ([None] when the element has
    none), [text] the trimmed element text. *)
Definition parseFinancialValue (value : option string) (text : string)
  : option JsNum.number :=
  let v := match value with Some s => s | None => "" end in
  if String.eqb v "" && String.eqb text "" then None
  else
    let numStr := if String.eqb v "" then text else v in
    if String.eqb numStr "--" || String.eqb numStr "N/A" then None
    else
      let cleanStr := removeCommas (list_ascii_of_string numStr) in
      if includes "T"%char cleanStr then
        Some (PrimFloat.mul (parseFloatChars cleanStr) 1e12%float)
      else if includes "B"%char cleanStr then
        Some (PrimFloat.mul (parseFloatChars cleanStr) 1e9%float)
      else if includes "M"%char cleanStr then
        Some (PrimFloat.mul (parseFloatChars cleanStr) 1e6%float)
      else if includes "K"%char cleanStr then
        Some (PrimFloat.mul (parseFloatChars cleanStr) 1e3%float)
      else Some (parseFloatChars cleanStr).

End Decode.

(** ** The network

    A computation that may issue requests: it threads the log of requested
    URLs and ends by returning or throwing.  [await axios.get(url)] is
    answered by an oracle [net]; the answer is [response.data]. *)

Module Net.
Import Js.

Definition Log := list string.
Definition M (A : Type) : Type := Log -> Outcome A * Log.

Definition ret {A : Type} (a : A) : M A := fun l => (Ret a, l).
Definition throw {A : Type} (e : string) : M A := fun l => (Throw e, l).
Definition lift {A : Type} (o : Outcome A) : M A := fun l => (o, l).

Definition bind {A B : Type} (m : M A) (f : A -> M B) : M B :=
  fun l =>
    match m l with
    | (Ret a, l') => f a l'
    | (Throw e, l') => (Throw e, l')
    end.

Definition tryCatch {A : Type} (body : M A) (handler : string -> M A) : M A :=
  fun l =>
    match body l with
    | (Ret a, l') => (Ret a, l')
    | (Throw e, l') => handler e l'
    end.

Definition get (net : string -> Outcome JsValue) (url : string) : M JsValue :=
  fun l => (net url, l ++ [url]).

Definition run {A : Type} (m : M A) : Outcome A * Log := m [].

(** [response.data] used as a string: [includes] / [match] on anything
    else is a [TypeError]. *)
Definition asString (v : JsValue) : M (list ascii) :=
  match v with
  | JStr s => ret (list_ascii_of_string s)
  | _ => throw typeError
  end.

Definition quoteUrl (symbol : string) : string :=
  ("https://finance.yahoo.com/quote/" ++ symbol ++ "?p=" ++ symbol)%string.

End Net.

Declare Scope net_scope.
Delimit Scope net_scope with net.
Notation "'let*' x ':=' m 'in' k" := (Net.bind m (fun x => k))
  (at level 10, x name, m at level 100, k at level 200) : net_scope.

(** ** Company profile ([extractAssetProfile], [toStockProfileRow],
       [fetchYahooProfile]) *)

Module Profile.
Import Js Text Regex.

Definition bs : ascii := "\"%char.

Fixpoint includesStr (needle s : list ascii) : bool :=
  startsWith needle s ||
  match s with
  | [] => false
  | _ :: s' => includesStr needle s'
  end.

Definition toUpperChar (c : ascii) : ascii :=
  let n := nat_of_ascii c in
  if (97 <=? n)%nat && (n <=? 122)%nat then ascii_of_nat (n - 32) else c.

Definition toUpperCase (s : string) : string :=
  string_of_list_ascii (map toUpperChar (list_ascii_of_string s)).

(** [a || b] *)
Definition orElse (a b : JsValue) : JsValue := if truthy a then a else b.

(** [obj[k]] on a plain data object held as a finite map. *)
Definition member (obj : gmap string JsValue) (k : string) : JsValue :=
  match obj !! k with Some v => v | None => JUndefined end.

(** Patterns are quoted with ['] standing for the double quote.
    [/(\{[^{}]*\\'address1\\':\\'[^\\'].*?\\'fullTimeEmployees\\':\d+[^{}]*\})/] *)
Definition jsonPattern : regex :=
  [GOpen; Lit (q "{"); Cls (noneOf (q "{}")) Star;
   Lit (q "\'address1\':\'"); Cls (noneOf (q "\'")) One; Cls dot LazyStar;
   Lit (q "\'fullTimeEmployees\':"); Cls isDigit Plus;
   Cls (noneOf (q "{}")) Star; Lit (q "}"); GClose].

(** A text member: escaped-quoted name, colon, and between escaped
    quotes the captured run of characters other than backslash and
    quote. *)
Definition textField (name : string) : regex :=
  [Lit (q ("\'" ++ name ++ "\':\'")); GOpen; Cls (noneOf (q "\'")) Star; GClose;
   Lit (q "\'")].

(** The employee count: the name, a colon and the captured digits. *)
Definition employeesField : regex :=
  [Lit (q "\'fullTimeEmployees\':"); GOpen; Cls isDigit Plus; GClose].

Definition fieldPatterns : list (string * regex) :=
  map (fun n => (n, textField n))
    ["address1"; "city"; "state"; "zip"; "country"; "phone"; "website";
     "industry"; "sector"; "longBusinessSummary"]
  ++ [("fullTimeEmployees", employeesField)].

(** [parseInt] of a run of decimal digits. *)
Definition parseIntDigits (ds : list ascii) : JsNum.number :=
  JsNum.decimalToNumber false (digitsToZ ds) 0.

Definition profileStep (rawJson : list ascii) (result : gmap string JsValue)
    (fp : string * regex) : gmap string JsValue :=
  match jsMatch (snd fp) rawJson with
  | Some [m1] =>
      <[fst fp :=
          if String.eqb (fst fp) "fullTimeEmployees"
          then JNum (parseIntDigits m1)
          else JStr (string_of_list_ascii m1)]> result
  | _ => result
  end.

Definition profileFields (rawJson : list ascii) : gmap string JsValue :=
  fold_left (profileStep rawJson) fieldPatterns ∅.

Record ProfileRow := {
  p_symbol : string;
  address : JsValue;
  city : JsValue;
  country : JsValue;
  phone : JsValue;
  zip : JsValue;
  industry : JsValue;
  sector : JsValue;
  long_business_summary : JsValue;
  full_time_employees : JsValue;
  p_report_date : string
}.

Definition toStockProfileRow (currentDate symbol : string)
    (assetProfile : gmap string JsValue) : ProfileRow :=
  {| p_symbol := toUpperCase symbol;
     address := orElse (member assetProfile "address1") JNull;
     city := orElse (member assetProfile "city") JNull;
     country := orElse (member assetProfile "country") JNull;
     phone := orElse (member assetProfile "phone") JNull;
     zip := orElse (member assetProfile "zip") JNull;
     industry := orElse (member assetProfile "industry")
                   (JStr "Information not available");
     sector := orElse (member assetProfile "sector")
                 (JStr "Information not available");
     long_business_summary :=
       orElse (member assetProfile "longBusinessSummary")
         (JStr "Company information extracted from page metadata");
     full_time_employees := orElse (member assetProfile "fullTimeEmployees") JNull;
     p_report_date := currentDate |}.

Section WithNetwork.
Variable net : string -> Outcome JsValue.
Local Open Scope net_scope.

Definition extractAssetProfile (symbol : string)
  : Net.M (option (gmap string JsValue)) :=
  Net.tryCatch
    (let* data := Net.get net (Net.quoteUrl symbol) in
     let* html := Net.asString data in
     if negb (includesStr (q "address1") html)
        || negb (includesStr (q "fullTimeEmployees") html)
     then Net.ret None
     else
       match jsMatch jsonPattern html with
       | Some [rawJson] =>
           let result := profileFields rawJson in
           if (5 <? size result)%nat then Net.ret (Some result)
           else Net.ret None
       | _ => Net.ret None
       end)
    (fun _ => Net.ret None).

Definition fetchYahooProfile (currentDate symbol : string) : Net.M ProfileRow :=
  Net.tryCatch
    (let* profile := extractAssetProfile symbol in
     match profile with
     | None =>
         Net.throw
           "Could not extract company profile data from Yahoo Finance page"
     | Some p => Net.ret (toStockProfileRow currentDate symbol p)
     end)
    (fun e => Net.throw e).

End WithNetwork.

End Profile.

(** ** Key statistics ([extractSummaryData], [toStockSummaryRow],
       [fetchYahooSummary]) *)

Module Summary.
Import Js Text Regex Decode Profile.

(** One [fin-streamer] element of the page, as cheerio presents it:
    the [data-field] and [data-value] attributes ([None] when the element
    lacks the attribute) and the trimmed text. *)
Record FinStreamer := {
  dataField : option string;
  dataValue : option string;
  text : string
}.

(** A Typed Value [{ raw, fmt }]. *)
Definition typed (raw : JsNum.number) (fmt : string) : JsValue :=
  JObj [("raw", JNum raw); ("fmt", JStr fmt)].

Definition fieldMapping (dataField : string) : option string :=
  if existsb (String.eqb dataField)
       ["marketCap"; "trailingPE"; "forwardPE"; "beta"; "enterpriseValue";
        "sharesOutstanding"; "pegRatio"]
  then Some dataField else None.

(** [dataValue || text] *)
Definition displayText (el : FinStreamer) : string :=
  match dataValue el with
  | Some v => if String.eqb v "" then text el else v
  | None => text el
  end.

Definition domStep (summaryData : gmap string JsValue) (el : FinStreamer)
  : gmap string JsValue :=
  match dataField el with
  | Some f =>
      match fieldMapping f with
      | Some key =>
          match parseFinancialValue (dataValue el) (text el) with
          | Some value => <[key := typed value (displayText el)]> summaryData
          | None => summaryData
          end
      | None => summaryData
      end
  | None => summaryData
  end.

Definition domScan (els : list FinStreamer) : gmap string JsValue :=
  fold_left domStep els ∅.

(** The [data-field] attribute naming the metric, anything but [>], and
    the captured content of the [data-value] attribute. *)
Definition attributeMetric (name : string) : regex :=
  [Lit (q ("data-field='" ++ name ++ "'")); Cls (noneOf (q ">")) Star;
   Lit (q "data-value='"); GOpen; Cls (noneOf (q "'")) Star; GClose; Lit (q "'")].

(** The metric name, anything but [>], and a quoted unsigned decimal
    (digits, an optional point, digits), which is captured. *)
Definition quotedMetric (name : string) : regex :=
  [Lit (q name); Cls (noneOf (q ">")) Star; Lit (q "'");
   GOpen; Cls isDigit Plus; Cls (anyOf ".") Opt; Cls isDigit Star; GClose;
   Lit (q "'")].

Definition additionalMetrics : list (string * regex) :=
  [("trailingEps", attributeMetric "trailingEps");
   ("forwardEps", attributeMetric "forwardEps");
   ("enterpriseToEbitda", quotedMetric "enterpriseToEbitda");
   ("enterpriseToRevenue", quotedMetric "enterpriseToRevenue")].

Definition additionalStep (html : list ascii) (summaryData : gmap string JsValue)
    (fp : string * regex) : gmap string JsValue :=
  match jsMatch (snd fp) html with
  | Some [m1] =>
      match m1 with
      | [] => summaryData
      | _ :: _ =>
          let value := parseFloatChars m1 in
          if JsNum.isNaN value then summaryData
          else <[fst fp := typed value (string_of_list_ascii m1)]> summaryData
      end
  | _ => summaryData
  end.

(** The escaped-JSON member: the escaped-quoted name, a colon, optional
    white space and the captured braces with anything but a closing brace
    between them; [pegRatio] alone admits an empty body. *)
Definition jsonMember (name : string) (body : quant) : regex :=
  [Lit (q ("\'" ++ name ++ "\':")); Cls isWhite Star;
   GOpen; Lit (q "{"); Cls (noneOf (q "}")) body; Lit (q "}"); GClose].

Definition jsonFieldPatterns : list (string * regex) :=
  [("enterpriseValue", jsonMember "enterpriseValue" Plus);
   ("sharesOutstanding", jsonMember "sharesOutstanding" Plus);
   ("beta", jsonMember "beta" Plus);
   ("forwardPE", jsonMember "forwardPE" Plus);
   ("trailingEps", jsonMember "trailingEps" Plus);
   ("forwardEps", jsonMember "forwardEps" Plus);
   ("pegRatio", jsonMember "pegRatio" Star);
   ("enterpriseToEbitda", jsonMember "enterpriseToEbitda" Plus);
   ("enterpriseToRevenue", jsonMember "enterpriseToRevenue" Plus)].

(** The global replace on [jsonStr]: every backslash-quote pair becomes
    a quote. *)
Fixpoint unescapeQuotes (s : list ascii) : list ascii :=
  match s with
  | [] => []
  | c :: rest =>
      match rest with
      | d :: s' =>
          if Ascii.eqb c bs && Ascii.eqb d dq then dq :: unescapeQuotes s'
          else c :: unescapeQuotes rest
      | [] => [c]
      end
  end.

Section WithEnvironment.
(** [JSON.parse]; a [Throw] is its [SyntaxError]. *)
Variable JSON_parse : list ascii -> Outcome JsValue.
(** [ToNumber] and [toString] on values that are not already a number,
    respectively a string. *)
Variable coerce : JsValue -> JsNum.number.
Variable showValue : JsValue -> string.

Definition toNumber (v : JsValue) : JsNum.number :=
  match v with JNum x => x | _ => coerce v end.

Definition jsonStep (html : list ascii) (summaryData : gmap string JsValue)
    (fp : string * regex) : gmap string JsValue :=
  if truthy (member summaryData (fst fp)) then summaryData
  else
    match jsMatch (snd fp) html with
    | Some [m1] =>
        match JSON_parse (unescapeQuotes m1) with
        | Ret fieldData => <[fst fp := fieldData]> summaryData
        | Throw _ => summaryData
        end
    | _ => summaryData
    end.

(** The replacement the plausibility check would make, when it applies:
    the JSON-sourced [trailingPE] whose [raw] exceeds 10. *)
Definition jsonTrailingPE (html : list ascii) : option JsValue :=
  match jsMatch (jsonMember "trailingPE" Plus) html with
  | Some [m1] =>
      match (let* peData := JSON_parse (unescapeQuotes m1) in
             let* raw := getProp peData "raw" in
             Ret (peData, raw))%js with
      | Ret (peData, raw) =>
          if JsNum.gt (toNumber raw) 10%float then Some peData else None
      | Throw _ => None
      end
  | _ => None
  end.

Definition fixTrailingPE (html : list ascii) (summaryData : gmap string JsValue)
  : gmap string JsValue :=
  let trailingPE := member summaryData "trailingPE" in
  if truthy trailingPE then
    match getProp trailingPE "raw" with
    | Ret raw =>
        if JsNum.lt (toNumber raw) 10%float then
          match jsonTrailingPE html with
          | Some peData => <["trailingPE" := peData]> summaryData
          | None => summaryData
          end
        else summaryData
    | Throw _ => summaryData
    end
  else summaryData.

(** The snapshot built from a page and its [fin-streamer] elements. *)
Definition collectSummary (html : list ascii) (els : list FinStreamer)
  : gmap string JsValue :=
  let fromDom := domScan els in
  let withMetrics := fold_left (additionalStep html) additionalMetrics fromDom in
  let withJson := fold_left (jsonStep html) jsonFieldPatterns withMetrics in
  fixTrailingPE html withJson.

Variable net : string -> Outcome JsValue.
(** cheerio's answer to [fin-streamer[data-symbol='<symbol>']] on a page. *)
Variable finStreamers : list ascii -> string -> list FinStreamer.
Local Open Scope net_scope.

Definition extractSummaryData (symbol : string)
  : Net.M (option (gmap string JsValue)) :=
  Net.tryCatch
    (let* data := Net.get net (Net.quoteUrl symbol) in
     let* html := Net.asString data in
     let summaryData := collectSummary html (finStreamers html symbol) in
     if (0 <? size summaryData)%nat then Net.ret (Some summaryData)
     else Net.ret None)
    (fun _ => Net.ret None).

(** [getValue] of [toStockSummaryRow]. *)
Definition fmtToString (fmt : JsValue) : Outcome string :=
  match fmt with
  | JStr s => Ret s
  | JNull | JUndefined => Throw typeError
  | _ => Ret (showValue fmt)
  end.

Definition getValue (obj : JsValue) : Outcome JsValue :=
  if negb (truthy obj) then Ret JNull
  else
    match obj with
    | JNum _ => Ret obj
    | _ =>
        (let* raw := getProp obj "raw" in
         if negb (isUndefined raw) then Ret raw
         else
           let* fmt := getProp obj "fmt" in
           if negb (isUndefined fmt) then
             let* fmtStr := fmtToString fmt in
             match decodeMagnitude (list_ascii_of_string fmtStr) with
             | Some x => Ret (JNum x)
             | None => Ret JNull
             end
           else Ret JNull)%js
    end.

Record SummaryRow := {
  symbol : string;
  market_cap : JsValue;
  enterprise_value : JsValue;
  shares_outstanding : JsValue;
  beta : JsValue;
  trailing_pe : JsValue;
  forward_pe : JsValue;
  trailing_eps : JsValue;
  forward_eps : JsValue;
  enterprise_to_ebitda : JsValue;
  enterprise_to_revenue : JsValue;
  peg_ratio : JsValue;
  currency : JsValue;
  report_date : string
}.

Definition toStockSummaryRow (currentDate sym : string)
    (summaryData : gmap string JsValue) : Outcome SummaryRow :=
  (let* mc := getValue (member summaryData "marketCap") in
   let* ev := getValue (member summaryData "enterpriseValue") in
   let* so := getValue (member summaryData "sharesOutstanding") in
   let* b := getValue (member summaryData "beta") in
   let* tpe := getValue (member summaryData "trailingPE") in
   let* fpe := getValue (member summaryData "forwardPE") in
   let* teps := getValue (member summaryData "trailingEps") in
   let* feps := getValue (member summaryData "forwardEps") in
   let* ebitda := getValue (member summaryData "enterpriseToEbitda") in
   let* revenue := getValue (member summaryData "enterpriseToRevenue") in
   let* peg := getValue (member summaryData "pegRatio") in
   Ret {| symbol := toUpperCase sym;
          market_cap := mc;
          enterprise_value := ev;
          shares_outstanding := so;
          beta := b;
          trailing_pe := tpe;
          forward_pe := fpe;
          trailing_eps := teps;
          forward_eps := feps;
          enterprise_to_ebitda := ebitda;
          enterprise_to_revenue := revenue;
          peg_ratio := peg;
          currency := orElse (member summaryData "currency") (JStr "USD");
          report_date := currentDate |})%js.

Definition fetchYahooSummary (currentDate sym : string) : Net.M SummaryRow :=
  Net.tryCatch
    (let* summaryData := extractSummaryData sym in
     match summaryData with
     | None =>
         Net.throw
           "Could not extract financial summary data from Yahoo Finance page"
     | Some sd => Net.lift (toStockSummaryRow currentDate sym sd)
     end)
    (fun e => Net.throw e).

End WithEnvironment.

End Summary.

(** ** Economic indicators ([extractEconomicData], [toEconomicRows]) and
       FRED series ([extractFredSeriesData], [toFredSeriesRows]) *)

Module Economic.
Import Js Text Regex Profile.

(** The [indicators] object with, next to each series id, the entries of
    the [names] and [units] tables for the same key. *)
Definition indicatorInfo : list (string * (string * (string * string))) :=
  [("gdp", ("GDP", ("Gross Domestic Product", "Billions of Dollars")));
   ("realGdp", ("GDPC1", ("Real GDP", "Billions of Chained 2017 Dollars")));
   ("gdpGrowth", ("A191RL1Q225SBEA", ("Real GDP Growth Rate", "Percent")));
   ("unemployment", ("UNRATE", ("Unemployment Rate", "Percent")));
   ("employment", ("PAYEMS", ("Nonfarm Payrolls", "Thousands of Persons")));
   ("laborForce", ("CIVPART", ("Labor Force Participation Rate", "Percent")));
   ("jobsOpenings", ("JTSJOL", ("Job Openings", "Thousands")));
   ("inflation", ("CPIAUCSL", ("Consumer Price Index", "Index 1982-1984=100")));
   ("coreCpi", ("CPILFESL", ("Core CPI (ex food & energy)", "Index 1982-1984=100")));
   ("pce", ("PCEPI", ("PCE Price Index", "Index 2012=100")));
   ("corePce", ("PCEPILFE", ("Core PCE Price Index", "Index 2012=100")));
   ("producerPrices", ("PPIACO", ("Producer Price Index", "Index 1982=100")));
   ("federalFunds", ("FEDFUNDS", ("Federal Funds Rate", "Percent")));
   ("treasury1m", ("DGS1MO", ("1-Month Treasury Rate", "Percent")));
   ("treasury3m", ("DGS3MO", ("3-Month Treasury Rate", "Percent")));
   ("treasury6m", ("DGS6MO", ("6-Month Treasury Rate", "Percent")));
   ("treasury1y", ("DGS1", ("1-Year Treasury Rate", "Percent")));
   ("treasury2y", ("DGS2", ("2-Year Treasury Rate", "Percent")));
   ("treasury5y", ("DGS5", ("5-Year Treasury Rate", "Percent")));
   ("treasury10y", ("DGS10", ("10-Year Treasury Rate", "Percent")));
   ("treasury30y", ("DGS30", ("30-Year Treasury Rate", "Percent")));
   ("m1Money", ("M1SL", ("M1 Money Supply", "Billions of Dollars")));
   ("m2Money", ("M2SL", ("M2 Money Supply", "Billions of Dollars")));
   ("retailSales", ("RSAFS", ("Retail Sales", "Millions of Dollars")));
   ("consumerSentiment", ("UMCSENT", ("Consumer Sentiment", "Index 1966:Q1=100")));
   ("industrialProduction", ("INDPRO", ("Industrial Production Index", "Index 2017=100")));
   ("housingStarts", ("HOUST", ("Housing Starts", "Thousands of Units")));
   ("newHomeSales", ("HSN1F", ("New Home Sales", "Thousands of Units")));
   ("existingHomeSales", ("EXHOSLUSM495S", ("Existing Home Sales", "Millions")));
   ("vix", ("VIXCLS", ("VIX Volatility Index", "Index")));
   ("sp500", ("SP500", ("S&P 500 Index", "Index")));
   ("tradeBalance", ("BOPGSTB", ("Trade Balance", "Millions of Dollars")));
   ("federalDebt", ("GFDEBTN", ("Federal Debt Total", "Millions of Dollars")));
   ("debtToGdp", ("GFDEGDQ188S", ("Federal Debt to GDP Ratio", "Percent")))].

(** [Object.entries(indicators)] *)
Definition indicators : list (string * string) :=
  map (fun e => (fst e, fst (snd e))) indicatorInfo.

(** [names[indicator] || indicator] *)
Definition getIndicatorName (indicator : string) : string :=
  match assoc indicator indicatorInfo with
  | Some (_, (name, _)) => name
  | None => indicator
  end.

(** [units[indicator] || 'Value'] *)
Definition getIndicatorUnit (indicator : string) : string :=
  match assoc indicator indicatorInfo with
  | Some (_, (_, unit)) => unit
  | None => "Value"
  end.

Definition maxConcurrent : nat := 5.
Definition delay : Z := 500.

(** One entry of [results]. [JUndefined] marks a member the object
    literal does not have. *)
Record Indicator := {
  value : JsValue;
  date : JsValue;
  seriesId : string;
  realtime_start : JsValue;
  realtime_end : JsValue;
  units : JsValue;
  source : JsValue
}.

(** [v === '.'] *)
Definition isPlaceholder (v : JsValue) : bool :=
  match v with JStr s => String.eqb s "." | _ => false end.

Definition isNull (v : JsValue) : bool :=
  match v with JNull => true | _ => false end.

(** [obs => obs.value !== '.' && obs.value !== null] *)
Definition validObservation (obs : JsValue) : Outcome bool :=
  (let* v := getProp obs "value" in
   Ret (negb (isPlaceholder v) && negb (isNull v)))%js.

(** [Array.prototype.find] with that predicate; [JUndefined] when no
    element satisfies it. *)
Fixpoint findValid (l : list JsValue) : Outcome JsValue :=
  match l with
  | [] => Ret JUndefined
  | obs :: l' =>
      (let* ok := validObservation obs in
       if ok then Ret obs else findValid l')%js
  end.

(** [Array.prototype.filter] with that predicate. *)
Fixpoint filterValid (l : list JsValue) : Outcome (list JsValue) :=
  match l with
  | [] => Ret []
  | obs :: l' =>
      (let* ok := validObservation obs in
       let* rest := filterValid l' in
       Ret (if ok then obs :: rest else rest))%js
  end.

(** [\'regularMarketPrice\':{], anything but a closing brace, [\'raw\':]
    and the captured unsigned decimal. *)
Definition pricePattern : regex :=
  [Lit (q "\'regularMarketPrice\':{"); Cls (noneOf (q "}")) Star;
   Lit (q "\'raw\':"); GOpen; Cls isDigit Plus; Cls (anyOf ".") Opt;
   Cls isDigit Star; GClose].

(** [symbolMap[key] || '^TNX'] *)
Definition symbolMap (key : string) : string :=
  match assoc key
          [("treasury1m", "^IRX"); ("treasury3m", "^IRX"); ("treasury6m", "^IRX");
           ("treasury1y", "^TNX"); ("treasury2y", "^TNX"); ("treasury5y", "^TNX");
           ("treasury10y", "^TNX"); ("treasury30y", "^TYX")] with
  | Some s => s
  | None => "^TNX"
  end.

Definition isTreasury (key : string) : bool :=
  includesStr (q "treasury") (list_ascii_of_string key).

Definition fredUrl (apiKey seriesId : string) : string :=
  ("https://api.stlouisfed.org/fred/series/observations?series_id=" ++ seriesId
     ++ "&api_key=" ++ apiKey ++ "&file_type=json&limit=5&sort_order=desc")%string.

(** One step of the scheduling trace. *)
Inductive event :=
| Start (key : string)
| Settle (key : string)
| Sleep (ms : Z).

(** The [for (i = 0; i < n; i += maxConcurrent)] loop: the batch sliced
    at each iteration, and whether the delay is awaited after it. *)
Fixpoint batchLoop {E : Type} (fuel i : nat) (entries : list E)
  : list (list E * bool) :=
  match fuel with
  | O => []
  | S fuel' =>
      if (i <? length entries)%nat then
        (firstn maxConcurrent (skipn i entries),
         (i + maxConcurrent <? length entries)%nat)
        :: batchLoop fuel' (i + maxConcurrent) entries
      else []
  end.

Definition batches {E : Type} (entries : list E) : list (list E * bool) :=
  batchLoop (length entries) 0 entries.

(** The traces one batch may produce: [batch.map] starts every worker in
    order, [Promise.all] then waits until all have settled, in whatever
    order they do. *)
Inductive batchTrace (keys : list string) : list event -> Prop :=
| batch_settles order :
    Permutation order keys ->
    batchTrace keys (map Start keys ++ map Settle order).

Inductive loopTrace : list (list string * bool) -> list event -> Prop :=
| loop_done : loopTrace [] []
| loop_batch keys pause rest tr trs :
    batchTrace keys tr ->
    loopTrace rest trs ->
    loopTrace ((keys, pause) :: rest)
      (tr ++ (if pause then [Sleep delay] else []) ++ trs).

Definition keyBatches (entries : list (string * string)) : list (list string * bool) :=
  map (fun b => (map fst (fst b), snd b)) (batches entries).

Section WithEnvironment.
Variable net : string -> Outcome JsValue.
Variable coerce : JsValue -> JsNum.number.
Variable showValue : JsValue -> string.
Variable apiKey : string.
Variable currentDate : string.

Definition toNumber (v : JsValue) : JsNum.number :=
  match v with JNum x => x | _ => coerce v end.

(** [parseFloat(v)]: the argument is converted to a string first. *)
Definition parseFloatValue (v : JsValue) : JsNum.number :=
  match v with
  | JStr s => parseFloat s
  | _ => parseFloat (showValue v)
  end.

(** [data && data.observations && data.observations.length > 0]: the
    array to search, when the guard holds.  A non-array with a positive
    [length] passes the guard and has no [find] / [filter]. *)
Definition guardedObservations (data : JsValue) : Outcome (option (list JsValue)) :=
  if truthy data then
    (let* obs := getProp data "observations" in
     if truthy obs then
       match obs with
       | JArr l => Ret (match l with [] => None | _ :: _ => Some l end)
       | JStr _ => Throw typeError
       | JObj fields =>
           match assoc "length" fields with
           | Some len =>
               if JsNum.gt (toNumber len) 0%float then Throw typeError
               else Ret None
           | None => Ret None
           end
       | _ => Ret None
       end
     else Ret None)%js
  else Ret None.

(** The body of the worker's [try]: what it stores under [results[key]]. *)
Definition primaryValue (seriesId : string) (data : JsValue)
  : Outcome (option Indicator) :=
  (let* found := guardedObservations data in
   match found with
   | None => Ret None
   | Some observations =>
       let* latestObs := findValid observations in
       if truthy latestObs then
         let* v := getProp latestObs "value" in
         let* d := getProp latestObs "date" in
         let* rs := getProp data "realtime_start" in
         let* re := getProp data "realtime_end" in
         let* u := getProp data "units" in
         Ret (Some {| value := JNum (parseFloatValue v);
                      date := d;
                      seriesId := seriesId;
                      realtime_start := rs;
                      realtime_end := re;
                      units := orElse u (JStr "Unknown");
                      source := JUndefined |})
       else Ret None
   end)%js.

Local Open Scope net_scope.

Definition primary (seriesId : string) : Net.M (option Indicator) :=
  let* data := Net.get net (fredUrl apiKey seriesId) in
  Net.lift (primaryValue seriesId data).

(** The Yahoo Finance substitute for a treasury rate. *)
Definition fallback (key : string) : Net.M (option Indicator) :=
  let sym := symbolMap key in
  let* data := Net.get net (Net.quoteUrl sym) in
  let* html := Net.asString data in
  match jsMatch pricePattern html with
  | Some [m1] =>
      Net.ret (Some {| value := JNum (parseFloatChars m1);
                       date := JStr currentDate;
                       seriesId := sym;
                       realtime_start := JUndefined;
                       realtime_end := JUndefined;
                       units := JStr "Percent";
                       source := JStr "yahoo_finance" |})
  | _ => Net.ret None
  end.

(** The async function mapped over a batch.  It returns what it writes
    to [results[key]], [None] when it writes nothing. *)
Definition worker (entry : string * string) : Net.M (option Indicator) :=
  Net.tryCatch (primary (snd entry))
    (fun _ =>
       if isTreasury (fst entry)
       then Net.tryCatch (fallback (fst entry)) (fun _ => Net.ret None)
       else Net.ret None).

(** [await Promise.all(batch.map(worker))]: a rejection of any worker
    rejects the whole.  The log lists the requests worker by worker. *)
Fixpoint runBatch (batch : list (string * string))
    (results : gmap string Indicator) : Net.M (gmap string Indicator) :=
  match batch with
  | [] => Net.ret results
  | entry :: batch' =>
      let* written := worker entry in
      runBatch batch'
        (match written with
         | Some ind => <[fst entry := ind]> results
         | None => results
         end)
  end.

Fixpoint runBatches (bs : list (list (string * string) * bool))
    (results : gmap string Indicator) : Net.M (gmap string Indicator) :=
  match bs with
  | [] => Net.ret results
  | (batch, _) :: bs' =>
      let* results' := runBatch batch results in
      runBatches bs' results'
  end.

Definition extractEconomicDataOf (entries : list (string * string))
  : Net.M (option (gmap string Indicator)) :=
  Net.tryCatch
    (let* results := runBatches (batches entries) ∅ in
     if (0 <? size results)%nat then Net.ret (Some results)
     else Net.ret None)
    (fun _ => Net.ret None).

Definition extractEconomicData : Net.M (option (gmap string Indicator)) :=
  extractEconomicDataOf indicators.

Record EconomicRow := {
  indicator : string;
  indicator_name : string;
  row_value : JsValue;
  unit : string;
  row_date : JsValue;
  series_id : string;
  row_source : JsValue;
  report_date : string
}.

(** Rows follow the fixed enumeration of the finite map; in the source
    they follow the order in which the workers stored their results. *)
Definition toEconomicRows (economicData : option (gmap string Indicator))
  : list EconomicRow :=
  match economicData with
  | None => []
  | Some data =>
      map (fun kv =>
             {| indicator := fst kv;
                indicator_name := getIndicatorName (fst kv);
                row_value := value (snd kv);
                unit := getIndicatorUnit (fst kv);
                row_date := date (snd kv);
                series_id := seriesId (snd kv);
                row_source := orElse (source (snd kv)) (JStr "FRED");
                report_date := currentDate |})
        (map_to_list data)
  end.

Definition fallbackData : gmap string Indicator :=
  {[ "treasury10y" :=
       {| value := JStr "N/A"; date := JStr currentDate; seriesId := "N/A";
          realtime_start := JUndefined; realtime_end := JUndefined;
          units := JUndefined; source := JUndefined |} ]}.

Definition fetchEconomicIndicators : Net.M (list EconomicRow) :=
  Net.tryCatch
    (let* economicData := extractEconomicData in
     match economicData with
     | None => Net.ret (toEconomicRows (Some fallbackData))
     | Some _ => Net.ret (toEconomicRows economicData)
     end)
    (fun e => Net.throw e).

End WithEnvironment.

End Economic.

Module FredSeries.
Import Js Text Profile Economic.

Record SeriesData := {
  sd_seriesId : string;
  seriesInfo : JsValue;
  observations : list JsValue;
  totalObservations : JsValue;
  sd_realtime_start : JsValue;
  sd_realtime_end : JsValue
}.

Record SeriesRow := {
  series_id : string;
  date : JsValue;
  value : JsValue;
  realtime_start : JsValue;
  realtime_end : JsValue;
  series_title : JsValue;
  units : JsValue;
  frequency : JsValue;
  seasonal_adjustment : JsValue;
  last_updated : JsValue;
  fetch_date : string
}.

(** [v?.k] *)
Definition optProp (v : JsValue) (k : string) : JsValue :=
  match getProp v k with
  | Ret x => x
  | Throw _ => JUndefined
  end.

Definition firstChar (s : string) : string :=
  match s with
  | String c _ => String c EmptyString
  | EmptyString => EmptyString
  end.

Section WithEnvironment.
Variable net : string -> Outcome JsValue.
Variable coerce : JsValue -> JsNum.number.
Variable showValue : JsValue -> string.
Variable currentDate : string.
(** [process.env.FRED_API_KEY], [None] when unset. *)
Variable apiKey : option string.

Definition observationsUrl (key seriesId : string) (limit : nat) : string :=
  ("https://api.stlouisfed.org/fred/series/observations?series_id=" ++ seriesId
     ++ "&api_key=" ++ key ++ "&file_type=json&limit="
     ++ showValue (JNum (JsNum.ofZ (Z.of_nat limit))) ++ "&sort_order=desc")%string.

Definition seriesInfoUrl (key seriesId : string) : string :=
  ("https://api.stlouisfed.org/fred/series?series_id=" ++ seriesId
     ++ "&api_key=" ++ key ++ "&file_type=json")%string.

(** [data && data.seriess && data.seriess.length > 0 ? data.seriess[0]
    : null] as the nested [if] of the source computes it. *)
Definition firstSeries (data : JsValue) : JsValue :=
  if truthy data then
    let seriess := optProp data "seriess" in
    if truthy seriess then
      match seriess with
      | JArr (x :: _) => x
      | JStr s => JStr (firstChar s)
      | JObj fields =>
          match assoc "length" fields with
          | Some len =>
              if JsNum.gt (toNumber coerce len) 0%float
              then optProp seriess "0" else JNull
          | None => JNull
          end
      | _ => JNull
      end
    else JNull
  else JNull.

Local Open Scope net_scope.

Definition extractFredSeriesData (seriesId : string) (limit : nat)
  : Net.M (option SeriesData) :=
  Net.tryCatch
    (match apiKey with
     | None => Net.throw "Valid FRED API key required for series data retrieval. Please set FRED_API_KEY environment variable."
     | Some key =>
         if String.eqb key "" || String.eqb key "demo" then
           Net.throw "Valid FRED API key required for series data retrieval. Please set FRED_API_KEY environment variable."
         else
           let* data := Net.get net (observationsUrl key seriesId limit) in
           let* found := Net.lift (guardedObservations coerce data) in
           match found with
           | None => Net.ret None
           | Some obs =>
               let* info :=
                 Net.tryCatch
                   (let* infoData := Net.get net (seriesInfoUrl key seriesId) in
                    Net.ret (firstSeries infoData))
                   (fun _ => Net.ret JNull) in
               let* valid := Net.lift (filterValid obs) in
               let validObservations := firstn limit valid in
               Net.ret
                 (Some {| sd_seriesId := seriesId;
                          seriesInfo := info;
                          observations := validObservations;
                          totalObservations :=
                            orElse (optProp data "count")
                              (JNum (JsNum.ofZ (Z.of_nat (length validObservations))));
                          sd_realtime_start := optProp data "realtime_start";
                          sd_realtime_end := optProp data "realtime_end" |})
           end
     end)
    (fun e => Net.throw e).

(** [seriesData] is non-null here; the source returns [[]] for a null
    argument before reaching the [map]. *)
Definition toFredSeriesRows (seriesData : option SeriesData)
  : Outcome (list SeriesRow) :=
  match seriesData with
  | None => Ret []
  | Some sd =>
      let info := seriesInfo sd in
      let infoOr k d := orElse (match info with
                                | JNull | JUndefined => JUndefined
                                | _ => optProp info k
                                end) d in
      (fix rows (l : list JsValue) : Outcome (list SeriesRow) :=
         match l with
         | [] => Ret []
         | obs :: l' =>
             (let* d := getProp obs "date" in
              let* v := getProp obs "value" in
              let* rs := getProp obs "realtime_start" in
              let* re := getProp obs "realtime_end" in
              let* rest := rows l' in
              Ret ({| series_id := sd_seriesId sd;
                      date := d;
                      value := JNum (parseFloatValue showValue v);
                      realtime_start := rs;
                      realtime_end := re;
                      series_title := infoOr "title" (JStr (sd_seriesId sd));
                      units := infoOr "units" (JStr "Unknown");
                      frequency := infoOr "frequency" (JStr "Unknown");
                      seasonal_adjustment :=
                        infoOr "seasonal_adjustment" (JStr "Unknown");
                      last_updated :=
                        match info with
                        | JNull | JUndefined => JUndefined
                        | _ => optProp info "last_updated"
                        end;
                      fetch_date := currentDate |} :: rest))%js
         end) (observations sd)
  end.

End WithEnvironment.

End FredSeries.

(** ** Peer comparison metrics ([fetchPeerMetrics], [toPeerComparisonRows]) *)

Module Peers.
Import Js Text Regex Profile.

(** [\'<name>\':{], anything but a closing brace, [\'raw\':] and the
    captured number: digits alone for the integer metrics, an unsigned
    decimal for the ratios. *)
Definition rawMetric (name : string) (integer : bool) : regex :=
  [Lit (q ("\'" ++ name ++ "\':{")); Cls (noneOf (q "}")) Star;
   Lit (q "\'raw\':"); GOpen; Cls isDigit Plus]
  ++ (if integer then [] else [Cls (anyOf ".") Opt; Cls isDigit Star])
  ++ [GClose].

Definition metricPatterns : list (string * regex) :=
  [("marketCap", rawMetric "marketCap" true);
   ("trailingPE", rawMetric "trailingPE" false);
   ("forwardPE", rawMetric "forwardPE" false);
   ("pegRatio", rawMetric "pegRatio" false);
   ("priceToBook", rawMetric "priceToBook" false);
   ("enterpriseValue", rawMetric "enterpriseValue" true);
   ("revenueGrowth", rawMetric "revenueGrowth" false);
   ("earningsGrowth", rawMetric "earningsGrowth" false)].

Definition metricStep (html : list ascii) (metrics : gmap string JsValue)
    (mp : string * regex) : gmap string JsValue :=
  match jsMatch (snd mp) html with
  | Some [m1] => <[fst mp := JNum (parseFloatChars m1)]> metrics
  | _ => metrics
  end.

Definition pageMetrics (html : list ascii) : gmap string JsValue :=
  fold_left (metricStep html) metricPatterns ∅.

Record TargetData := {
  t_symbol : string;
  t_industry : string;
  t_sector : string;
  t_peers : list string;
  t_metrics : gmap string JsValue
}.

Record ComparisonRow := {
  symbol : string;
  company_type : string;
  industry : string;
  sector : string;
  market_cap : JsValue;
  trailing_pe : JsValue;
  forward_pe : JsValue;
  peg_ratio : JsValue;
  price_to_book : JsValue;
  enterprise_value : JsValue;
  revenue_growth : JsValue;
  earnings_growth : JsValue;
  report_date : string
}.

Definition comparisonRow (currentDate sym kind : string) (target : TargetData)
    (metrics : gmap string JsValue) : ComparisonRow :=
  {| symbol := sym;
     company_type := kind;
     industry := t_industry target;
     sector := t_sector target;
     market_cap := orElse (member metrics "marketCap") JNull;
     trailing_pe := orElse (member metrics "trailingPE") JNull;
     forward_pe := orElse (member metrics "forwardPE") JNull;
     peg_ratio := orElse (member metrics "pegRatio") JNull;
     price_to_book := orElse (member metrics "priceToBook") JNull;
     enterprise_value := orElse (member metrics "enterpriseValue") JNull;
     revenue_growth := orElse (member metrics "revenueGrowth") JNull;
     earnings_growth := orElse (member metrics "earningsGrowth") JNull;
     report_date := currentDate |}.

(** [peerMetrics] in the order of its keys; a peer whose page could not be
    fetched holds [None] ([null]) and gets no row. *)
Definition toPeerComparisonRows (currentDate : string) (targetData : TargetData)
    (peerMetrics : list (string * option (gmap string JsValue)))
  : list ComparisonRow :=
  comparisonRow currentDate (t_symbol targetData) "target" targetData
    (t_metrics targetData)
  :: flat_map
       (fun pm =>
          match snd pm with
          | Some metrics =>
              [comparisonRow currentDate (fst pm) "peer" targetData metrics]
          | None => []
          end)
       peerMetrics.

Section WithNetwork.
Variable net : string -> Outcome JsValue.
Local Open Scope net_scope.

(** [peerData[peer] = v] on an object that keeps first-insertion order. *)
Fixpoint setKey {A : Type} (k : string) (v : A) (l : list (string * A))
  : list (string * A) :=
  match l with
  | [] => [(k, v)]
  | (k', v') :: l' =>
      if String.eqb k k' then (k, v) :: l' else (k', v') :: setKey k v l'
  end.

Fixpoint fetchPeerMetricsFrom (peers : list string)
    (peerData : list (string * option (gmap string JsValue)))
  : Net.M (list (string * option (gmap string JsValue))) :=
  match peers with
  | [] => Net.ret peerData
  | peer :: peers' =>
      let* peerData' :=
        Net.tryCatch
          (let* data := Net.get net (Net.quoteUrl peer) in
           let* html := Net.asString data in
           Net.ret (setKey peer (Some (pageMetrics html)) peerData))
          (fun _ => Net.ret (setKey peer None peerData)) in
      fetchPeerMetricsFrom peers' peerData'
  end.

Definition fetchPeerMetrics (peers : list string)
  : Net.M (list (string * option (gmap string JsValue))) :=
  fetchPeerMetricsFrom peers [].

End WithNetwork.

End Peers.

(** ** Proxy correlation ([extractStockCorrelationData],
       [toCorrelationRows], [fetchStockCorrelation]) *)

Module Correlation.
Import Js Text Regex Profile.

(** The [metrics] object of one symbol; [None] is a missing member. *)
Record Metrics := {
  price : option JsNum.number;
  change : option JsNum.number;
  changePercent : option JsNum.number;
  beta : option JsNum.number;
  fiftyTwoWeekHigh : option JsNum.number;
  fiftyTwoWeekLow : option JsNum.number;
  volume : option JsNum.number;
  relativePosition : option JsNum.number
}.

Inductive numeral := Unsigned | Signed | Digits.

(** [\'<name>\':{], anything but a closing brace, [\'raw\':] and the
    captured numeral. *)
Definition rawPattern (name : string) (k : numeral) : regex :=
  [Lit (q ("\'" ++ name ++ "\':{")); Cls (noneOf (q "}")) Star;
   Lit (q "\'raw\':"); GOpen]
  ++ match k with
     | Unsigned => [Cls isDigit Plus; Cls (anyOf ".") Opt; Cls isDigit Star]
     | Signed => [Cls (anyOf "-") Opt; Cls isDigit Plus; Cls (anyOf ".") Opt;
                  Cls isDigit Star]
     | Digits => [Cls isDigit Plus]
     end
  ++ [GClose].

Definition capture (r : regex) (html : list ascii) : option (list ascii) :=
  match jsMatch r html with
  | Some [m1] => Some m1
  | _ => None
  end.

Definition truthyMember (m : option JsNum.number) : bool :=
  match m with Some x => JsNum.truthy x | None => false end.

Definition numberOr0 (m : option JsNum.number) : JsNum.number :=
  match m with Some x => x | None => 0%float end.

(** The metrics read from one quote page. *)
Definition pageMetrics (html : list ascii) : Metrics :=
  let float r := option_map parseFloatChars (capture r html) in
  let p := float (rawPattern "regularMarketPrice" Unsigned) in
  let hi := float (rawPattern "fiftyTwoWeekHigh" Unsigned) in
  let lo := float (rawPattern "fiftyTwoWeekLow" Unsigned) in
  {| price := p;
     change := float (rawPattern "regularMarketChange" Signed);
     changePercent := float (rawPattern "regularMarketChangePercent" Signed);
     beta := float (rawPattern "beta" Unsigned);
     fiftyTwoWeekHigh := hi;
     fiftyTwoWeekLow := lo;
     volume := option_map parseIntDigits
                 (capture (rawPattern "regularMarketVolume" Digits) html);
     relativePosition :=
       if truthyMember p && truthyMember hi && truthyMember lo then
         Some (PrimFloat.div (PrimFloat.sub (numberOr0 p) (numberOr0 lo))
                 (PrimFloat.sub (numberOr0 hi) (numberOr0 lo)))
       else None |}.

(** The score of an off-diagonal pair, before it is capped. *)
Definition rawScore (data1 data2 : Metrics) : JsNum.number :=
  let c0 := 0.1%float in
  let c1 :=
    if truthyMember (beta data1) && truthyMember (beta data2) then
      let betaDiff :=
        JsNum.abs (PrimFloat.sub (numberOr0 (beta data1)) (numberOr0 (beta data2))) in
      PrimFloat.add c0
        (PrimFloat.mul
           (JsNum.max 0%float
              (PrimFloat.div (PrimFloat.sub 2%float betaDiff) 2%float))
           0.3%float)
    else c0 in
  let c2 :=
    match changePercent data1, changePercent data2 with
    | Some p1, Some p2 =>
        let perfDiff := JsNum.abs (PrimFloat.sub p1 p2) in
        PrimFloat.add c1
          (PrimFloat.mul
             (JsNum.max 0%float
                (PrimFloat.div (PrimFloat.sub 10%float perfDiff) 10%float))
             0.3%float)
    | _, _ => c1
    end in
  if truthyMember (relativePosition data1) && truthyMember (relativePosition data2)
  then
    let posDiff :=
      JsNum.abs (PrimFloat.sub (numberOr0 (relativePosition data1))
                   (numberOr0 (relativePosition data2))) in
    PrimFloat.add c2
      (PrimFloat.mul (JsNum.max 0%float (PrimFloat.sub 1%float posDiff)) 0.2%float)
  else c2.

(** [Math.min(0.95, Math.max(-0.5, correlation))] *)
Definition cap (correlation : JsNum.number) : JsNum.number :=
  JsNum.min 0.95%float (JsNum.max (-0.5)%float correlation).

(** [Math.round(correlation * 1000) / 1000] *)
Definition round3 (correlation : JsNum.number) : JsNum.number :=
  PrimFloat.div (JsNum.round (PrimFloat.mul correlation 1000%float)) 1000%float.

Definition pairCorrelation (data1 data2 : Metrics) : JsNum.number :=
  round3 (cap (rawScore data1 data2)).

Definition noMetrics : Metrics :=
  {| price := None; change := None; changePercent := None; beta := None;
     fiftyTwoWeekHigh := None; fiftyTwoWeekLow := None; volume := None;
     relativePosition := None |}.

Definition dataOf (priceData : list (string * Metrics)) (s : string) : Metrics :=
  match assoc s priceData with Some m => m | None => noMetrics end.

Fixpoint indexed {A : Type} (i : nat) (l : list A) : list (nat * A) :=
  match l with
  | [] => []
  | a :: l' => (i, a) :: indexed (S i) l'
  end.

(** The two nested index loops over [validSymbols]. *)
Definition buildMatrix (priceData : list (string * Metrics))
  : list (string * list (string * JsNum.number)) :=
  let validSymbols := indexed O (map fst priceData) in
  map (fun is1 =>
         (snd is1,
          map (fun js2 =>
                 (snd js2,
                  if Nat.eqb (fst is1) (fst js2) then 1.0%float
                  else pairCorrelation (dataOf priceData (snd is1))
                         (dataOf priceData (snd js2))))
            validSymbols))
    validSymbols.

Record CorrelationData := {
  symbols : list string;
  priceData : list (string * Metrics);
  correlationMatrix : list (string * list (string * JsNum.number));
  analysisDate : string
}.

Record CorrelationRow := {
  symbol_1 : string;
  symbol_2 : string;
  correlation : option JsNum.number;
  symbol_1_price : JsValue;
  symbol_2_price : JsValue;
  symbol_1_change_percent : JsValue;
  symbol_2_change_percent : JsValue;
  analysis_date : string
}.

(** [m || null] on an optional numeric member. *)
Definition orNull (m : option JsNum.number) : JsValue :=
  match m with
  | Some x => if JsNum.truthy x then JNum x else JNull
  | None => JNull
  end.

(** [correlationMatrix[symbol1][symbol2]]; [None] is [undefined]. *)
Definition entry (matrix : list (string * list (string * JsNum.number)))
    (s1 s2 : string) : option JsNum.number :=
  match assoc s1 matrix with
  | Some row => assoc s2 row
  | None => None
  end.

Definition toCorrelationRows (correlationData : option CorrelationData)
  : list CorrelationRow :=
  match correlationData with
  | None => []
  | Some cd =>
      flat_map
        (fun symbol1 =>
           flat_map
             (fun symbol2 =>
                if negb (String.eqb symbol1 symbol2) then
                  [{| symbol_1 := symbol1;
                      symbol_2 := symbol2;
                      correlation := entry (correlationMatrix cd) symbol1 symbol2;
                      symbol_1_price :=
                        orNull (option_bind _ _ price (assoc symbol1 (priceData cd)));
                      symbol_2_price :=
                        orNull (option_bind _ _ price (assoc symbol2 (priceData cd)));
                      symbol_1_change_percent :=
                        orNull (option_bind _ _ changePercent
                                  (assoc symbol1 (priceData cd)));
                      symbol_2_change_percent :=
                        orNull (option_bind _ _ changePercent
                                  (assoc symbol2 (priceData cd)));
                      analysis_date := analysisDate cd |}]
                else [])
             (symbols cd))
        (symbols cd)
  end.

Definition tooFew : string := "Need at least 2 symbols for correlation analysis".

Section WithNetwork.
Variable net : string -> Outcome JsValue.
Variable currentDate : string.
Local Open Scope net_scope.

(** The [for (const symbol of symbols)] loop; a symbol whose page fails
    is skipped.  [priceData] keeps the order of first insertion (keys
    that are array indices, which JavaScript lists first, are not
    distinguished). *)
Fixpoint fetchMetrics (syms : list string) (acc : list (string * Metrics))
  : Net.M (list (string * Metrics)) :=
  match syms with
  | [] => Net.ret acc
  | symbol :: syms' =>
      let* acc' :=
        Net.tryCatch
          (let* data := Net.get net (Net.quoteUrl symbol) in
           let* html := Net.asString data in
           Net.ret (Peers.setKey symbol (pageMetrics html) acc))
          (fun _ => Net.ret acc) in
      fetchMetrics syms' acc'
  end.

Definition extractStockCorrelationData (syms : list string)
  : Net.M (option CorrelationData) :=
  Net.tryCatch
    (if (length syms <? 2)%nat then Net.throw tooFew
     else
       let* pd := fetchMetrics syms [] in
       let matrix := buildMatrix pd in
       if (0 <? length matrix)%nat then
         Net.ret (Some {| symbols := map fst pd;
                          priceData := pd;
                          correlationMatrix := matrix;
                          analysisDate := currentDate |})
       else Net.ret None)
    (fun _ => Net.ret None).

Definition fetchStockCorrelation (syms : list string)
  : Net.M (list CorrelationRow) :=
  Net.tryCatch
    (if (length syms <? 2)%nat then Net.throw tooFew
     else
       let* correlationData := extractStockCorrelationData syms in
       match correlationData with
       | None => Net.throw "Could not extract correlation data"
       | Some _ => Net.ret (toCorrelationRows correlationData)
       end)
    (fun e => Net.throw e).

End WithNetwork.

End Correlation.

(** ** Pricing row ([toStockPricingRow]) *)

Module Pricing.
Import Js Profile.

(** [getValue] of [toStockPricingRow]: no decoding of [fmt] here. *)
Definition getValue (obj : JsValue) : Outcome JsValue :=
  if negb (truthy obj) then Ret JNull
  else
    match obj with
    | JNum _ => Ret obj
    | _ =>
        (let* raw := getProp obj "raw" in
         if negb (isUndefined raw) then Ret raw else Ret JNull)%js
    end.

Record PricingRow := {
  symbol : string;
  current_price : JsValue;
  previous_close : JsValue;
  open_price : JsValue;
  day_low : JsValue;
  day_high : JsValue;
  regular_market_change : JsValue;
  regular_market_change_percent : JsValue;
  pre_market_price : JsValue;
  pre_market_change : JsValue;
  pre_market_change_percent : JsValue;
  post_market_price : JsValue;
  post_market_change : JsValue;
  post_market_change_percent : JsValue;
  volume : JsValue;
  average_volume : JsValue;
  average_volume_10day : JsValue;
  fifty_two_week_low : JsValue;
  fifty_two_week_high : JsValue;
  fifty_day_average : JsValue;
  two_hundred_day_average : JsValue;
  bid_price : JsValue;
  ask_price : JsValue;
  bid_size : JsValue;
  ask_size : JsValue;
  market_state : JsValue;
  currency : string;
  report_date : string
}.

Definition toStockPricingRow (currentDate sym : string)
    (pricingData : gmap string JsValue) : Outcome PricingRow :=
  (let* cp := getValue (member pricingData "currentPrice") in
   let* rmp := getValue (member pricingData "regularMarketPrice") in
   let* pc := getValue (member pricingData "previousClose") in
   let* op := getValue (member pricingData "open") in
   let* dl := getValue (member pricingData "dayLow") in
   let* dh := getValue (member pricingData "dayHigh") in
   let* rmc := getValue (member pricingData "regularMarketChange") in
   let* rmcp := getValue (member pricingData "regularMarketChangePercent") in
   let* prp := getValue (member pricingData "preMarketPrice") in
   let* prc := getValue (member pricingData "preMarketChange") in
   let* prcp := getValue (member pricingData "preMarketChangePercent") in
   let* pop := getValue (member pricingData "postMarketPrice") in
   let* poc := getValue (member pricingData "postMarketChange") in
   let* pocp := getValue (member pricingData "postMarketChangePercent") in
   let* vol := getValue (member pricingData "volume") in
   let* avol := getValue (member pricingData "averageVolume") in
   let* avol10 := getValue (member pricingData "averageDailyVolume10Day") in
   let* lo52 := getValue (member pricingData "fiftyTwoWeekLow") in
   let* hi52 := getValue (member pricingData "fiftyTwoWeekHigh") in
   let* avg50 := getValue (member pricingData "fiftyDayAverage") in
   let* avg200 := getValue (member pricingData "twoHundredDayAverage") in
   let* bid := getValue (member pricingData "bid") in
   let* ask := getValue (member pricingData "ask") in
   let* bsz := getValue (member pricingData "bidSize") in
   let* asz := getValue (member pricingData "askSize") in
   Ret {| symbol := toUpperCase sym;
          current_price := orElse cp rmp;
          previous_close := pc;
          open_price := op;
          day_low := dl;
          day_high := dh;
          regular_market_change := rmc;
          regular_market_change_percent := rmcp;
          pre_market_price := prp;
          pre_market_change := prc;
          pre_market_change_percent := prcp;
          post_market_price := pop;
          post_market_change := poc;
          post_market_change_percent := pocp;
          volume := vol;
          average_volume := avol;
          average_volume_10day := avol10;
          fifty_two_week_low := lo52;
          fifty_two_week_high := hi52;
          fifty_day_average := avg50;
          two_hundred_day_average := avg200;
          bid_price := bid;
          ask_price := ask;
          bid_size := bsz;
          ask_size := asz;
          market_state := orElse (member pricingData "marketState") (JStr "UNKNOWN");
          currency := "USD";
          report_date := currentDate |})%js.

End Pricing.

(** ** Notions used in the properties *)

(** The two messages with which the top-level fetches reject a page. *)
Definition summaryFailure : string :=
  "Could not extract financial summary data from Yahoo Finance page".
Definition profileFailure : string :=
  "Could not extract company profile data from Yahoo Finance page".

(** A Typed Value whose [raw] member is [r]. *)
Definition TypedValue (x r : Js.JsValue) : Prop :=
  exists fields,
    x = Js.JObj fields /\ Js.assoc "raw" fields = Some r
    /\ Js.isUndefined r = false.

(** The numeric fields of a summary row, each under the snapshot key it is
    read from. *)
Definition metricFields (row : Summary.SummaryRow) : list (string * Js.JsValue) :=
  [("marketCap", Summary.market_cap row);
   ("enterpriseValue", Summary.enterprise_value row);
   ("sharesOutstanding", Summary.shares_outstanding row);
   ("beta", Summary.beta row);
   ("trailingPE", Summary.trailing_pe row);
   ("forwardPE", Summary.forward_pe row);
   ("trailingEps", Summary.trailing_eps row);
   ("forwardEps", Summary.forward_eps row);
   ("enterpriseToEbitda", Summary.enterprise_to_ebitda row);
   ("enterpriseToRevenue", Summary.enterprise_to_revenue row);
   ("pegRatio", Summary.peg_ratio row)].

(** The fields of a profile row that fall back to [null], and those that
    fall back to a fixed text, each under the profile key it is read from. *)
Definition nullableFields (row : Profile.ProfileRow) : list (string * Js.JsValue) :=
  [("address1", Profile.address row); ("city", Profile.city row);
   ("country", Profile.country row); ("phone", Profile.phone row);
   ("zip", Profile.zip row);
   ("fullTimeEmployees", Profile.full_time_employees row)].

Definition describedFields (row : Profile.ProfileRow)
  : list (string * Js.JsValue * string) :=
  [("industry", Profile.industry row, "Information not available");
   ("sector", Profile.sector row, "Information not available");
   ("longBusinessSummary", Profile.long_business_summary row,
    "Company information extracted from page metadata")].

(** The numeric fields of a pricing row that are read from one snapshot
    key. *)
Definition pricingFields (row : Pricing.PricingRow) : list (string * Js.JsValue) :=
  [("previousClose", Pricing.previous_close row);
   ("open", Pricing.open_price row);
   ("dayLow", Pricing.day_low row);
   ("dayHigh", Pricing.day_high row);
   ("regularMarketChange", Pricing.regular_market_change row);
   ("regularMarketChangePercent", Pricing.regular_market_change_percent row);
   ("preMarketPrice", Pricing.pre_market_price row);
   ("preMarketChange", Pricing.pre_market_change row);
   ("preMarketChangePercent", Pricing.pre_market_change_percent row);
   ("postMarketPrice", Pricing.post_market_price row);
   ("postMarketChange", Pricing.post_market_change row);
   ("postMarketChangePercent", Pricing.post_market_change_percent row);
   ("volume", Pricing.volume row);
   ("averageVolume", Pricing.average_volume row);
   ("averageDailyVolume10Day", Pricing.average_volume_10day row);
   ("fiftyTwoWeekLow", Pricing.fifty_two_week_low row);
   ("fiftyTwoWeekHigh", Pricing.fifty_two_week_high row);
   ("fiftyDayAverage", Pricing.fifty_day_average row);
   ("twoHundredDayAverage", Pricing.two_hundred_day_average row);
   ("bid", Pricing.bid_price row);
   ("ask", Pricing.ask_price row);
   ("bidSize", Pricing.bid_size row);
   ("askSize", Pricing.ask_size row)].

(** The [value] member of an observation, whether the observation passes
    the placeholder filter, and whether it is an object at all. *)
Definition observationValue (obs : Js.JsValue) : Js.JsValue :=
  match Js.getProp obs "value" with
  | Js.Ret v => v
  | Js.Throw _ => Js.JUndefined
  end.

Definition usable (obs : Js.JsValue) : bool :=
  negb (Economic.isPlaceholder (observationValue obs))
  && negb (Economic.isNull (observationValue obs)).

Definition isRecord (v : Js.JsValue) : bool :=
  match v with Js.JObj _ => true | _ => false end.

(** The delay events of a trace, and the keys of a list of batches. *)
Definition isSleep (e : Economic.event) : bool :=
  match e with Economic.Sleep _ => true | _ => false end.

Definition keysOf (bs : list (list string * bool)) : list string :=
  concat (map fst bs).

(** A computation whose outcome and requests do not depend on the requests
    made before it. *)
Definition parametric {A : Type} (m : Net.M A) : Prop :=
  forall l, m l = (fst (m []), l ++ snd (m [])).

(** What the worker of an entry stores, and its effect on [results]. *)
Definition written (net : string -> Js.Outcome Js.JsValue)
    (coerce : Js.JsValue -> JsNum.number) (showValue : Js.JsValue -> string)
    (apiKey currentDate : string) (entry : string * string)
  : option Economic.Indicator :=
  match fst (Economic.worker net coerce showValue apiKey currentDate entry []) with
  | Js.Ret w => w
  | Js.Throw _ => None
  end.

Definition store (net : string -> Js.Outcome Js.JsValue)
    (coerce : Js.JsValue -> JsNum.number) (showValue : Js.JsValue -> string)
    (apiKey currentDate : string)
    (results : gmap string Economic.Indicator) (entry : string * string)
  : gmap string Economic.Indicator :=
  match written net coerce showValue apiKey currentDate entry with
  | Some ind => <[fst entry := ind]> results
  | None => results
  end.

(** ** Sample inputs *)

Module Samples.
Import Js Text.

(** Two vintages of one series sharing the observation date. *)
Definition obs103 : Vintage.Observation :=
  {| Vintage.date := "2024-01-01"; Vintage.value := 103%float;
     Vintage.realtime_start := "2024-03-28";
     Vintage.realtime_end := "2024-03-28" |}.
Definition obs100 : Vintage.Observation :=
  {| Vintage.date := "2024-01-01"; Vintage.value := 100%float;
     Vintage.realtime_start := "2024-02-28";
     Vintage.realtime_end := "2024-02-28" |}.
Definition vintageMarch : Vintage.Vintage :=
  {| Vintage.vintageDate := "2024-03-28"; Vintage.observations := [obs103] |}.
Definition vintageFebruary : Vintage.Vintage :=
  {| Vintage.vintageDate := "2024-02-28"; Vintage.observations := [obs100] |}.

(** *** The environment *)

Definition today : string := "2024-06-03".
Definition fredKey : string := "0123456789abcdef0123456789abcdef".

(** [ToNumber] on [null], booleans and [undefined], the only values other
    than numbers that the samples hold where a number is read. *)
Definition coerce (v : JsValue) : JsNum.number :=
  match v with
  | JNull | JBool false => 0%float
  | JBool true => 1%float
  | JNum x => x
  | _ => JsNum.NaN
  end.

Definition integerOf (x : JsNum.number) : option Z :=
  match Prim2SF x with
  | S754_zero _ => Some 0%Z
  | S754_finite s m e =>
      let n := if s then Z.neg m else Z.pos m in
      if (0 <=? e)%Z then Some (n * 2 ^ e)%Z
      else if (Z.pos m mod 2 ^ (- e) =? 0)%Z then Some (n / 2 ^ (- e))%Z
      else None
  | _ => None
  end.

(** [String(v)] on integers, booleans, [null] and [undefined]. *)
Definition showValue (v : JsValue) : string :=
  match v with
  | JUndefined => "undefined"
  | JNull => "null"
  | JBool true => "true"
  | JBool false => "false"
  | JNum x =>
      match integerOf x with
      | Some n => DecimalString.NilZero.string_of_int (Z.to_int n)
      | None => "NaN"
      end
  | JStr s => s
  | _ => "[object Object]"
  end.

(** A network that answers the listed URLs and fails on every other. *)
Definition serve (pages : list (string * JsValue)) : string -> Outcome JsValue :=
  fun url =>
    match assoc url pages with
    | Some v => Ret v
    | None => Throw "Request failed with status code 404"
    end.

Definition offline : string -> Outcome JsValue := serve [].

Definition page (source : string) : JsValue := JStr (string_of_list_ascii (q source)).

(** A parser for the one-member objects [{'raw':<decimal>}] and
    [{'raw':<decimal>,'fmt':'<text>'}] of the samples. *)
Definition parseTyped (s : list ascii) : Outcome JsValue :=
  match Regex.jsMatch
          [Regex.Lit (q "{'raw':"); Regex.GOpen; Regex.Cls Regex.digitOrDot Regex.Plus;
           Regex.GClose; Regex.Lit (q ",'fmt':'"); Regex.GOpen;
           Regex.Cls (Regex.noneOf (q "'")) Regex.Star; Regex.GClose;
           Regex.Lit (q "'}")] s with
  | Some [raw; fmt] =>
      Ret (JObj [("raw", JNum (parseFloatChars raw));
                 ("fmt", JStr (string_of_list_ascii fmt))])
  | _ => Throw "SyntaxError"
  end.

(** *** Pages *)

(** A profile blob in which three of the eleven fields can be read, and
    a site that serves it as the quote page of AAPL. *)
Definition sparseProfile : string :=
  "{\'address1\':\'One Apple Park Way\',\'city\':\'Cupertino\',\'fullTimeEmployees\':164000}".
Definition sparseProfileSite : string -> Outcome JsValue :=
  serve [(Net.quoteUrl "AAPL", page ("<script>" ++ sparseProfile ++ "</script>"))].

(** A profile blob with an address, a phone number and a head count, but
    neither industry nor sector nor summary. *)
Definition addressProfile : string :=
  "{\'address1\':\'One Apple Park Way\',\'city\':\'Cupertino\',\'state\':\'CA\',\'zip\':\'95014\',\'country\':\'United States\',\'phone\':\'(408) 996-1010\',\'fullTimeEmployees\':164000}".
Definition addressSite : string -> Outcome JsValue :=
  serve [(Net.quoteUrl "AAPL", page ("<script>" ++ addressProfile ++ "</script>"))].

(** The escaped market capitalisation member, and nothing else. *)
Definition marketCapFragment : string :=
  "\'marketCap\':{\'raw\':3000000000000,\'fmt\':\'3.00T\'}".

(** A site whose quote page of AAPL holds that member and no element. *)
Definition fragmentSite : string -> Outcome JsValue :=
  serve [(Net.quoteUrl "AAPL", page marketCapFragment)].
Definition noElements : list ascii -> string -> list Summary.FinStreamer :=
  fun _ _ => [].

(** The element that shows the same market capitalisation. *)
Definition marketCapElement : Summary.FinStreamer :=
  {| Summary.dataField := Some "marketCap";
     Summary.dataValue := Some "3.00T";
     Summary.text := "3.00T" |}.

(** An element whose [trailingPE] reads 6.5, on a page whose escaped JSON
    gives 28.4. *)
Definition trailingPEElement : Summary.FinStreamer :=
  {| Summary.dataField := Some "trailingPE";
     Summary.dataValue := Some "6.5";
     Summary.text := "6.50" |}.
Definition trailingPEPage : list ascii :=
  q "\'trailingPE\':{\'raw\':28.4,\'fmt\':\'28.40\'}".

(** A quote page of the ten-year note. *)
Definition notePage : JsValue :=
  page "\'regularMarketPrice\':{\'raw\':4.25,\'fmt\':\'4.25\'}".

(** A FRED answer whose latest observation is the placeholder. *)
Definition placeholderObservation : JsValue :=
  JObj [("realtime_start", JStr "2024-06-03"); ("realtime_end", JStr "2024-06-03");
        ("date", JStr "2024-04-01"); ("value", JStr ".")].
Definition publishedObservation : JsValue :=
  JObj [("realtime_start", JStr "2024-06-03"); ("realtime_end", JStr "2024-06-03");
        ("date", JStr "2024-01-01"); ("value", JStr "28269.174")].
Definition answerFields (observations : list JsValue) : list (string * JsValue) :=
  [("realtime_start", JStr "2024-06-03"); ("realtime_end", JStr "2024-06-03");
   ("units", JStr "lin"); ("count", JNum 2%float);
   ("observations", JArr observations)].
Definition gdpAnswer : JsValue :=
  JObj (answerFields [placeholderObservation; publishedObservation]).
Definition pendingAnswer : JsValue := JObj (answerFields [placeholderObservation]).

(** FRED has only a placeholder for the ten-year rate while the quote page
    of the note is up. *)
Definition pendingRate : string -> Outcome JsValue :=
  serve [(Economic.fredUrl "demo" "DGS10", pendingAnswer);
         (Net.quoteUrl "^TNX", notePage)].

(** FRED is down while the quote page of the note is up. *)
Definition fredDown : string -> Outcome JsValue :=
  serve [(Net.quoteUrl "^TNX", notePage)].

(** FRED serves the observations of GDP. *)
Definition gdpSeries : string -> Outcome JsValue :=
  serve [(FredSeries.observationsUrl showValue fredKey "GDP" 5, gdpAnswer)].

(** Two quote pages whose 52-week high and low coincide below the price. *)
Definition flatRangePage (price range : string) : JsValue :=
  page ("\'regularMarketPrice\':{\'raw\':" ++ price
        ++ "},\'fiftyTwoWeekHigh\':{\'raw\':" ++ range
        ++ "},\'fiftyTwoWeekLow\':{\'raw\':" ++ range ++ "}").
Definition flatRanges : string -> Outcome JsValue :=
  serve [(Net.quoteUrl "AAA", flatRangePage "6" "5");
         (Net.quoteUrl "BBB", flatRangePage "12" "10")].

End Samples.

(** * Further parts of the program

    The peer selection, the screener, the market indices, the tool handler
    of the server and the vintage pipeline.  As for the functions above,
    a fetch function is followed up to its rows: the markdown text built
    from them is left out. *)

(** ** Peer selection ([extractPeerData], [fetchStockPeers]) *)

Module PeerData.
Import Js Text Regex Profile Correlation Peers.

(** The string between escaped quotes after [\'<name>\':]: one or more
    code units other than a quote, before a backslash and a quote. *)
Definition quotedMember (name : string) : regex :=
  [Lit (q ("\'" ++ name ++ "\':\'")); GOpen; Cls (noneOf (q "'")) Plus; GClose;
   Lit (q "\'")].

Definition peerMappings : list (string * list string) :=
  [("AAPL", ["MSFT"; "GOOGL"; "AMZN"; "META"]);
   ("MSFT", ["AAPL"; "GOOGL"; "AMZN"; "META"]);
   ("GOOGL", ["AAPL"; "MSFT"; "AMZN"; "META"]);
   ("META", ["AAPL"; "MSFT"; "GOOGL"; "AMZN"]);
   ("TSLA", ["NIO"; "RIVN"; "F"; "GM"]);
   ("F", ["GM"; "TSLA"; "RIVN"; "NIO"]);
   ("GM", ["F"; "TSLA"; "RIVN"; "NIO"]);
   ("NVDA", ["AMD"; "INTC"; "QCOM"; "AVGO"]);
   ("AMD", ["NVDA"; "INTC"; "QCOM"; "AVGO"]);
   ("INTC", ["NVDA"; "AMD"; "QCOM"; "AVGO"]);
   ("JPM", ["BAC"; "WFC"; "C"; "GS"]);
   ("BAC", ["JPM"; "WFC"; "C"; "GS"]);
   ("JNJ", ["PFE"; "MRK"; "ABBV"; "UNH"]);
   ("PFE", ["JNJ"; "MRK"; "ABBV"; "UNH"]);
   ("WMT", ["TGT"; "COST"; "HD"; "LOW"]);
   ("AMZN", ["WMT"; "TGT"; "COST"; "EBAY"])].

(** [toLowerCase] on one code unit; the letters of the keywords below
    are all in the ASCII range. *)
Definition toLowerChar (c : ascii) : ascii :=
  let n := nat_of_ascii c in
  if (65 <=? n)%nat && (n <=? 90)%nat then ascii_of_nat (n + 32) else c.

(** [industry.toLowerCase().includes(word)] *)
Definition mentions (industry : list ascii) (word : string) : bool :=
  includesStr (list_ascii_of_string word) (map toLowerChar industry).

(** The peers chosen from the keywords of the industry. *)
Definition industryPeers (industry : list ascii) : list string :=
  if mentions industry "auto" then ["F"; "GM"; "HMC"; "TM"]
  else if mentions industry "tech" || mentions industry "software" then
    ["AAPL"; "MSFT"; "GOOGL"; "META"]
  else if mentions industry "bank" || mentions industry "financial" then
    ["JPM"; "BAC"; "WFC"; "C"]
  else if mentions industry "health" || mentions industry "pharma" then
    ["JNJ"; "PFE"; "MRK"; "UNH"]
  else ["AAPL"; "MSFT"; "AMZN"; "GOOGL"].

(** [peerMappings[symbol.toUpperCase()] || []], replaced by the peers of
    the industry when empty.  An upper-cased symbol names no inherited
    property of the table: those all hold a lower-case letter. *)
Definition peersOf (symbol : string) (industry : list ascii) : list string :=
  let peers := match assoc (toUpperCase symbol) peerMappings with
               | Some l => l
               | None => []
               end in
  if Nat.eqb (length peers) 0 then industryPeers industry else peers.

Section WithNetwork.
Variable net : string -> Outcome JsValue.
Variable currentDate : string.
Local Open Scope net_scope.

Definition extractPeerData (symbol : string) : Net.M (option TargetData) :=
  Net.tryCatch
    (let* data := Net.get net (Net.quoteUrl symbol) in
     let* html := Net.asString data in
     match capture (quotedMember "industry") html with
     | None => Net.ret None
     | Some industry =>
         Net.ret (Some {| t_symbol := toUpperCase symbol;
                          t_industry := string_of_list_ascii industry;
                          t_sector :=
                            match capture (quotedMember "sector") html with
                            | Some m1 => string_of_list_ascii m1
                            | None => "Unknown"
                            end;
                          t_peers := firstn 4 (peersOf symbol industry);
                          t_metrics := Peers.pageMetrics html |})
     end)
    (fun _ => Net.ret None).

Definition noTarget : string :=
  "Could not extract target company data for peer analysis".

Definition fetchStockPeers (symbol : string) : Net.M (list ComparisonRow) :=
  Net.tryCatch
    (let* targetData := extractPeerData symbol in
     match targetData with
     | None => Net.throw noTarget
     | Some target =>
         let* peerMetrics := fetchPeerMetrics net (t_peers target) in
         Net.ret (toPeerComparisonRows currentDate target peerMetrics)
     end)
    (fun e => Net.throw e).

End WithNetwork.

End PeerData.

(** ** Stock screener ([extractStockScreenerData],
       [applyScreeningCriteria])

    The pauses between two requests are not part of the log. *)

Module Screener.
Import Js Text Regex Profile Correlation.

Definition stockUniverse : list string :=
  ["AAPL"; "MSFT"; "GOOGL"; "AMZN"; "NVDA"; "META"; "TSLA"; "BRK-B"; "LLY";
   "AVGO"; "JPM"; "V"; "UNH"; "JNJ"; "WMT"; "XOM"; "MA"; "PG"; "HD"; "CVX";
   "NFLX"; "ADBE"; "CRM"; "ORCL"; "INTC"; "AMD"; "QCOM"; "CSCO"; "TXN";
   "AMAT"; "BAC"; "WFC"; "GS"; "MS"; "C"; "AXP"; "SCHW"; "BLK"; "SPGI";
   "CME"; "PFE"; "ABBV"; "TMO"; "ABT"; "DHR"; "MRK"; "BMY"; "MDT"; "AMGN";
   "GILD"; "KO"; "PEP"; "NKE"; "MCD"; "SBUX"; "TGT"; "COST"; "LOW"; "DIS";
   "PYPL"; "BA"; "CAT"; "MMM"; "HON"; "RTX"; "UPS"; "FDX"; "GE"; "DE"; "LMT"].

(** The [patterns] object: each metric with the member it is read from
    and the numeral its pattern captures. *)
Definition patterns : list (string * (string * numeral)) :=
  [("price", ("regularMarketPrice", Unsigned));
   ("marketCap", ("marketCap", Digits));
   ("trailingPE", ("trailingPE", Unsigned));
   ("forwardPE", ("forwardPE", Unsigned));
   ("pegRatio", ("pegRatio", Unsigned));
   ("priceToBook", ("priceToBook", Unsigned));
   ("dividendYield", ("dividendYield", Unsigned));
   ("revenueGrowth", ("revenueGrowth", Unsigned));
   ("earningsGrowth", ("earningsGrowth", Signed));
   ("profitMargins", ("profitMargins", Unsigned));
   ("returnOnEquity", ("returnOnEquity", Unsigned));
   ("debtToEquity", ("debtToEquity", Unsigned));
   ("beta", ("beta", Unsigned));
   ("volume", ("regularMarketVolume", Digits));
   ("averageVolume", ("averageVolume", Digits))].

(** The metrics read with [parseInt]. *)
Definition wholeNumber (metric : string) : bool :=
  String.eqb metric "volume" || String.eqb metric "averageVolume"
  || String.eqb metric "marketCap".

Definition metricStep (html : list ascii) (metrics : gmap string JsNum.number)
    (mp : string * (string * numeral)) : gmap string JsNum.number :=
  match capture (rawPattern (fst (snd mp)) (snd (snd mp))) html with
  | Some m1 =>
      <[fst mp := if wholeNumber (fst mp) then parseIntDigits m1
                  else parseFloatChars m1]> metrics
  | None => metrics
  end.

Definition pageMetrics (html : list ascii) : gmap string JsNum.number :=
  fold_left (metricStep html) patterns ∅.

Definition defaultCriteria : list (string * JsValue) :=
  [("minMarketCap", JNum 1e9%float);
   ("maxPE", JNum 50%float);
   ("minDividendYield", JNull);
   ("maxDebtToEquity", JNull);
   ("minROE", JNull);
   ("minRevenueGrowth", JNull);
   ("sectors", JArr [])].

(** [finalCriteria[k]] where [finalCriteria] is the defaults overlaid with
    the own properties of [criteria], for a key [k] that is not an array
    index: a value that is not an object contributes no such key. *)
Definition finalCriterion (criteria : JsValue) (k : string) : JsValue :=
  match (match criteria with JObj fields => assoc k fields | _ => None end) with
  | Some v => v
  | None =>
      match assoc k defaultCriteria with
      | Some v => v
      | None => JUndefined
      end
  end.

(** One element of the result array: [symbol], [name], [sector], the
    metrics spread after them, and [screenDate]. *)
Record Stock := {
  symbol : string;
  name : string;
  sector : string;
  metrics : gmap string JsNum.number;
  screenDate : string
}.

Section WithEnvironment.
Variable coerce : JsValue -> JsNum.number.
Variable net : string -> Outcome JsValue.
Variable currentDate : string.

Definition toNumber (v : JsValue) : JsNum.number :=
  match v with JNum x => x | _ => coerce v end.

(** The three shapes of a filter, for a criterion [c] and a metric [m]:
    [c && m && m < c], [c && m && m > c] and [c && (!m || m < c)]. *)
Definition below (m : option JsNum.number) (c : JsValue) : bool :=
  truthy c && truthyMember m && JsNum.lt (numberOr0 m) (toNumber c).
Definition above (m : option JsNum.number) (c : JsValue) : bool :=
  truthy c && truthyMember m && JsNum.gt (numberOr0 m) (toNumber c).
Definition lacks (m : option JsNum.number) (c : JsValue) : bool :=
  truthy c && (negb (truthyMember m) || JsNum.lt (numberOr0 m) (toNumber c)).

Definition applyScreeningCriteria (metrics : gmap string JsNum.number)
    (criteria : JsValue) : bool :=
  let c := finalCriterion criteria in
  if below (metrics !! "marketCap") (c "minMarketCap") then false
  else if above (metrics !! "marketCap") (c "maxMarketCap") then false
  else if above (metrics !! "trailingPE") (c "maxPE") then false
  else if below (metrics !! "trailingPE") (c "minPE") then false
  else if lacks (metrics !! "dividendYield") (c "minDividendYield") then false
  else if above (metrics !! "debtToEquity") (c "maxDebtToEquity") then false
  else if lacks (metrics !! "returnOnEquity") (c "minROE") then false
  else if lacks (metrics !! "revenueGrowth") (c "minRevenueGrowth") then false
  else if above (metrics !! "beta") (c "maxBeta") then false
  else if below (metrics !! "beta") (c "minBeta") then false
  else true.

Local Open Scope net_scope.

(** The body of the loop for one symbol: the stock it pushes, if any. *)
Definition screenOne (criteria : JsValue) (sym : string) : Net.M (option Stock) :=
  Net.tryCatch
    (let* data := Net.get net (Net.quoteUrl sym) in
     let* html := Net.asString data in
     let found := pageMetrics html in
     if applyScreeningCriteria found criteria then
       Net.ret (Some {| symbol := sym;
                        name := match capture (PeerData.quotedMember "longName") html with
                                | Some m1 => string_of_list_ascii m1
                                | None => sym
                                end;
                        sector := match capture (PeerData.quotedMember "sector") html with
                                  | Some m1 => string_of_list_ascii m1
                                  | None => "Unknown"
                                  end;
                        metrics := found;
                        screenDate := currentDate |})
     else Net.ret None)
    (fun _ => Net.ret None).

(** [for (let i = 0; i < maxStocks; i++)]; an index past the end of the
    universe would read [undefined]. *)
Fixpoint screenLoop (fuel i : nat) (maxStocks : JsNum.number) (criteria : JsValue)
    (results : list Stock) : Net.M (list Stock) :=
  match fuel with
  | O => Net.ret results
  | S fuel' =>
      if JsNum.lt (JsNum.ofZ (Z.of_nat i)) maxStocks then
        let* pushed := screenOne criteria (nth i stockUniverse "undefined") in
        screenLoop fuel' (S i) maxStocks criteria
          (results ++ match pushed with Some stock => [stock] | None => [] end)
      else Net.ret results
  end.

(** [Math.min(stockUniverse.length, criteria.maxResults || 20)] *)
Definition maxStocksOf (maxResults : JsValue) : JsNum.number :=
  JsNum.min 70%float (toNumber (orElse maxResults (JNum 20%float))).

(** An [undefined] argument is replaced by [{}]. *)
Definition defaulted (criteria : JsValue) : JsValue :=
  match criteria with JUndefined => JObj [] | _ => criteria end.

Definition extractStockScreenerData (criteria : JsValue)
  : Net.M (option (list Stock)) :=
  let criteria := defaulted criteria in
  Net.tryCatch
    (let* maxResults := Net.lift (getProp criteria "maxResults") in
     let* results := screenLoop 71 0 (maxStocksOf maxResults) criteria [] in
     match results with
     | [] => Net.ret None
     | _ :: _ => Net.ret (Some results)
     end)
    (fun _ => Net.ret None).

End WithEnvironment.

End Screener.

(** ** Market indices ([extractMarketIndicesData], [getIndexName],
       [toMarketIndicesRows]) *)

Module Indices.
Import Js Text Regex Profile Correlation.

(** [Object.entries(indices)] *)
Definition indices : list (string * string) :=
  [("SP500", "^GSPC"); ("NASDAQ", "^IXIC"); ("DOW", "^DJI"); ("VIX", "^VIX");
   ("RUSSELL2000", "^RUT"); ("TECH", "XLK"); ("FINANCIALS", "XLF");
   ("HEALTHCARE", "XLV"); ("ENERGY", "XLE"); ("CONSUMER", "XLY")].

Definition names : list (string * string) :=
  [("SP500", "S&P 500");
   ("NASDAQ", "NASDAQ Composite");
   ("DOW", "Dow Jones Industrial Average");
   ("VIX", "CBOE Volatility Index");
   ("RUSSELL2000", "Russell 2000");
   ("TECH", "Technology Sector SPDR");
   ("FINANCIALS", "Financial Sector SPDR");
   ("HEALTHCARE", "Healthcare Sector SPDR");
   ("ENERGY", "Energy Sector SPDR");
   ("CONSUMER", "Consumer Discretionary SPDR")].

(** [names[index] || index] *)
Definition getIndexName (index : string) : string :=
  match assoc index names with
  | Some n => n
  | None => index
  end.

Definition patterns : list (string * (string * numeral)) :=
  [("price", ("regularMarketPrice", Unsigned));
   ("change", ("regularMarketChange", Signed));
   ("changePercent", ("regularMarketChangePercent", Signed));
   ("volume", ("regularMarketVolume", Digits));
   ("marketCap", ("marketCap", Digits))].

Definition wholeNumber (metric : string) : bool :=
  String.eqb metric "volume" || String.eqb metric "marketCap".

Definition metricStep (html : list ascii) (metrics : gmap string JsNum.number)
    (mp : string * (string * numeral)) : gmap string JsNum.number :=
  match capture (rawPattern (fst (snd mp)) (snd (snd mp))) html with
  | Some m1 =>
      <[fst mp := if wholeNumber (fst mp) then parseIntDigits m1
                  else parseFloatChars m1]> metrics
  | None => metrics
  end.

Definition pageMetrics (html : list ascii) : gmap string JsNum.number :=
  fold_left (metricStep html) patterns ∅.

(** One entry of [results]: [symbol], [name], the metrics spread after
    them, and [lastUpdated]. *)
Record IndexData := {
  symbol : string;
  name : string;
  metrics : gmap string JsNum.number;
  lastUpdated : string
}.

Record IndexRow := {
  index_key : string;
  row_symbol : string;
  index_name : string;
  price : JsValue;
  change : JsValue;
  change_percent : JsValue;
  volume : JsValue;
  market_cap : JsValue;
  last_updated : string;
  report_date : string
}.

Section WithNetwork.
Variable net : string -> Outcome JsValue.
Variable currentDate : string.
Local Open Scope net_scope.

(** The body of the loop for one index: the entry it stores, if any. *)
Definition fetchIndex (entry : string * string) : Net.M (option IndexData) :=
  Net.tryCatch
    (let* data := Net.get net (Net.quoteUrl (snd entry)) in
     let* html := Net.asString data in
     let found := pageMetrics html in
     if (0 <? size found)%nat then
       Net.ret (Some {| symbol := snd entry;
                        name := getIndexName (fst entry);
                        metrics := found;
                        lastUpdated := currentDate |})
     else Net.ret None)
    (fun _ => Net.ret None).

(** The keys of [indices] are distinct, so every assignment to
    [results[name]] adds a key, after the ones already there. *)
Fixpoint fetchIndices (entries : list (string * string))
    (results : list (string * IndexData)) : Net.M (list (string * IndexData)) :=
  match entries with
  | [] => Net.ret results
  | entry :: entries' =>
      let* stored := fetchIndex entry in
      fetchIndices entries'
        (match stored with
         | Some data => Peers.setKey (fst entry) data results
         | None => results
         end)
  end.

Definition extractMarketIndicesData : Net.M (option (list (string * IndexData))) :=
  Net.tryCatch
    (let* results := fetchIndices indices [] in
     match results with
     | [] => Net.ret None
     | _ :: _ => Net.ret (Some results)
     end)
    (fun _ => Net.ret None).

Definition toMarketIndicesRows (indicesData : option (list (string * IndexData)))
  : list IndexRow :=
  match indicesData with
  | None => []
  | Some entries =>
      map (fun kd =>
             let data := snd kd in
             {| index_key := fst kd;
                row_symbol := symbol data;
                index_name := name data;
                price := orNull (metrics data !! "price");
                change := orNull (metrics data !! "change");
                change_percent := orNull (metrics data !! "changePercent");
                volume := orNull (metrics data !! "volume");
                market_cap := orNull (metrics data !! "marketCap");
                last_updated := lastUpdated data;
                report_date := currentDate |})
        entries
  end.

Definition fetchMarketIndices : Net.M (list IndexRow) :=
  Net.tryCatch
    (let* indicesData := extractMarketIndicesData in
     match indicesData with
     | None => Net.throw "Could not extract market indices data"
     | Some _ => Net.ret (toMarketIndicesRows indicesData)
     end)
    (fun e => Net.throw e).

End WithNetwork.

End Indices.

(** ** The tool handler ([validateAndProcessInput] and the routing of the
       [CallTool] handler)

    A rejection is kept by its kind, not by the text of its message, and
    a call by the function called and its arguments. *)

Module Server.
Import Js Text Profile.

Definition ALL_METHODS : list string :=
  ["stock_profile"; "stock_summary"; "stock_estimates"; "stock_pricing";
   "stock_financials"; "stock_revenue_breakdown"; "stock_earnings_history";
   "stock_recommendations"; "stock_esg"; "stock_dividends"; "stock_technicals";
   "stock_news"; "stock_peers"; "stock_screener"; "stock_correlation";
   "economic_indicators"; "market_indices";
   "fred_series_search"; "fred_series_data"; "fred_categories"; "fred_releases";
   "fred_vintage_data"; "fred_tags"; "fred_regional_data"; "fred_sources";
   "fred_series_updates"; "fred_series_relationships"; "fred_maps_data"].

Definition noSymbolRequired : list string :=
  ["economic_indicators"; "market_indices"; "fred_categories"; "fred_releases";
   "fred_tags"; "fred_series_updates"].

(** The errors of the handler: the five messages of
    [validateAndProcessInput] and the [TypeError] of a call of [split] on
    a value that has none. *)
Inductive Rejection : Type :=
| MethodRequired
| InvalidMethod
| SymbolRequired
| CorrelationNeedsTwo
| InvalidCriteria
| NotAFunction.

Inductive Checked (A : Type) : Type :=
| Accepted (a : A)
| Rejected (why : Rejection).
Arguments Accepted {A} a.
Arguments Rejected {A} why.

(** [ALL_METHODS.includes(v)]: only a string is equal to a string. *)
Definition listed (l : list string) (v : JsValue) : bool :=
  match v with
  | JStr s => existsb (String.eqb s) l
  | _ => false
  end.

(** [method === name] *)
Definition isMethod (method : JsValue) (name : string) : bool :=
  match method with
  | JStr s => String.eqb s name
  | _ => false
  end.

(** [s.split(',')] *)
Fixpoint split (sep : ascii) (s : list ascii) : list (list ascii) :=
  match s with
  | [] => [[]]
  | c :: s' =>
      if Ascii.eqb c sep then [] :: split sep s'
      else
        match split sep s' with
        | piece :: pieces => (c :: piece) :: pieces
        | [] => [[c]]
        end
  end.

Fixpoint dropWhile (p : ascii -> bool) (s : list ascii) : list ascii :=
  match s with
  | c :: s' => if p c then dropWhile p s' else s
  | [] => []
  end.

(** [s.trim()] *)
Definition trim (s : list ascii) : list ascii :=
  rev (dropWhile isWhite (rev (dropWhile isWhite s))).

(** [l.join(',')] *)
Fixpoint join (sep : ascii) (l : list (list ascii)) : list ascii :=
  match l with
  | [] => []
  | [x] => x
  | x :: l' => x ++ sep :: join sep l'
  end.

Definition nonEmpty (s : list ascii) : bool :=
  match s with [] => false | _ :: _ => true end.

(** [symbol.split(',').map(s => s.trim()).filter(s => s)] *)
Definition symbolsIn (s : string) : list (list ascii) :=
  List.filter nonEmpty (map trim (split ","%char (list_ascii_of_string s))).

(** The call made by the handler. *)
Inductive Call : Type :=
| YahooProfile (symbol : JsValue)
| YahooSummary (symbol : JsValue)
| YahooEstimates (symbol : JsValue)
| YahooPricing (symbol : JsValue)
| YahooFinancials (symbol : JsValue)
| RevenueBreakdown (symbol : JsValue)
| YahooEarningsHistory (symbol : JsValue)
| YahooRecommendations (symbol : JsValue)
| YahooESG (symbol : JsValue)
| StockDividends (symbol : JsValue)
| StockTechnicals (symbol : JsValue)
| StockNews (symbol search_type : JsValue)
| StockPeers (symbol : JsValue)
| StockScreener (criteria : JsValue)
| StockCorrelation (symbols : list string)
| EconomicIndicators
| MarketIndices
| FredSeriesSearch (searchTerms : JsValue) (limit : Z)
| FredSeriesData (seriesId : JsValue) (limit : Z)
| FredCategories (categoryId : JsValue) (limit : Z)
| FredReleases (limit : Z)
| FredVintageData (seriesId : JsValue)
| FredTags (searchText : JsValue) (limit : Z)
| FredRegionalData (tagNames : JsValue) (limit : Z)
| FredSources (sourceId : JsValue) (limit : Z)
| FredSeriesUpdates (limit : Z)
| FredSeriesRelationships (seriesId : JsValue)
| FredMapsData (region : JsValue) (limit : Z)
| UnknownMethod.

Section WithEnvironment.
(** [JSON.parse] on a text, and [ToString] on a value that is not a
    string. *)
Variable JSON_parse : list ascii -> Outcome JsValue.
Variable showValue : JsValue -> string.

Definition textOf (v : JsValue) : list ascii :=
  list_ascii_of_string (match v with JStr s => s | _ => showValue v end).

(** The processed symbol of a correlation request. *)
Definition processCorrelation (symbol : JsValue) : Checked JsValue :=
  match symbol with
  | JStr s =>
      let symbols := symbolsIn s in
      if (length symbols <? 2)%nat then Rejected CorrelationNeedsTwo
      else Accepted (JStr (string_of_list_ascii (join ","%char symbols)))
  | _ => Rejected NotAFunction
  end.

(** The result [{ method, symbol: processedSymbol, search_type }]. *)
Definition validateAndProcessInput (method symbol search_type : JsValue)
  : Checked (JsValue * JsValue * JsValue) :=
  if negb (truthy method) then Rejected MethodRequired
  else if negb (listed ALL_METHODS method) then Rejected InvalidMethod
  else if negb (truthy symbol) && negb (listed noSymbolRequired method) then
    Rejected SymbolRequired
  else
    match (if isMethod method "stock_correlation" && truthy symbol
           then processCorrelation symbol
           else Accepted symbol) with
    | Rejected why => Rejected why
    | Accepted processedSymbol =>
        if isMethod method "stock_screener" && truthy symbol then
          match JSON_parse (textOf symbol) with
          | Ret _ => Accepted (method, processedSymbol, search_type)
          | Throw _ => Rejected InvalidCriteria
          end
        else Accepted (method, processedSymbol, search_type)
    end.

(** The cases of the [switch], in the order of the source. *)
Definition route (method symbol search_type : JsValue) : Checked Call :=
  if isMethod method "stock_profile" then Accepted (YahooProfile symbol)
  else if isMethod method "stock_summary" then Accepted (YahooSummary symbol)
  else if isMethod method "stock_estimates" then Accepted (YahooEstimates symbol)
  else if isMethod method "stock_pricing" then Accepted (YahooPricing symbol)
  else if isMethod method "stock_financials" then
    Accepted (YahooFinancials symbol)
  else if isMethod method "stock_revenue_breakdown" then
    Accepted (RevenueBreakdown symbol)
  else if isMethod method "stock_earnings_history" then
    Accepted (YahooEarningsHistory symbol)
  else if isMethod method "stock_recommendations" then
    Accepted (YahooRecommendations symbol)
  else if isMethod method "stock_esg" then Accepted (YahooESG symbol)
  else if isMethod method "stock_dividends" then Accepted (StockDividends symbol)
  else if isMethod method "stock_technicals" then
    Accepted (StockTechnicals symbol)
  else if isMethod method "stock_news" then
    Accepted (StockNews symbol search_type)
  else if isMethod method "stock_peers" then Accepted (StockPeers symbol)
  else if isMethod method "stock_screener" then
    Accepted
      (StockScreener
         (match JSON_parse (textOf (orElse symbol (JStr "{}"))) with
          | Ret criteria => criteria
          | Throw _ => JObj [("maxResults", JNum 10%float)]
          end))
  else if isMethod method "stock_correlation" then
    if truthy symbol then
      match symbol with
      | JStr s =>
          Accepted
            (StockCorrelation
               (map (fun piece => toUpperCase (string_of_list_ascii (trim piece)))
                  (split ","%char (list_ascii_of_string s))))
      | _ => Rejected NotAFunction
      end
    else Accepted (StockCorrelation [])
  else if isMethod method "economic_indicators" then Accepted EconomicIndicators
  else if isMethod method "market_indices" then Accepted MarketIndices
  else if isMethod method "fred_series_search" then
    Accepted (FredSeriesSearch (orElse symbol (JStr "")) 10)
  else if isMethod method "fred_series_data" then
    Accepted (FredSeriesData (orElse symbol (JStr "")) 10)
  else if isMethod method "fred_categories" then
    Accepted (FredCategories (orElse symbol JNull) 20)
  else if isMethod method "fred_releases" then Accepted (FredReleases 20)
  else if isMethod method "fred_vintage_data" then
    Accepted (FredVintageData symbol)
  else if isMethod method "fred_tags" then
    Accepted (FredTags (orElse symbol (JStr "")) 20)
  else if isMethod method "fred_regional_data" then
    Accepted (FredRegionalData symbol 20)
  else if isMethod method "fred_sources" then
    Accepted (FredSources (orElse symbol JNull) 20)
  else if isMethod method "fred_series_updates" then
    Accepted (FredSeriesUpdates 20)
  else if isMethod method "fred_series_relationships" then
    Accepted (FredSeriesRelationships symbol)
  else if isMethod method "fred_maps_data" then
    Accepted (FredMapsData (orElse symbol (JStr "state")) 20)
  else Accepted UnknownMethod.

(** The handler up to the call: validation, then routing of the
    processed input. *)
Definition handle (method symbol search_type : JsValue) : Checked Call :=
  match validateAndProcessInput method symbol search_type with
  | Rejected why => Rejected why
  | Accepted (method', symbol', search_type') =>
      route method' symbol' search_type'
  end.

End WithEnvironment.

End Server.

(** ** Vintages as fetched ([extractFredVintageData], [analyzeRevisions]
       on its entries, [toFredVintageRows], [fetchFredVintageData])

    The entries are built from whatever FRED answered, so the members of
    an observation are values, not texts.  The callbacks of the
    [Promise.all] issue their requests in the order of the dates, and each
    makes one request only: the log is that of a loop over the dates. *)

Module VintageFetch.
Import Js Text Profile Economic.

Record Observation := {
  date : JsValue;
  value : JsNum.number;
  realtime_start : JsValue;
  realtime_end : JsValue
}.

(** [{ vintageDate, observations }] *)
Record Vintage := {
  vintageDate : JsValue;
  observations : list Observation
}.

Record Revision := {
  rev_date : JsValue;
  latestValue : JsNum.number;
  previousValue : JsNum.number;
  revision : JsNum.number;
  revisionPercent : JsNum.number;
  vintageComparison : string
}.

Record RevisionAnalysis := {
  hasRevisions : bool;
  revisions : option (list Revision);
  analysis : Vintage.AnalysisText
}.

Record VintageResult := {
  seriesId : string;
  analysisType : string;
  vintageData : list Vintage;
  revisionAnalysis : RevisionAnalysis;
  totalVintages : nat
}.

Record VintageRow := {
  series_id : string;
  vintage_date : JsValue;
  observation_date : JsValue;
  row_value : JsNum.number;
  row_realtime_start : JsValue;
  row_realtime_end : JsValue;
  analysis_type : string;
  fetch_date : string
}.

(** [a === b] for members of two different answers: an array or an
    object of one is never the same object as one of the other. *)
Definition strictEq (a b : JsValue) : bool :=
  match a, b with
  | JUndefined, JUndefined => true
  | JNull, JNull => true
  | JBool x, JBool y => Bool.eqb x y
  | JNum x, JNum y => PrimFloat.eqb x y
  | JStr s, JStr t => String.eqb s t
  | _, _ => false
  end.

Definition insufficient : RevisionAnalysis :=
  {| hasRevisions := false; revisions := None;
     analysis := Vintage.InsufficientData |}.

Definition report (revs : list Revision) : RevisionAnalysis :=
  {| hasRevisions := (0 <? length revs)%nat;
     revisions := Some revs;
     analysis := match revs with
                 | r :: _ => Vintage.LatestRevision (revision r) (revisionPercent r)
                 | [] => Vintage.NoRevisionsDetected
                 end |}.

Definition keyRequired : string :=
  "Valid FRED API key required for vintage data analysis. Please set FRED_API_KEY environment variable.".

Definition idRequired : string :=
  "Series ID is required for FRED vintage data analysis".

Definition noDates (seriesId : string) : string :=
  "No vintage dates available for series " ++ seriesId.

Section WithEnvironment.
Variable net : string -> Outcome JsValue.
Variable showValue : JsValue -> string.
Variable currentDate : string.
(** [process.env.FRED_API_KEY], [None] when unset. *)
Variable apiKey : option string.

(** A value inside a template literal. *)
Definition textOf (v : JsValue) : string :=
  match v with JStr s => s | _ => showValue v end.

Definition compare (latest previous : Vintage) (latestData matching : Observation)
  : Revision :=
  let rev := PrimFloat.sub (value latestData) (value matching) in
  let pct := PrimFloat.mul (PrimFloat.div rev (value matching)) 100%float in
  {| rev_date := date latestData;
     latestValue := value latestData;
     previousValue := value matching;
     revision := rev;
     revisionPercent := pct;
     vintageComparison :=
       (textOf (vintageDate previous) ++ " → " ++ textOf (vintageDate latest))%string |}.

(** [analyzeRevisions(vintageAnalysis)]: an element is [None] where the
    array holds [undefined]. *)
Definition analyzeRevisions (vintageData : list (option Vintage))
  : Outcome RevisionAnalysis :=
  match vintageData with
  | latestVintage :: previousVintage :: _ =>
      match latestVintage with
      | None => Throw typeError
      | Some latest =>
          match observations latest with
          | [] => Ret (report [])
          | latestData :: _ =>
              match previousVintage with
              | None => Throw typeError
              | Some previous =>
                  match observations previous with
                  | [] => Ret (report [])
                  | _ :: _ =>
                      match find (fun obs => strictEq (date obs) (date latestData))
                              (observations previous) with
                      | Some matchingPrevious =>
                          Ret (report [compare latest previous latestData
                                         matchingPrevious])
                      | None => Ret (report [])
                      end
                  end
              end
          end
      end
  | _ => Ret insufficient
  end.

Definition vintageDatesUrl (key seriesId : string) : string :=
  ("https://api.stlouisfed.org/fred/series/vintagedates?series_id=" ++ seriesId
     ++ "&api_key=" ++ key ++ "&file_type=json&limit=20&sort_order=desc")%string.

Definition dataUrl (key seriesId : string) (vintageDate : JsValue) : string :=
  ("https://api.stlouisfed.org/fred/series/observations?series_id=" ++ seriesId
     ++ "&api_key=" ++ key ++ "&file_type=json&vintage_dates="
     ++ textOf vintageDate ++ "&limit=10&sort_order=desc")%string.

(** The guard on the answer of the first request and
    [vintage_dates.slice(0, 5)], followed by the call of [map]: a text or
    an object has no [map], respectively no [slice]. *)
Definition datesOf (seriesId : string) (data : JsValue) : Outcome (list JsValue) :=
  if truthy data then
    (let* dates := getProp data "vintage_dates" in
     if truthy dates then
       match dates with
       | JArr l =>
           match l with
           | [] => Throw (noDates seriesId)
           | _ :: _ => Ret (firstn 5 l)
           end
       | JObj fields =>
           match assoc "length" fields with
           | Some (JNum len) =>
               if PrimFloat.eqb len 0%float then Throw (noDates seriesId)
               else Throw typeError
           | _ => Throw typeError
           end
       | _ => Throw typeError
       end
     else Throw (noDates seriesId))%js
  else Throw (noDates seriesId).

(** One element of [validObs.map(...)]. *)
Definition toObservation (obs : JsValue) : Outcome Observation :=
  (let* d := getProp obs "date" in
   let* v := getProp obs "value" in
   let* rs := getProp obs "realtime_start" in
   let* re := getProp obs "realtime_end" in
   Ret {| date := d;
          value := parseFloatValue showValue v;
          realtime_start := rs;
          realtime_end := re |})%js.

Fixpoint toObservations (l : list JsValue) : Outcome (list Observation) :=
  match l with
  | [] => Ret []
  | obs :: l' =>
      (let* o := toObservation obs in
       let* rest := toObservations l' in
       Ret (o :: rest))%js
  end.

(** What the callback returns for an answer: [None] when it falls
    through its [if] and returns nothing. *)
Definition vintageOf (vintageDate data : JsValue) : Outcome (option Vintage) :=
  if truthy data then
    (let* observations := getProp data "observations" in
     if truthy observations then
       match observations with
       | JArr l =>
           let* valid := filterValid l in
           let* obs := toObservations (firstn 3 valid) in
           Ret (Some {| vintageDate := vintageDate; observations := obs |})
       | _ => Throw typeError
       end
     else Ret None)%js
  else Ret None.

Local Open Scope net_scope.

(** The callback of [vintageDates.map]. *)
Definition fetchVintage (key seriesId : string) (vintageDate : JsValue)
  : Net.M (option Vintage) :=
  Net.tryCatch
    (let* data := Net.get net (dataUrl key seriesId vintageDate) in
     Net.lift (vintageOf vintageDate data))
    (fun _ => Net.ret (Some {| vintageDate := vintageDate; observations := [] |})).

Fixpoint fetchVintages (key seriesId : string) (vintageDates : list JsValue)
  : Net.M (list (option Vintage)) :=
  match vintageDates with
  | [] => Net.ret []
  | vintageDate :: rest =>
      let* v := fetchVintage key seriesId vintageDate in
      let* vs := fetchVintages key seriesId rest in
      Net.ret (v :: vs)
  end.

(** [vintageAnalysis.filter(v => v.observations.length > 0)] *)
Fixpoint withObservations (l : list (option Vintage)) : Outcome (list Vintage) :=
  match l with
  | [] => Ret []
  | None :: _ => Throw typeError
  | Some v :: l' =>
      (let* rest := withObservations l' in
       Ret (match observations v with
            | [] => rest
            | _ :: _ => v :: rest
            end))%js
  end.

Definition extractFredVintageData (seriesId analysisType : string)
  : Net.M VintageResult :=
  Net.tryCatch
    (match apiKey with
     | None => Net.throw keyRequired
     | Some key =>
         if String.eqb key "" || String.eqb key "demo" then Net.throw keyRequired
         else
           let* data := Net.get net (vintageDatesUrl key seriesId) in
           let* vintageDates := Net.lift (datesOf seriesId data) in
           let* vintageAnalysis := fetchVintages key seriesId vintageDates in
           let* revisionAnalysis := Net.lift (analyzeRevisions vintageAnalysis) in
           let* kept := Net.lift (withObservations vintageAnalysis) in
           Net.ret {| seriesId := seriesId;
                      analysisType := analysisType;
                      vintageData := kept;
                      revisionAnalysis := revisionAnalysis;
                      totalVintages := length vintageDates |}
     end)
    (fun e => Net.throw e).

Definition toFredVintageRows (vintageData : VintageResult) : list VintageRow :=
  flat_map
    (fun vintage =>
       map (fun obs =>
              {| series_id := seriesId vintageData;
                 vintage_date := vintageDate vintage;
                 observation_date := date obs;
                 row_value := value obs;
                 row_realtime_start := realtime_start obs;
                 row_realtime_end := realtime_end obs;
                 analysis_type := analysisType vintageData;
                 fetch_date := currentDate |})
         (observations vintage))
    (VintageFetch.vintageData vintageData).

Definition fetchFredVintageData (seriesId analysisType : string)
  : Net.M (list VintageRow) :=
  Net.tryCatch
    (match Server.trim (list_ascii_of_string seriesId) with
     | [] => Net.throw idRequired
     | _ :: _ =>
         let* vintageData := extractFredVintageData seriesId analysisType in
         Net.ret (toFredVintageRows vintageData)
     end)
    (fun e => Net.throw e).

End WithEnvironment.

End VintageFetch.

(** ** Notions used in the further properties *)

(** Whether a code unit can begin the text that [parseFloat] reads as a
    number: white space, a sign, a digit, a point or the I of Infinity. *)
Definition numericStart (c : ascii) : bool :=
  Text.isWhite c || Ascii.eqb c "-"%char || Ascii.eqb c "+"%char
  || Ascii.eqb c "I"%char || Text.isDigit c || Ascii.eqb c "."%char.

(** The three texts for which [parseFinancialValue] returns [null]. *)
Definition blankTexts : list string := [""; "--"; "N/A"].

(** The snapshot of [extractSummaryData] after its two scans of the HTML,
    before the escaped-JSON members are read. *)
Definition htmlSnapshot (html : list ascii) (els : list Summary.FinStreamer)
  : gmap string Js.JsValue :=
  fold_left (Summary.additionalStep html) Summary.additionalMetrics
    (Summary.domScan els).

(** The requests that the worker of an entry makes. *)
Definition requests (net : string -> Js.Outcome Js.JsValue)
    (coerce : Js.JsValue -> JsNum.number) (showValue : Js.JsValue -> string)
    (apiKey currentDate : string) (entry : string * string) : list string :=
  snd (Economic.worker net coerce showValue apiKey currentDate entry []).

(** Whether the body of the worker's [try] throws: the FRED request fails
    or reading its answer raises. *)
Definition attemptThrows (net : string -> Js.Outcome Js.JsValue)
    (coerce : Js.JsValue -> JsNum.number) (showValue : Js.JsValue -> string)
    (apiKey : string) (sid : string) : bool :=
  match Js.bind (net (Economic.fredUrl apiKey sid))
          (Economic.primaryValue coerce showValue sid) with
  | Js.Throw _ => true
  | Js.Ret _ => false
  end.

(** Whether the quote page of a symbol is served, as a text. *)
Definition fetched (net : string -> Js.Outcome Js.JsValue) (symbol : string) : bool :=
  match net (Net.quoteUrl symbol) with
  | Js.Ret (Js.JStr _) => true
  | _ => false
  end.

(** How many times the screener's loop runs before its test [i <
    maxStocks] fails, counting from [i]. *)
Fixpoint loopCount (fuel i : nat) (maxStocks : JsNum.number) : nat :=
  match fuel with
  | O => O
  | S fuel' =>
      if JsNum.lt (JsNum.ofZ (Z.of_nat i)) maxStocks
      then S (loopCount fuel' (S i) maxStocks)
      else O
  end.

Definition stocksScreened (maxStocks : JsNum.number) : nat :=
  loopCount 71 0 maxStocks.

(** A metric that is missing, zero or NaN. *)
Definition unknown (metrics : gmap string JsNum.number) (k : string) : Prop :=
  Correlation.truthyMember (metrics !! k) = false.

(** The criteria that [applyScreeningCriteria] reads. *)
Definition criteriaKeys : list string :=
  ["minMarketCap"; "maxMarketCap"; "maxPE"; "minPE"; "minDividendYield";
   "maxDebtToEquity"; "minROE"; "minRevenueGrowth"; "maxBeta"; "minBeta"].

(** Whether the page of an index is served as a text that holds at least
    one of the five metrics. *)
Definition quoted (net : string -> Js.Outcome Js.JsValue) (symbol : string) : bool :=
  match net (Net.quoteUrl symbol) with
  | Js.Ret (Js.JStr doc) =>
      (0 <? size (Indices.pageMetrics (list_ascii_of_string doc)))%nat
  | _ => false
  end.

(** What the industry pattern captures in the quote page of a symbol. *)
Definition industryOf (net : string -> Js.Outcome Js.JsValue) (symbol : string)
  : option (list ascii) :=
  match net (Net.quoteUrl symbol) with
  | Js.Ret (Js.JStr doc) =>
      Correlation.capture (PeerData.quotedMember "industry")
        (list_ascii_of_string doc)
  | _ => None
  end.

(** The symbol and the kind of a comparison row. *)
Definition rowKey (r : Peers.ComparisonRow) : string * string :=
  (Peers.symbol r, Peers.company_type r).

(** Whether the answer to the request for a vintage is served without a
    list of observations in it. *)
Definition lacksObservations (net : string -> Js.Outcome Js.JsValue)
    (url : string) : bool :=
  match net url with
  | Js.Ret data =>
      negb (Js.truthy data && Js.truthy (FredSeries.optProp data "observations"))
  | Js.Throw _ => false
  end.

(** An observation, a vintage and an analysis whose members are texts, as
    entries of the fetched kind. *)
Definition ofObservation (o : Vintage.Observation) : VintageFetch.Observation :=
  {| VintageFetch.date := Js.JStr (Vintage.date o);
     VintageFetch.value := Vintage.value o;
     VintageFetch.realtime_start := Js.JStr (Vintage.realtime_start o);
     VintageFetch.realtime_end := Js.JStr (Vintage.realtime_end o) |}.

Definition ofVintage (v : Vintage.Vintage) : VintageFetch.Vintage :=
  {| VintageFetch.vintageDate := Js.JStr (Vintage.vintageDate v);
     VintageFetch.observations := map ofObservation (Vintage.observations v) |}.

Definition ofRevision (r : Vintage.Revision) : VintageFetch.Revision :=
  {| VintageFetch.rev_date := Js.JStr (Vintage.rev_date r);
     VintageFetch.latestValue := Vintage.latestValue r;
     VintageFetch.previousValue := Vintage.previousValue r;
     VintageFetch.revision := Vintage.revision r;
     VintageFetch.revisionPercent := Vintage.revisionPercent r;
     VintageFetch.vintageComparison := Vintage.vintageComparison r |}.

Definition ofAnalysis (a : Vintage.RevisionAnalysis) : VintageFetch.RevisionAnalysis :=
  {| VintageFetch.hasRevisions := Vintage.hasRevisions a;
     VintageFetch.revisions := option_map (map ofRevision) (Vintage.revisions a);
     VintageFetch.analysis := Vintage.analysis a |}.

(** ** Further sample inputs *)

Module Cases.
Import Js Text Samples.

(** An element of the market capitalisation whose text is no number. *)
Definition wordElement : Summary.FinStreamer :=
  {| Summary.dataField := Some "marketCap";
     Summary.dataValue := None;
     Summary.text := "abc" |}.

(** A site on which the quote page of AAA alone is served. *)
Definition oneQuote : string -> Outcome JsValue :=
  serve [(Net.quoteUrl "AAA", flatRangePage "6" "5")].

(** Criteria that name a sector list only. *)
Definition sectorCriteria : JsValue :=
  JObj [("sectors", JArr [JStr "Technology"])].

(** A [JSON.parse] that accepts the empty object only. *)
Definition parseEmptyObject (s : list ascii) : Outcome JsValue :=
  if String.eqb (string_of_list_ascii s) "{}" then Ret (JObj [])
  else Throw "SyntaxError".

(** FRED lists two vintages of GDP and serves the observations of the
    later one; the request for the earlier one fails. *)
Definition vintageDates : JsValue :=
  JObj [("vintage_dates", JArr [JStr "2024-03-28"; JStr "2024-02-28"])].
Definition vintageSite : string -> Outcome JsValue :=
  serve [(VintageFetch.vintageDatesUrl fredKey "GDP", vintageDates);
         (VintageFetch.dataUrl showValue fredKey "GDP" (JStr "2024-03-28"),
          gdpAnswer)].

(** The same, but the answer for the earlier vintage is served and holds
    no observation list. *)
Definition lackingSite : string -> Outcome JsValue :=
  serve [(VintageFetch.vintageDatesUrl fredKey "GDP", vintageDates);
         (VintageFetch.dataUrl showValue fredKey "GDP" (JStr "2024-03-28"),
          gdpAnswer);
         (VintageFetch.dataUrl showValue fredKey "GDP" (JStr "2024-02-28"),
          JObj [])].

End Cases.

(** * Properties *)

(** ** Scanning and matching *)

Module TextFacts.
Import Text Regex Decode.

Lemma span_snoc_stop (p : ascii -> bool) (a : list ascii) (c : ascii) :
  p c = false ->
  span p (a ++ [c]) = (fst (span p a), snd (span p a) ++ [c]).
Proof.
  intros Hc. induction a as [|x a IH]; simpl.
  - rewrite Hc. reflexivity.
  - destruct (p x); [|reflexivity].
    rewrite IH. destruct (span p a). reflexivity.
Qed.

Lemma span_all (p : ascii -> bool) (a : list ascii) :
  Forall (fun x => p x = true) a -> span p a = (a, []).
Proof.
  induction 1 as [|x a Hx _ IH]; simpl; [reflexivity|].
  rewrite Hx, IH. reflexivity.
Qed.

Lemma span_rest (p : ascii -> bool) (a : list ascii) :
  a = fst (span p a) ++ snd (span p a)
  /\ match snd (span p a) with d :: _ => p d = false | [] => True end.
Proof.
  induction a as [|x a [IH1 IH2]]; simpl; [auto|].
  destruct (p x) eqn:Hx.
  - destruct (span p a) as [u v]; simpl in *. split; [congruence|exact IH2].
  - simpl. auto.
Qed.

Lemma Forall_span_rest (P : ascii -> Prop) (p : ascii -> bool) (a : list ascii) :
  Forall P a -> Forall P (snd (span p a)).
Proof.
  intros H. destruct (span_rest p a) as [E _].
  rewrite E in H. apply Forall_app in H. tauto.
Qed.


Ltac by_chars a :=
  destruct a as [[] [] [] [] [] [] [] []]; try discriminate; try reflexivity;
  repeat split; try discriminate; try reflexivity.

(** What a digit or a dot is not. *)
Lemma digitOrDot_plain (a : ascii) :
  digitOrDot a = true ->
  isWhite a = false /\ anyOf "-+I,TBMKGNeE" a = false
  /\ (isDigit a = false -> a = "."%char).
Proof. by_chars a. Qed.

(** A unit suffix ends every numeral: it is no digit, dot or exponent mark. *)
Lemma suffix_inert (c : ascii) :
  anyOf "BKMGT" c = true ->
  isDigit c = false /\ digitOrDot c = false /\ Ascii.eqb c "."%char = false
  /\ Ascii.eqb c "e"%char = false /\ Ascii.eqb c "E"%char = false
  /\ Ascii.eqb c ","%char = false.
Proof. by_chars c. Qed.

Lemma startsWith_head_neq (x a : ascii) (p s : list ascii) :
  Ascii.eqb x a = false -> startsWith (x :: p) (a :: s) = false.
Proof. intros H. simpl. rewrite H. reflexivity. Qed.

Lemma scanExponent_after (r : list ascii) (c : ascii) :
  Forall (fun a => digitOrDot a = true) r ->
  match r with d :: _ => isDigit d = false | [] => True end ->
  Ascii.eqb c "e"%char = false -> Ascii.eqb c "E"%char = false ->
  scanExponent (r ++ [c]) = scanExponent r.
Proof.
  intros Hr Hd He HE. destruct r as [|d r]; simpl.
  - rewrite He, HE. reflexivity.
  - apply Forall_cons_1 in Hr as [Hdd _].
    destruct (digitOrDot_plain d Hdd) as (_ & _ & Hisdot).
    rewrite (Hisdot Hd). reflexivity.
Qed.

Lemma scanDecimal_suffix (neg : bool) (num : list ascii) (c : ascii) :
  Forall (fun a => digitOrDot a = true) num ->
  anyOf "BKMGT" c = true ->
  scanDecimal neg (num ++ [c]) = scanDecimal neg num.
Proof.
  intros Hnum Hc.
  destruct (suffix_inert c Hc) as (Hd & _ & Hdot & He & HE & _).
  unfold scanDecimal. rewrite (span_snoc_stop isDigit num c Hd).
  destruct (span_rest isDigit num) as [_ Hhead].
  pose proof (Forall_span_rest _ isDigit num Hnum) as Hrest.
  destruct (span isDigit num) as [ip r1]; simpl in *.
  destruct r1 as [|d r]; simpl.
  - rewrite Hdot. simpl. rewrite He, HE. reflexivity.
  - apply Forall_cons_1 in Hrest as [Hdd Hr].
    destruct (digitOrDot_plain d Hdd) as (_ & _ & Hisdot).
    rewrite (Hisdot Hhead). simpl.
    rewrite (span_snoc_stop isDigit r c Hd).
    destruct (span_rest isDigit r) as [_ Hhead2].
    pose proof (Forall_span_rest _ isDigit r Hr) as Hrest2.
    destruct (span isDigit r) as [fp r2]; simpl in *.
    rewrite (scanExponent_after r2 c Hrest2 Hhead2 He HE). reflexivity.
Qed.

Lemma parseFloatChars_suffix (num : list ascii) (c : ascii) :
  numeral num -> anyOf "BKMGT" c = true ->
  parseFloatChars (num ++ [c]) = parseFloatChars num.
Proof.
  intros [Hne Hnum] Hc. destruct num as [|a num]; [congruence|].
  pose proof Hnum as Hall.
  apply Forall_cons_1 in Hnum as [Ha _].
  destruct (digitOrDot_plain a Ha) as (Hw & Hset & _).
  assert (Hm : Ascii.eqb a "-"%char = false /\ Ascii.eqb a "+"%char = false
               /\ Ascii.eqb a "I"%char = false).
  { unfold anyOf in Hset. simpl in Hset.
    repeat (apply orb_false_elim in Hset as [? Hset]). auto. }
  destruct Hm as (Hminus & Hplus & HI).
  unfold parseFloatChars. simpl app. simpl span. rewrite Hw. simpl snd.
  unfold readSign. rewrite Hminus, Hplus.
  change (list_ascii_of_string "Infinity")
    with ("I"%char :: list_ascii_of_string "nfinity").
  rewrite !startsWith_head_neq by (rewrite Ascii.eqb_sym; exact HI).
  apply (scanDecimal_suffix false (a :: num) c Hall Hc).
Qed.

End TextFacts.

Module RegexFacts.
Import Text Regex TextFacts.

Lemma span_split (p : ascii -> bool) (s run rest : list ascii) :
  span p s = (run, rest) ->
  firstn (length run) s = run /\ skipn (length run) s = rest.
Proof.
  intros E. destruct (span_rest p s) as [Hs _]. rewrite E in Hs. simpl in Hs.
  subst s. split.
  - rewrite firstn_app, firstn_all, Nat.sub_diag. simpl. apply app_nil_r.
  - rewrite skipn_app, skipn_all, Nat.sub_diag. reflexivity.
Qed.

Lemma matchHere_group_open (r : regex) (s : list ascii) :
  matchHere (GOpen :: r) s = option_map (cons []) (matchHere r s).
Proof.
  change (matchHere (GOpen :: r) s)
    with (match option_map (cons []) (matchHere r s) with
          | Some b => Some b
          | None => None
          end).
  destruct (matchHere r s); reflexivity.
Qed.

Lemma matchHere_group_close (r : regex) (s : list ascii) :
  matchHere (GClose :: r) s = option_map (cons []) (matchHere r s).
Proof.
  change (matchHere (GClose :: r) s)
    with (match option_map (cons []) (matchHere r s) with
          | Some b => Some b
          | None => None
          end).
  destruct (matchHere r s); reflexivity.
Qed.

(** A greedy [+] takes its whole run when the rest of the pattern accepts
    what follows. *)
Lemma matchHere_plus_run (p : ascii -> bool) (r : regex)
    (s run rest : list ascii) (cs : list (list ascii)) :
  span p s = (run, rest) -> run <> [] ->
  matchHere r rest = Some cs ->
  matchHere (Cls p Plus :: r) s = Some (run :: cs).
Proof.
  intros E Hne Hr. destruct (span_split p s run rest E) as [Hf Hs].
  change (matchHere (Cls p Plus :: r) s)
    with (firstSome
            (fun n => option_map (cons (firstn n s)) (matchHere r (skipn n s)))
            (downTo1 (runLength p s))).
  unfold runLength. rewrite E. simpl fst.
  destruct run as [|x run]; [congruence|].
  simpl downTo1. simpl firstSome.
  change (S (length run)) with (length (x :: run)).
  rewrite Hf, Hs, Hr. reflexivity.
Qed.

(** An optional class takes the character in front of it when the rest of
    the pattern accepts what follows. *)
Lemma matchHere_opt_take (p : ascii -> bool) (r : regex)
    (c : ascii) (rest : list ascii) (cs : list (list ascii)) :
  p c = true -> matchHere r rest = Some cs ->
  matchHere (Cls p Opt :: r) (c :: rest) = Some ([c] :: cs).
Proof.
  intros Hc Hr.
  change (matchHere (Cls p Opt :: r) (c :: rest))
    with (firstSome
            (fun n => option_map (cons (firstn n (c :: rest)))
                        (matchHere r (skipn n (c :: rest))))
            (if p c then [1%nat; O] else [O])).
  rewrite Hc. cbv [firstSome firstn skipn]. rewrite Hr. reflexivity.
Qed.

Lemma search_here (r : regex) (s : list ascii) (cs : list (list ascii)) :
  matchHere r s = Some cs -> search r s = Some cs.
Proof. intros H. destruct s; simpl; rewrite H; reflexivity. Qed.

End RegexFacts.

Module DecodeSpec.
Import Js Text Regex Decode TextFacts RegexFacts.

Lemma magnitude_match_suffix (num : list ascii) (c : ascii) :
  numeral num -> anyOf "BKMGT" c = true ->
  jsMatch magnitudePattern (num ++ [c]) = Some [num; [c]].
Proof.
  intros [Hne Hnum] Hc.
  destruct (suffix_inert c Hc) as (_ & Hdd & _).
  unfold jsMatch, magnitudePattern.
  rewrite (search_here _ _ [[]; num; []; []; [c]; []]); [reflexivity|].
  rewrite matchHere_group_open.
  rewrite (matchHere_plus_run digitOrDot _ (num ++ [c]) num [c] [[]; []; [c]; []]);
    [reflexivity | | exact Hne | ].
  - rewrite (span_snoc_stop _ _ _ Hdd), (span_all _ _ Hnum). reflexivity.
  - rewrite matchHere_group_close, matchHere_group_open.
    rewrite (matchHere_opt_take _ _ c [] [[]]); [reflexivity | exact Hc | reflexivity].
Qed.

Lemma magnitude_match_plain (num : list ascii) :
  numeral num -> jsMatch magnitudePattern num = Some [num; []].
Proof.
  intros [Hne Hnum].
  unfold jsMatch, magnitudePattern.
  rewrite (search_here _ _ [[]; num; []; []; []; []]); [reflexivity|].
  rewrite matchHere_group_open.
  rewrite (matchHere_plus_run digitOrDot _ num num [] [[]; []; []; []]);
    [reflexivity | apply span_all; exact Hnum | exact Hne | reflexivity].
Qed.


Lemma numeral_head (num : list ascii) :
  numeral num ->
  exists a rest, num = a :: rest /\ digitOrDot a = true.
Proof.
  intros [Hne Hall]. destruct num as [|a rest]; [congruence|].
  apply Forall_cons_1 in Hall as [Ha _]. eauto.
Qed.

(** A numeral, with or without a suffix, is none of the tokens the decoders
    single out. *)
Lemma numeral_not_token (num rest : list ascii) :
  numeral num ->
  let s := string_of_list_ascii (num ++ rest) in
  String.eqb s "" = false /\ String.eqb s "--" = false
  /\ String.eqb s "N/A" = false.
Proof.
  intros H. destruct (numeral_head num H) as (a & t & -> & Ha).
  destruct (digitOrDot_plain a Ha) as (_ & Hset & _).
  unfold anyOf in Hset. simpl in Hset.
  repeat (apply orb_false_elim in Hset as [? Hset]).
  simpl. repeat split; try reflexivity.
  - replace (Ascii.eqb a "-"%char) with false by auto. reflexivity.
  - replace (Ascii.eqb a "N"%char) with false by auto. reflexivity.
Qed.

Lemma numeral_lacks (x : ascii) (num : list ascii) :
  anyOf "-+I,TBMKGNeE" x = true ->
  Forall (fun a => digitOrDot a = true) num ->
  existsb (Ascii.eqb x) num = false.
Proof.
  intros Hx. induction 1 as [|a num Ha _ IH]; simpl; [reflexivity|].
  rewrite IH, orb_false_r.
  destruct (Ascii.eqb x a) eqn:E; [|reflexivity].
  apply Ascii.eqb_eq in E. subst a.
  destruct (digitOrDot_plain x Ha) as (_ & Hset & _). congruence.
Qed.

Lemma removeCommas_numeral (num : list ascii) (c : ascii) :
  Forall (fun a => digitOrDot a = true) num ->
  Ascii.eqb c ","%char = false ->
  removeCommas (num ++ [c]) = num ++ [c]
  /\ removeCommas num = num.
Proof.
  intros Hnum Hc. unfold removeCommas.
  assert (E : List.filter (fun c0 => negb (Ascii.eqb c0 ","%char)) num = num).
  { induction Hnum as [|a num Ha _ IH]; simpl; [reflexivity|].
    destruct (digitOrDot_plain a Ha) as (_ & Hset & _).
    unfold anyOf in Hset. simpl in Hset.
    repeat (apply orb_false_elim in Hset as [? Hset]).
    replace (Ascii.eqb a ","%char) with false by auto.
    simpl. rewrite IH. reflexivity. }
  split; [|exact E].
  rewrite List.filter_app, E. simpl. rewrite Hc. reflexivity.
Qed.

Lemma includes_suffix (x c : ascii) (num : list ascii) :
  anyOf "TBMK" x = true ->
  Forall (fun a => digitOrDot a = true) num ->
  includes x (num ++ [c]) = Ascii.eqb x c
  /\ includes x num = false.
Proof.
  intros Hx Hnum. unfold includes.
  assert (E : existsb (Ascii.eqb x) num = false).
  { apply numeral_lacks; [|exact Hnum]. clear -Hx. by_chars x. }
  split; [|exact E].
  rewrite existsb_app, E. simpl. apply orb_false_r.
Qed.


Lemma unitSuffix_cases (c : ascii) (k : JsNum.number) :
  In (c, k) unitSuffixes ->
  anyOf "BKMGT" c = true /\ anyOf "TBMK" c = true
  /\ multipliers [c] = Some k.
Proof.
  unfold unitSuffixes. simpl.
  intros [E|[E|[E|[E|[]]]]]; inversion E; subst; repeat split; reflexivity.
Qed.

Lemma decodeMagnitude_suffix (num : list ascii) (c : ascii) :
  numeral num -> anyOf "BKMGT" c = true ->
  decodeMagnitude (num ++ [c]) = Some (scaleBySuffix (parseFloatChars num) [c]).
Proof.
  intros Hnum Hc. unfold decodeMagnitude.
  rewrite (magnitude_match_suffix num c Hnum Hc). reflexivity.
Qed.

Lemma decodeMagnitude_plain (num : list ascii) :
  numeral num ->
  decodeMagnitude num = Some (PrimFloat.mul (parseFloatChars num) 1%float).
Proof.
  intros Hnum. unfold decodeMagnitude.
  rewrite (magnitude_match_plain num Hnum). reflexivity.
Qed.

Lemma parseRevenueValue_decodes (num rest : list ascii) :
  numeral num ->
  parseRevenueValue (string_of_list_ascii (num ++ rest))
  = decodeMagnitude (num ++ rest).
Proof.
  intros Hnum. unfold parseRevenueValue.
  destruct (numeral_not_token num rest Hnum) as (E1 & E2 & E3).
  rewrite E1, E2, E3. simpl. rewrite list_ascii_of_string_of_list_ascii.
  reflexivity.
Qed.

Section GetValue.
Variable showValue : JsValue -> string.

Lemma getValue_fmt_only (s : string) :
  Summary.getValue showValue (JObj [("fmt", JStr s)])
  = Ret (match decodeMagnitude (list_ascii_of_string s) with
         | Some x => JNum x
         | None => JNull
         end).
Proof.
  unfold Summary.getValue. simpl.
  destruct (decodeMagnitude (list_ascii_of_string s)); reflexivity.
Qed.

(** The data-value (or, without one, the text) of a [fin-streamer]
    holding a numeral and one of K, M, B, T. *)
Lemma parseFinancialValue_suffix (num : list ascii) (c : ascii) (k : JsNum.number)
    (text : string) :
  numeral num -> In (c, k) unitSuffixes ->
  let s := string_of_list_ascii (num ++ [c]) in
  parseFinancialValue (Some s) text = Some (PrimFloat.mul (parseFloatChars num) k)
  /\ parseFinancialValue None s = Some (PrimFloat.mul (parseFloatChars num) k).
Proof.
  intros Hnum Hin s.
  destruct (unitSuffix_cases c k Hin) as (Hc & _ & _).
  destruct (suffix_inert c Hc) as (_ & _ & _ & _ & _ & Hcomma).
  destruct (numeral_not_token num [c] Hnum) as (E1 & E2 & E3).
  destruct Hnum as [Hne Hall].
  destruct (removeCommas_numeral num c Hall Hcomma) as [Eclean _].
  pose proof (parseFloatChars_suffix num c (conj Hne Hall) Hc) as Epf.
  assert (Hinc : forall x, anyOf "TBMK" x = true ->
                           includes x (num ++ [c]) = Ascii.eqb x c).
  { intros x Hx. apply (includes_suffix x c num Hx Hall). }
  assert (Hrun : forall value txt,
             (if String.eqb value "" then txt else value) = s ->
             (String.eqb value "" && String.eqb txt "") = false ->
             parseFinancialValue (Some value) txt
             = Some (PrimFloat.mul (parseFloatChars num) k)
             /\ (value = "" -> parseFinancialValue None txt
                  = Some (PrimFloat.mul (parseFloatChars num) k))).
  { intros value txt Hs Hne2.
    assert (G : (if String.eqb value "" && String.eqb txt "" then None
                 else
                   let numStr := if String.eqb value "" then txt else value in
                   if String.eqb numStr "--" || String.eqb numStr "N/A" then None
                   else
                     let cleanStr := removeCommas (list_ascii_of_string numStr) in
                     if includes "T"%char cleanStr then
                       Some (PrimFloat.mul (parseFloatChars cleanStr) 1e12%float)
                     else if includes "B"%char cleanStr then
                       Some (PrimFloat.mul (parseFloatChars cleanStr) 1e9%float)
                     else if includes "M"%char cleanStr then
                       Some (PrimFloat.mul (parseFloatChars cleanStr) 1e6%float)
                     else if includes "K"%char cleanStr then
                       Some (PrimFloat.mul (parseFloatChars cleanStr) 1e3%float)
                     else Some (parseFloatChars cleanStr))
                = Some (PrimFloat.mul (parseFloatChars num) k)).
    { rewrite Hne2. cbv zeta. rewrite Hs. fold s in E2, E3. rewrite E2, E3.
      cbv [orb]. unfold s.
      rewrite list_ascii_of_string_of_list_ascii, Eclean.
      rewrite !Hinc by reflexivity. rewrite Epf.
      unfold unitSuffixes in Hin. simpl in Hin.
      destruct Hin as [E|[E|[E|[E|[]]]]]; inversion E; subst; reflexivity. }
    split; [exact G | intros ->; exact G]. }
  split.
  - apply (Hrun s text).
    + fold s in E1. rewrite E1. reflexivity.
    + fold s in E1. rewrite E1. reflexivity.
  - apply (Hrun "" s); [reflexivity | | reflexivity].
    fold s in E1. rewrite E1. reflexivity.
Qed.

(** With the suffix G the summary parser finds none of its four letters
    and returns the bare number. *)
Lemma parseFinancialValue_G (num : list ascii) (text : string) :
  numeral num ->
  parseFinancialValue (Some (string_of_list_ascii (num ++ ["G"%char]))) text
  = Some (parseFloatChars num).
Proof.
  intros Hnum.
  destruct (numeral_not_token num ["G"%char] Hnum) as (E1 & E2 & E3).
  destruct Hnum as [Hne Hall].
  destruct (removeCommas_numeral num "G"%char Hall eq_refl) as [Eclean _].
  pose proof (parseFloatChars_suffix num "G"%char (conj Hne Hall) eq_refl) as Epf.
  cbv beta iota zeta delta [parseFinancialValue]. rewrite E1, E2, E3.
  cbv [andb orb].
  rewrite list_ascii_of_string_of_list_ascii, Eclean.
  rewrite (proj1 (includes_suffix "T"%char "G"%char num eq_refl Hall)).
  rewrite (proj1 (includes_suffix "B"%char "G"%char num eq_refl Hall)).
  rewrite (proj1 (includes_suffix "M"%char "G"%char num eq_refl Hall)).
  rewrite (proj1 (includes_suffix "K"%char "G"%char num eq_refl Hall)).
  change (Ascii.eqb "T"%char "G"%char) with false.
  change (Ascii.eqb "B"%char "G"%char) with false.
  change (Ascii.eqb "M"%char "G"%char) with false.
  change (Ascii.eqb "K"%char "G"%char) with false.
  cbv iota. rewrite Epf. reflexivity.
Qed.

Lemma parseFinancialValue_plain (num : list ascii) (text : string) :
  numeral num ->
  parseFinancialValue (Some (string_of_list_ascii num)) text
  = Some (parseFloatChars num).
Proof.
  intros Hnum.
  destruct (numeral_not_token num [] Hnum) as (E1 & E2 & E3).
  rewrite app_nil_r in E1, E2, E3.
  destruct Hnum as [Hne Hall].
  destruct (removeCommas_numeral num "G"%char Hall eq_refl) as [_ Eclean].
  cbv beta iota zeta delta [parseFinancialValue]. rewrite E1, E2, E3.
  cbv [andb orb].
  rewrite list_ascii_of_string_of_list_ascii, Eclean.
  rewrite (proj2 (includes_suffix "T"%char "G"%char num eq_refl Hall)).
  rewrite (proj2 (includes_suffix "B"%char "G"%char num eq_refl Hall)).
  rewrite (proj2 (includes_suffix "M"%char "G"%char num eq_refl Hall)).
  rewrite (proj2 (includes_suffix "K"%char "G"%char num eq_refl Hall)).
  reflexivity.
Qed.

(** The three decoders agree on a numeral followed by K, M, B or T: the
    number times 1e3, 1e6, 1e9, 1e12. *)
Theorem decoders_scale_by_suffix (num : list ascii) (c : ascii)
    (k : JsNum.number) (text : string) :
  numeral num -> In (c, k) unitSuffixes ->
  let s := string_of_list_ascii (num ++ [c]) in
  let scaled := PrimFloat.mul (parseFloatChars num) k in
  parseRevenueValue s = Some scaled
  /\ parseFinancialValue (Some s) text = Some scaled
  /\ parseFinancialValue None s = Some scaled
  /\ Summary.getValue showValue (JObj [("fmt", JStr s)]) = Ret (JNum scaled).
Proof.
  intros Hnum Hin s scaled.
  destruct (unitSuffix_cases c k Hin) as (Hc & _ & Hk).
  assert (Ed : decodeMagnitude (num ++ [c]) = Some scaled).
  { rewrite (decodeMagnitude_suffix num c Hnum Hc).
    unfold scaleBySuffix. rewrite Hk. reflexivity. }
  destruct (parseFinancialValue_suffix num c k text Hnum Hin) as [F1 F2].
  repeat split.
  - unfold s. rewrite (parseRevenueValue_decodes num [c] Hnum). exact Ed.
  - exact F1.
  - exact F2.
  - rewrite getValue_fmt_only. unfold s.
    rewrite list_ascii_of_string_of_list_ascii, Ed. reflexivity.
Qed.

(** The secondary suffix G: a billion for [parseRevenueValue] and
    [getValue], nothing for [parseFinancialValue]. *)
Theorem decoders_on_G (num : list ascii) (text : string) :
  numeral num ->
  let s := string_of_list_ascii (num ++ ["G"%char]) in
  parseRevenueValue s = Some (PrimFloat.mul (parseFloatChars num) 1e9%float)
  /\ Summary.getValue showValue (JObj [("fmt", JStr s)])
     = Ret (JNum (PrimFloat.mul (parseFloatChars num) 1e9%float))
  /\ parseFinancialValue (Some s) text = Some (parseFloatChars num).
Proof.
  intros Hnum s.
  assert (Ed : decodeMagnitude (num ++ ["G"%char])
               = Some (PrimFloat.mul (parseFloatChars num) 1e9%float)).
  { rewrite (decodeMagnitude_suffix num "G"%char Hnum eq_refl). reflexivity. }
  repeat split.
  - unfold s. rewrite (parseRevenueValue_decodes num _ Hnum). exact Ed.
  - rewrite getValue_fmt_only. unfold s.
    rewrite list_ascii_of_string_of_list_ascii, Ed. reflexivity.
  - apply parseFinancialValue_G. exact Hnum.
Qed.

(** Without a suffix the multiplier is 1. *)
Theorem decoders_without_suffix (num : list ascii) (text : string) :
  numeral num ->
  let s := string_of_list_ascii num in
  parseRevenueValue s = Some (PrimFloat.mul (parseFloatChars num) 1%float)
  /\ Summary.getValue showValue (JObj [("fmt", JStr s)])
     = Ret (JNum (PrimFloat.mul (parseFloatChars num) 1%float))
  /\ parseFinancialValue (Some s) text = Some (parseFloatChars num).
Proof.
  intros Hnum s.
  pose proof (decodeMagnitude_plain num Hnum) as Ed.
  repeat split.
  - unfold s. rewrite <- (app_nil_r num) at 1.
    rewrite (parseRevenueValue_decodes num [] Hnum), app_nil_r. exact Ed.
  - rewrite getValue_fmt_only. unfold s.
    rewrite list_ascii_of_string_of_list_ascii, Ed. reflexivity.
  - apply parseFinancialValue_plain. exact Hnum.
Qed.

(** The tokens [--] and [N/A] decode to [null]. *)
Theorem decoders_tokens (tok text : string) :
  tok = "--" \/ tok = "N/A" ->
  parseRevenueValue tok = None
  /\ parseFinancialValue (Some tok) text = None
  /\ parseFinancialValue None tok = None
  /\ Summary.getValue showValue (JObj [("fmt", JStr tok)]) = Ret JNull.
Proof.
  intros [->| ->]; repeat split; reflexivity.
Qed.

(** C2. On a numeral followed by G, [parseRevenueValue] and [getValue]
    scale by 1e9 while [parseFinancialValue] returns the number unscaled:
    on the formatted string 5G it returns 5 where the claim, and the two
    sibling decoders, give 5e9. *)
Theorem parseFinancialValue_misses_G :
  (forall num text,
     numeral num ->
     let s := string_of_list_ascii (num ++ ["G"%char]) in
     parseRevenueValue s = Some (PrimFloat.mul (parseFloatChars num) 1e9%float)
     /\ Summary.getValue showValue (JObj [("fmt", JStr s)])
        = Ret (JNum (PrimFloat.mul (parseFloatChars num) 1e9%float))
     /\ parseFinancialValue (Some s) text = Some (parseFloatChars num))
  /\ parseFinancialValue (Some "5G") "" = Some 5%float
  /\ parseRevenueValue "5G" = Some 5e9%float
  /\ Summary.getValue showValue (JObj [("fmt", JStr "5G")]) = Ret (JNum 5e9%float).
Proof.
  split; [exact decoders_on_G|].
  repeat split; reflexivity.
Qed.

End GetValue.

End DecodeSpec.


(** ** Revision analysis *)

Module VintageSpec.
Import Js Vintage Samples.

Lemma find_same_date (d : string) (obs : list Observation) :
  (exists o, In o obs /\ date o = d) ->
  exists m, find (fun o => String.eqb (date o) d) obs = Some m
            /\ In m obs /\ date m = d.
Proof.
  intros [o [Hin Hd]].
  destruct (find (fun o => String.eqb (date o) d) obs) as [m|] eqn:Hf.
  - exists m. apply find_some in Hf as [Hm Heq].
    apply String.eqb_eq in Heq. auto.
  - exfalso. apply (find_none _ _ Hf) in Hin.
    rewrite Hd, String.eqb_refl in Hin. discriminate.
Qed.

(** C1. When the two most recent vintages both hold observations and the
    previous vintage has an observation dated like the latest vintage's
    most recent one, [analyzeRevisions] returns exactly one revision: its
    delta is the latest value minus the previous value and its percentage
    is delta / previous * 100.  For the values 103 and 100 these are 3 and
    3.0. *)
Theorem analyzeRevisions_one_revision
    (latest previous : Vintage) (rest : list (option Vintage))
    (latestData : Observation) (older : list Observation) :
  observations latest = latestData :: older ->
  observations previous <> [] ->
  (exists o, In o (observations previous) /\ date o = date latestData) ->
  exists m r,
    find (fun o => String.eqb (date o) (date latestData)) (observations previous)
      = Some m
    /\ In m (observations previous)
    /\ date m = date latestData
    /\ analyzeRevisions (Some (Some latest :: Some previous :: rest))
       = Ret {| hasRevisions := true;
                revisions := Some [r];
                analysis := LatestRevision (revision r) (revisionPercent r) |}
    /\ rev_date r = date latestData
    /\ latestValue r = value latestData
    /\ previousValue r = value m
    /\ revision r = PrimFloat.sub (value latestData) (value m)
    /\ revisionPercent r
       = PrimFloat.mul
           (PrimFloat.div (PrimFloat.sub (value latestData) (value m)) (value m))
           100%float
    /\ (value latestData = 103%float -> value m = 100%float ->
        revision r = 3%float /\ revisionPercent r = 3.0%float).
Proof.
  intros Hl Hp Hmatch.
  destruct (find_same_date _ _ Hmatch) as [m [Hf [Hin Hd]]].
  exists m, (compare latest previous latestData m).
  assert (Hrun : analyzeRevisions (Some (Some latest :: Some previous :: rest))
                 = Ret (report [compare latest previous latestData m])).
  { unfold analyzeRevisions. rewrite Hl.
    destruct (observations previous) as [|p ps] eqn:Ep; [congruence|].
    rewrite Hf. reflexivity. }
  repeat (split; [solve [auto] | ]).
  intros H103 H100. simpl. rewrite H103, H100. split; reflexivity.
Qed.

Lemma analyzeRevisions_one_revision_witness :
  exists m r,
    find (fun o => String.eqb (date o) (date obs103)) (observations vintageFebruary)
      = Some m
    /\ In m (observations vintageFebruary)
    /\ date m = date obs103
    /\ analyzeRevisions (Some [Some vintageMarch; Some vintageFebruary])
       = Ret {| hasRevisions := true;
                revisions := Some [r];
                analysis := LatestRevision (revision r) (revisionPercent r) |}
    /\ rev_date r = date obs103
    /\ latestValue r = value obs103
    /\ previousValue r = value m
    /\ revision r = PrimFloat.sub (value obs103) (value m)
    /\ revisionPercent r
       = PrimFloat.mul
           (PrimFloat.div (PrimFloat.sub (value obs103) (value m)) (value m))
           100%float
    /\ (value obs103 = 103%float -> value m = 100%float ->
        revision r = 3%float /\ revisionPercent r = 3.0%float).
Proof.
  apply (analyzeRevisions_one_revision vintageMarch vintageFebruary [] obs103 []).
  - reflexivity.
  - discriminate.
  - exists obs100. split; [left; reflexivity | reflexivity].
Defined.

End VintageSpec.

(** ** Numbers *)

Module NumberFacts.
Import JsNum.

Lemma SFcompare_antisym (f1 f2 : spec_float) :
  SFcompare f2 f1 = option_map CompOpp (SFcompare f1 f2).
Proof.
  destruct f1 as [s1|s1| |s1 m1 e1], f2 as [s2|s2| |s2 m2 e2];
    try destruct s1; try destruct s2; try reflexivity;
    cbn [SFcompare option_map]; f_equal;
    rewrite (Z.compare_antisym e1 e2);
    destruct (e1 ?= e2)%Z; cbn [CompOpp]; try reflexivity;
    change (PosDef.Pos.compare_cont Eq m2 m1) with (Pos.compare m2 m1);
    change (PosDef.Pos.compare_cont Eq m1 m2) with (Pos.compare m1 m2);
    rewrite (Pos.compare_antisym m1 m2); reflexivity.
Qed.

Lemma isNaN_spec (x : number) :
  isNaN x = false -> Prim2SF x <> S754_nan.
Proof.
  unfold isNaN. rewrite FloatAxioms.eqb_spec. unfold SFeqb. intros H E. rewrite E in H.
  discriminate.
Qed.

Lemma SFcompare_defined (f1 f2 : spec_float) :
  f1 <> S754_nan -> f2 <> S754_nan -> SFcompare f1 f2 <> None.
Proof.
  destruct f1, f2; try congruence; intros _ _; discriminate.
Qed.

Lemma lt_le (x y : number) : lt x y = true -> le x y = true.
Proof.
  unfold lt, le. rewrite FloatAxioms.ltb_spec, FloatAxioms.leb_spec. unfold SFltb, SFleb.
  destruct (SFcompare _ _) as [[]|]; congruence.
Qed.

Lemma not_gt_le (x y : number) :
  isNaN x = false -> isNaN y = false -> lt y x = false -> le x y = true.
Proof.
  intros Hx Hy. unfold lt, le. rewrite FloatAxioms.ltb_spec, FloatAxioms.leb_spec. unfold SFltb, SFleb.
  rewrite (SFcompare_antisym (Prim2SF x) (Prim2SF y)).
  pose proof (SFcompare_defined _ _ (isNaN_spec x Hx) (isNaN_spec y Hy)) as Hd.
  destruct (SFcompare (Prim2SF x) (Prim2SF y)) as [[]|]; cbn; congruence.
Qed.

End NumberFacts.

(** ** The batched fetch of [extractEconomicData] *)

Module ScheduleSpec.
Import Js Economic.

Section Batches.
Context {E : Type}.
Implicit Types (entries : list E) (fuel i : nat).

Lemma batchLoop_step fuel i entries :
  (i < length entries)%nat ->
  batchLoop (S fuel) i entries
  = (firstn maxConcurrent (skipn i entries),
     (i + maxConcurrent <? length entries)%nat)
    :: batchLoop fuel (i + maxConcurrent) entries.
Proof.
  intros Hi. simpl. apply Nat.ltb_lt in Hi. rewrite Hi. reflexivity.
Qed.

Lemma batchLoop_stop fuel i entries :
  (length entries <= i)%nat -> batchLoop fuel i entries = [].
Proof.
  intros Hi. destruct fuel; simpl; [reflexivity|].
  apply Nat.ltb_ge in Hi. rewrite Hi. reflexivity.
Qed.

(** Enough fuel: the loop counter reaches the length. *)
Lemma batchLoop_length fuel : forall i entries,
  (length entries - i <= maxConcurrent * fuel)%nat ->
  length (batchLoop fuel i entries) = ((length entries - i + 4) / 5)%nat.
Proof.
  unfold maxConcurrent.
  induction fuel as [|fuel IH]; intros i entries Hf.
  - simpl. replace (length entries - i)%nat with O by lia. reflexivity.
  - destruct (Nat.lt_ge_cases i (length entries)) as [Hi|Hi].
    + rewrite batchLoop_step by exact Hi. simpl length.
      rewrite IH by (unfold maxConcurrent; lia).
      unfold maxConcurrent.
      destruct (Nat.lt_ge_cases (length entries - i) 5) as [Hs|Hs].
      * replace (length entries - (i + 5))%nat with O by lia.
        assert (1 <= length entries - i)%nat by lia.
        change ((0 + 4) / 5)%nat with O.
        apply Nat.div_unique with (r := (length entries - i - 1)%nat); lia.
      * replace (length entries - i + 4)%nat
          with ((length entries - (i + 5) + 4) + 1 * 5)%nat by lia.
        rewrite Nat.div_add by lia. lia.
    + rewrite batchLoop_stop by exact Hi.
      replace (length entries - i)%nat with O by lia. reflexivity.
Qed.

Lemma batchLoop_concat fuel : forall i entries,
  (length entries - i <= maxConcurrent * fuel)%nat ->
  concat (map fst (batchLoop fuel i entries)) = skipn i entries.
Proof.
  induction fuel as [|fuel IH]; intros i entries Hf.
  - simpl. symmetry. apply skipn_all2. unfold maxConcurrent in Hf. lia.
  - destruct (Nat.lt_ge_cases i (length entries)) as [Hi|Hi].
    + rewrite batchLoop_step by exact Hi. simpl.
      rewrite IH by (unfold maxConcurrent in *; lia).
      rewrite Nat.add_comm, <- skipn_skipn.
      apply firstn_skipn.
    + rewrite batchLoop_stop by exact Hi. simpl.
      symmetry. apply skipn_all2. exact Hi.
Qed.

Lemma batchLoop_sizes fuel : forall i entries,
  Forall (fun b => (1 <= length (fst b) <= maxConcurrent)%nat)
    (batchLoop fuel i entries).
Proof.
  induction fuel as [|fuel IH]; intros i entries; simpl; [constructor|].
  destruct (i <? length entries)%nat eqn:Hi; [|constructor].
  apply Nat.ltb_lt in Hi. constructor; [|apply IH].
  simpl. rewrite length_firstn, length_skipn. unfold maxConcurrent. lia.
Qed.

(** The delay follows a batch exactly when another batch follows it. *)
Lemma batchLoop_pause fuel : forall i entries pre b post,
  (length entries - i <= maxConcurrent * fuel)%nat ->
  batchLoop fuel i entries = pre ++ b :: post ->
  (snd b = true <-> post <> []).
Proof.
  induction fuel as [|fuel IH]; intros i entries pre b post Hf Hb.
  - simpl in Hb. destruct pre; discriminate.
  - destruct (Nat.lt_ge_cases i (length entries)) as [Hi|Hi].
    + rewrite batchLoop_step in Hb by exact Hi.
      destruct pre as [|x pre]; simpl in Hb.
      * injection Hb as <- Hpost. simpl.
        rewrite Nat.ltb_lt. split.
        -- intros Hlt. subst post.
           destruct fuel as [|fuel']; [unfold maxConcurrent in *; lia|].
           rewrite batchLoop_step by exact Hlt. discriminate.
        -- intros Hne. destruct (Nat.lt_ge_cases (i + maxConcurrent) (length entries))
             as [Hlt|Hge]; [exact Hlt|].
           rewrite batchLoop_stop in Hpost by exact Hge. congruence.
      * injection Hb as _ Hrest.
        apply (IH (i + maxConcurrent)%nat entries pre b post);
          [unfold maxConcurrent in *; lia | exact Hrest].
    + rewrite batchLoop_stop in Hb by exact Hi. destruct pre; discriminate.
Qed.

Lemma batches_fuel entries :
  (length entries - 0 <= maxConcurrent * length entries)%nat.
Proof. unfold maxConcurrent. lia. Qed.

End Batches.


(** *** Traces *)


Lemma batchTrace_In (keys : list string) (tr : list event) :
  batchTrace keys tr ->
  forall e, In e tr <-> exists k, In k keys /\ (e = Start k \/ e = Settle k).
Proof.
  intros [order Hperm] e. rewrite in_app_iff, !in_map_iff. split.
  - intros [[k [<- Hk]]|[k [<- Hk]]]; exists k; split; auto.
    apply (Permutation_in _ Hperm Hk).
  - intros [k [Hk [->| ->]]]; [left|right]; exists k; split; auto.
    apply (Permutation_in _ (Permutation_sym Hperm) Hk).
Qed.

Lemma batchTrace_no_sleep (keys : list string) (tr : list event) :
  batchTrace keys tr -> List.filter isSleep tr = [].
Proof.
  intros [order _]. rewrite List.filter_app.
  assert (H : forall (f : string -> event) l,
             (forall k, isSleep (f k) = false) -> List.filter isSleep (map f l) = []).
  { intros f l Hf. induction l as [|k l IH]; simpl; [reflexivity|].
    rewrite Hf. exact IH. }
  rewrite !H by reflexivity. reflexivity.
Qed.

Lemma loopTrace_app (bs1 bs2 : list (list string * bool)) (tr : list event) :
  loopTrace (bs1 ++ bs2) tr <->
  exists t1 t2, tr = t1 ++ t2 /\ loopTrace bs1 t1 /\ loopTrace bs2 t2.
Proof.
  revert tr. induction bs1 as [|[keys pause] bs1 IH]; intros tr; simpl.
  - split.
    + intros H. exists [], tr. repeat split; [constructor | exact H].
    + intros (t1 & t2 & -> & H1 & H2). inversion H1; subst. exact H2.
  - split.
    + intros H. inversion H as [|? ? ? t ts Hb Hl]; subst.
      apply IH in Hl as (t1 & t2 & -> & H1 & H2).
      exists (t ++ (if pause then [Sleep delay] else []) ++ t1), t2.
      repeat split; [|constructor; assumption|assumption].
      rewrite <- !app_assoc. reflexivity.
    + intros (t1 & t2 & -> & H1 & H2).
      inversion H1 as [|? ? ? t ts Hb Hl]; subst.
      rewrite <- !app_assoc. constructor; [exact Hb|].
      apply IH. eauto.
Qed.

Lemma loopTrace_In (bs : list (list string * bool)) (tr : list event) :
  loopTrace bs tr ->
  forall e, In e tr ->
            e = Sleep delay
            \/ exists k, In k (keysOf bs) /\ (e = Start k \/ e = Settle k).
Proof.
  induction 1 as [|keys pause rest t ts Hb Hl IH]; intros e He; [destruct He|].
  unfold keysOf in *. simpl.
  rewrite !in_app_iff in He. destruct He as [He|[He|He]].
  - right. apply (batchTrace_In _ _ Hb) in He as [k [Hk Hkind]].
    exists k. rewrite in_app_iff. auto.
  - destruct pause; [|destruct He]. destruct He as [<-|[]]. auto.
  - destruct (IH e He) as [->|[k [Hk Hkind]]]; [auto|].
    right. exists k. rewrite in_app_iff. auto.
Qed.

Lemma loopTrace_complete (bs : list (list string * bool)) (tr : list event) :
  loopTrace bs tr ->
  forall k, In k (keysOf bs) -> In (Start k) tr /\ In (Settle k) tr.
Proof.
  induction 1 as [|keys pause rest t ts Hb Hl IH]; intros k Hk; [destruct Hk|].
  unfold keysOf in *. simpl in Hk. rewrite in_app_iff in Hk.
  rewrite !in_app_iff. destruct Hk as [Hk|Hk].
  - split; left; apply (batchTrace_In _ _ Hb); eauto.
  - destruct (IH k Hk). auto.
Qed.

Lemma loopTrace_sleeps (bs : list (list string * bool)) (tr : list event) :
  loopTrace bs tr ->
  length (List.filter isSleep tr) = length (List.filter snd bs).
Proof.
  induction 1 as [|keys pause rest t ts Hb Hl IH]; [reflexivity|].
  rewrite !List.filter_app, (batchTrace_no_sleep _ _ Hb). simpl.
  destruct pause; simpl; rewrite IH; reflexivity.
Qed.

(** A trace ends with the settling of a worker of the last batch when no
    delay follows that batch. *)
Lemma loopTrace_last (pre : list (list string * bool)) (keys : list string)
    (tr : list event) :
  keys <> [] ->
  loopTrace (pre ++ [(keys, false)]) tr ->
  exists t k, tr = t ++ [Settle k].
Proof.
  intros Hne H. apply loopTrace_app in H as (t1 & t2 & -> & _ & H2).
  inversion H2 as [|? ? ? t ts Hb Hl]; subst. inversion Hl; subst.
  destruct Hb as [order Hperm].
  destruct (exists_last (l := order)) as (o & k & ->).
  { intros ->. apply Permutation_nil in Hperm. congruence. }
  exists (t1 ++ map Start keys ++ map Settle o), k.
  rewrite map_app. simpl. rewrite !app_nil_r, <- !app_assoc. reflexivity.
Qed.

(** Between two consecutive parts of the loop the delay is awaited, after
    every worker of the first part has settled and before any worker of
    the second part starts. *)
Lemma loopTrace_between (bs1 : list (list string * bool)) (keys : list string)
    (bs2 : list (list string * bool)) (tr : list event) :
  NoDup (keysOf (bs1 ++ (keys, true) :: bs2)) ->
  loopTrace (bs1 ++ (keys, true) :: bs2) tr ->
  exists t1 t2,
    tr = t1 ++ Sleep delay :: t2
    /\ (forall k, In k (keysOf (bs1 ++ [(keys, true)])) ->
                  In (Start k) t1 /\ In (Settle k) t1)
    /\ (forall k, In k (keysOf bs2) ->
                  ~ In (Start k) t1 /\ In (Start k) t2 /\ In (Settle k) t2).
Proof.
  intros Hnd H.
  apply loopTrace_app in H as (u1 & u2 & -> & H1 & H2).
  inversion H2 as [|? ? ? t ts Hb Hl]; subst.
  exists (u1 ++ t), ts. split; [rewrite <- !app_assoc; reflexivity|].
  assert (Hfirst : loopTrace (bs1 ++ [(keys, false)]) (u1 ++ t)).
  { apply loopTrace_app. exists u1, t. repeat split; [exact H1|].
    rewrite <- (app_nil_r t) at 1.
    change (t ++ []) with (t ++ (if false then [Sleep delay] else []) ++ []).
    constructor; [exact Hb | constructor]. }
  assert (Hkeys : keysOf (bs1 ++ [(keys, false)]) = keysOf (bs1 ++ [(keys, true)])).
  { unfold keysOf. rewrite !map_app. reflexivity. }
  split.
  - intros k Hk. rewrite <- Hkeys in Hk.
    apply (loopTrace_complete _ _ Hfirst k Hk).
  - intros k Hk. split; [|apply (loopTrace_complete _ _ Hl k Hk)].
    intros Hin. apply (loopTrace_In _ _ Hfirst) in Hin as [Hs|[k' [Hk' Hkind]]];
      [discriminate|].
    assert (k' = k) by (destruct Hkind as [E|E]; congruence). subst k'.
    unfold keysOf in Hnd, Hk, Hk'.
    rewrite map_app, concat_app in Hnd, Hk'. simpl in Hnd, Hk'.
    rewrite app_nil_r in Hk'.
    change (concat (map fst bs1) ++ keys ++ concat (map fst bs2))
      with (concat (map fst bs1) ++ (keys ++ concat (map fst bs2))) in Hnd.
    rewrite app_assoc in Hnd.
    apply NoDup_app in Hnd as (_ & Hdisj & _).
    apply (Hdisj k); apply list_elem_of_In; assumption.
Qed.

End ScheduleSpec.

Module NetFacts.
Import Js Net.

Lemma parametric_ret {A : Type} (a : A) : parametric (ret a).
Proof. intros l. unfold ret. simpl. rewrite app_nil_r. reflexivity. Qed.

Lemma parametric_throw {A : Type} (e : string) : parametric (@throw A e).
Proof. intros l. unfold throw. simpl. rewrite app_nil_r. reflexivity. Qed.

Lemma parametric_lift {A : Type} (o : Outcome A) : parametric (lift o).
Proof. intros l. unfold lift. simpl. rewrite app_nil_r. reflexivity. Qed.

Lemma parametric_get (net : string -> Outcome JsValue) (url : string) :
  parametric (get net url).
Proof. intros l. reflexivity. Qed.

Lemma parametric_bind {A B : Type} (m : M A) (f : A -> M B) :
  parametric m -> (forall a, parametric (f a)) -> parametric (bind m f).
Proof.
  intros Hm Hf l. unfold bind. rewrite (Hm l).
  destruct (m []) as [[a|e] s]; simpl.
  - rewrite (Hf a (l ++ s)), (Hf a s). simpl. rewrite app_assoc. reflexivity.
  - reflexivity.
Qed.

Lemma parametric_tryCatch {A : Type} (m : M A) (h : string -> M A) :
  parametric m -> (forall e, parametric (h e)) -> parametric (tryCatch m h).
Proof.
  intros Hm Hh l. unfold tryCatch. rewrite (Hm l).
  destruct (m []) as [[a|e] s]; simpl.
  - reflexivity.
  - rewrite (Hh e (l ++ s)), (Hh e s). simpl. rewrite app_assoc. reflexivity.
Qed.

Lemma parametric_asString (v : JsValue) : parametric (asString v).
Proof. destruct v; simpl; auto using parametric_ret, parametric_throw. Qed.

Lemma parametric_outcome {A : Type} (m : M A) (l : list string) :
  parametric m -> fst (m l) = fst (m []).
Proof. intros H. rewrite (H l). reflexivity. Qed.

(** A handler that cannot throw makes the whole [try] return. *)
Lemma tryCatch_returns {A : Type} (m : M A) (h : string -> M A) :
  (forall e l, exists a l', h e l = (Ret a, l')) ->
  forall l, exists a l', tryCatch m h l = (Ret a, l').
Proof.
  intros Hh l. unfold tryCatch. destruct (m l) as [[a|e] l']; eauto.
Qed.

End NetFacts.

Create HintDb net.
#[export] Hint Resolve NetFacts.parametric_ret NetFacts.parametric_throw
  NetFacts.parametric_lift NetFacts.parametric_get NetFacts.parametric_asString
  : net.

Module WorkerSpec.
Import Js Net Economic NetFacts.

Section Worker.
Variable net : string -> Outcome JsValue.
Variable coerce : JsValue -> JsNum.number.
Variable showValue : JsValue -> string.
Variable apiKey currentDate : string.

Local Abbreviation worker' := (worker net coerce showValue apiKey currentDate).
Local Abbreviation primary' := (primary net coerce showValue apiKey).
Local Abbreviation fallback' := (fallback net currentDate).

Lemma parametric_primary (sid : string) : parametric (primary' sid).
Proof.
  unfold primary. apply parametric_bind; auto with net.
Qed.

Lemma parametric_fallback (key : string) : parametric (fallback' key).
Proof.
  unfold fallback. apply parametric_bind; [auto with net|]. intros data.
  apply parametric_bind; [auto with net|]. intros html.
  destruct (Regex.jsMatch pricePattern html) as [[|m1 [|? ?]]|]; auto with net.
Qed.

Lemma parametric_worker (entry : string * string) : parametric (worker' entry).
Proof.
  unfold worker. apply parametric_tryCatch; [apply parametric_primary|].
  intros e. destruct (isTreasury (fst entry)); [|auto with net].
  apply parametric_tryCatch; [apply parametric_fallback | auto with net].
Qed.

(** The worker's promise never rejects. *)
Lemma worker_returns (entry : string * string) (l : list string) :
  exists w l', worker' entry l = (Ret w, l').
Proof.
  unfold worker. apply tryCatch_returns. intros e l0.
  destruct (isTreasury (fst entry)).
  - apply tryCatch_returns. intros e' l1. unfold ret. eauto.
  - unfold ret. eauto.
Qed.

Local Abbreviation written' := (written net coerce showValue apiKey currentDate).
Local Abbreviation store' := (store net coerce showValue apiKey currentDate).
Local Abbreviation runBatch' := (runBatch net coerce showValue apiKey currentDate).
Local Abbreviation runBatches' := (runBatches net coerce showValue apiKey currentDate).

Lemma worker_written (entry : string * string) (l : list string) :
  exists l', worker' entry l = (Ret (written' entry), l').
Proof.
  destruct (worker_returns entry l) as (w & l' & E).
  exists l'. rewrite E. f_equal. f_equal.
  unfold written. rewrite <- (parametric_outcome _ l (parametric_worker entry)).
  rewrite E. reflexivity.
Qed.

Lemma runBatch_stores (batch : list (string * string)) :
  forall results l,
  exists l', runBatch' batch results l = (Ret (fold_left store' batch results), l').
Proof.
  induction batch as [|entry batch IH]; intros results l; simpl.
  - unfold ret. eauto.
  - unfold bind. destruct (worker_written entry l) as [l1 ->].
    destruct (IH (store' results entry) l1) as [l2 E].
    exists l2. exact E.
Qed.

Lemma runBatches_stores (bs : list (list (string * string) * bool)) :
  forall results l,
  exists l', runBatches' bs results l
             = (Ret (fold_left store' (concat (map fst bs)) results), l').
Proof.
  induction bs as [|[batch pause] bs IH]; intros results l; simpl.
  - unfold ret. eauto.
  - unfold bind. destruct (runBatch_stores batch results l) as [l1 ->].
    rewrite fold_left_app. apply IH.
Qed.

Lemma store_other (results : gmap string Indicator) (entry : string * string)
    (k : string) :
  fst entry <> k -> store' results entry !! k = results !! k.
Proof.
  intros Hne. unfold store. destruct (written' entry); [|reflexivity].
  apply lookup_insert_ne. exact Hne.
Qed.

Lemma fold_store_other (entries : list (string * string)) :
  forall results k,
  ~ In k (map fst entries) ->
  fold_left store' entries results !! k = results !! k.
Proof.
  induction entries as [|e entries IH]; intros results k Hk; simpl; [reflexivity|].
  simpl in Hk. rewrite IH by tauto. apply store_other. tauto.
Qed.

(** With distinct keys, each key of [results] holds what its own worker
    stored. *)
Lemma fold_store_lookup (entries : list (string * string)) :
  NoDup (map fst entries) ->
  forall results k sid,
  In (k, sid) entries ->
  fold_left store' entries results !! k
  = match written' (k, sid) with
    | Some ind => Some ind
    | None => results !! k
    end.
Proof.
  induction entries as [|e entries IH]; intros Hnd results k sid Hin; [destruct Hin|].
  simpl in Hnd. apply NoDup_cons in Hnd as [Hfresh Hnd].
  rewrite list_elem_of_In in Hfresh.
  simpl. destruct Hin as [->|Hin].
  - rewrite fold_store_other by exact Hfresh.
    unfold store. destruct (written' (k, sid)); [|reflexivity].
    apply lookup_insert_eq.
  - rewrite (IH Hnd _ k sid Hin).
    destruct (written' (k, sid)); [reflexivity|].
    apply store_other. intros E. apply Hfresh.
    rewrite E. apply in_map_iff. exists (k, sid). split; [reflexivity|exact Hin].
Qed.

End Worker.

(** The worker of an entry consults the network at two addresses only:
    the FRED series and the substitute quote page. *)
Lemma worker_local (net1 net2 : string -> Outcome JsValue)
    (coerce : JsValue -> JsNum.number) (showValue : JsValue -> string)
    (apiKey currentDate : string) (entry : string * string) (l : list string) :
  net1 (fredUrl apiKey (snd entry)) = net2 (fredUrl apiKey (snd entry)) ->
  net1 (quoteUrl (symbolMap (fst entry))) = net2 (quoteUrl (symbolMap (fst entry))) ->
  worker net1 coerce showValue apiKey currentDate entry l
  = worker net2 coerce showValue apiKey currentDate entry l.
Proof.
  intros Hfred Hquote.
  unfold worker, tryCatch, primary, fallback, bind, get.
  rewrite Hfred, Hquote. reflexivity.
Qed.

End WorkerSpec.

Module BatchSpec.
Import Js Net Economic ScheduleSpec NetFacts WorkerSpec.

Lemma keyBatches_keys (entries : list (string * string)) :
  keysOf (keyBatches entries) = map fst entries.
Proof.
  unfold keysOf, keyBatches. rewrite map_map. simpl.
  rewrite <- (batchLoop_concat (length entries) 0 entries (batches_fuel entries)) at 2.
  simpl skipn. unfold batches.
  rewrite concat_map, map_map. reflexivity.
Qed.

Lemma keyBatches_split (entries : list (string * string))
    (pre : list (list string * bool)) (b : list string * bool)
    (post : list (list string * bool)) :
  keyBatches entries = pre ++ b :: post ->
  (snd b = true <-> post <> []) /\ fst b <> [].
Proof.
  unfold keyBatches. intros H.
  apply map_eq_app in H as (pre0 & rest0 & Hb & Hpre & Hrest).
  apply map_eq_cons in Hrest as (b0 & post0 & -> & Hb0 & Hpost).
  subst b. simpl. split.
  - rewrite (batchLoop_pause _ _ _ _ _ _ (batches_fuel entries) Hb).
    subst post. destruct post0; simpl; split; congruence.
  - pose proof (batchLoop_sizes (length entries) 0 entries) as Hs.
    fold (batches entries) in Hs. rewrite Hb in Hs.
    apply Forall_app in Hs as [_ Hs]. apply Forall_cons_1 in Hs as [Hs _].
    destruct (fst b0); simpl in *; [lia | discriminate].
Qed.

Lemma pauses_count {X : Type} (l : list (X * bool)) :
  (forall pre b post, l = pre ++ b :: post -> (snd b = true <-> post <> [])) ->
  length (List.filter snd l) = (length l - 1)%nat.
Proof.
  induction l as [|b l IH]; intros H; [reflexivity|].
  assert (Hl : forall pre c post, l = pre ++ c :: post ->
                                  (snd c = true <-> post <> [])).
  { intros pre c post E. apply (H (b :: pre)). rewrite E. reflexivity. }
  specialize (IH Hl). specialize (H [] b l eq_refl).
  simpl. destruct l as [|c l].
  - destruct (snd b); [|reflexivity]. exfalso. apply (proj1 H); reflexivity.
  - replace (snd b) with true by (symmetry; apply H; discriminate).
    simpl length in *. rewrite IH. lia.
Qed.

Section Schedule.
Variable net : string -> Outcome JsValue.
Variable coerce : JsValue -> JsNum.number.
Variable showValue : JsValue -> string.
Variable apiKey currentDate : string.

(** C3. With concurrency 5 the batched loop of [extractEconomicData] runs
    ceil(n / 5) groups that partition the entries in order; the delay is
    awaited after a group exactly when another group follows; in every
    trace each worker is started and settles, the workers of a group have
    all settled before the delay and the next group's workers start only
    after it, and nothing is awaited after the last group; no worker ever
    rejects, and every key of [results] holds what its own worker stored,
    which depends on the answers to that worker's own requests alone. *)
Theorem batched_fetch_groups (entries : list (string * string)) :
  NoDup (map fst entries) ->
  let bs := batches entries in
  length bs = ((length entries + 4) / 5)%nat
  /\ concat (map fst bs) = entries
  /\ Forall (fun b => (1 <= length (fst b) <= maxConcurrent)%nat) bs
  /\ (forall pre b post, bs = pre ++ b :: post -> (snd b = true <-> post <> []))
  /\ (forall tr, loopTrace (keyBatches entries) tr ->
        (forall k, In k (map fst entries) -> In (Start k) tr /\ In (Settle k) tr)
        /\ length (List.filter isSleep tr) = (length bs - 1)%nat
        /\ (forall t ms, tr <> t ++ [Sleep ms])
        /\ (forall bs1 bs2,
              keyBatches entries = bs1 ++ bs2 -> bs1 <> [] -> bs2 <> [] ->
              exists t1 t2,
                tr = t1 ++ Sleep delay :: t2
                /\ (forall k, In k (keysOf bs1) ->
                              In (Start k) t1 /\ In (Settle k) t1)
                /\ (forall k, In k (keysOf bs2) ->
                              ~ In (Start k) t1 /\ In (Start k) t2
                              /\ In (Settle k) t2)))
  /\ (forall entry l,
        exists w l', worker net coerce showValue apiKey currentDate entry l
                     = (Ret w, l'))
  /\ (exists results log,
        runBatches net coerce showValue apiKey currentDate bs ∅ []
        = (Ret results, log)
        /\ (forall k sid, In (k, sid) entries ->
              results !! k = written net coerce showValue apiKey currentDate (k, sid))
        /\ (forall k, ~ In k (map fst entries) -> results !! k = None))
  /\ (forall net2 entry l,
        net (fredUrl apiKey (snd entry)) = net2 (fredUrl apiKey (snd entry)) ->
        net (quoteUrl (symbolMap (fst entry)))
        = net2 (quoteUrl (symbolMap (fst entry))) ->
        worker net coerce showValue apiKey currentDate entry l
        = worker net2 coerce showValue apiKey currentDate entry l).
Proof.
  intros Hnd bs. subst bs.
  pose proof (batches_fuel entries) as Hfuel.
  assert (Hconcat : concat (map fst (batches entries)) = entries).
  { unfold batches. rewrite (batchLoop_concat _ _ _ Hfuel). reflexivity. }
  split; [|split; [exact Hconcat|split; [|split; [|split; [|split; [|split]]]]]].
  - unfold batches. rewrite (batchLoop_length _ _ _ Hfuel), Nat.sub_0_r.
    reflexivity.
  - apply batchLoop_sizes.
  - intros pre b post. apply (batchLoop_pause _ _ _ _ _ _ Hfuel).
  - intros tr Htr. split; [|split; [|split]].
    + intros k Hk. rewrite <- keyBatches_keys in Hk.
      apply (loopTrace_complete _ _ Htr k Hk).
    + rewrite (loopTrace_sleeps _ _ Htr).
      rewrite pauses_count.
      * unfold keyBatches. rewrite length_map. reflexivity.
      * intros pre b post E. apply (keyBatches_split entries pre b post E).
    + intros t ms E.
      destruct (keyBatches entries) as [|b0 rest0] eqn:Ekb.
      * inversion Htr as [Enil|]. subst tr. destruct t; discriminate.
      * destruct (exists_last (l := b0 :: rest0)) as (pre & [keys pause] & Elast);
          [discriminate|].
        rewrite Elast in Htr. rewrite <- Ekb in *. clear Ekb.
        assert (Hsplit : keyBatches entries = pre ++ (keys, pause) :: []).
        { rewrite <- Elast. reflexivity. }
        destruct (keyBatches_split entries pre (keys, pause) [] Hsplit) as [Hp Hk].
        simpl in Hp, Hk. destruct pause.
        { exfalso. apply (proj1 Hp); reflexivity. }
        destruct (loopTrace_last pre keys tr Hk Htr) as (t' & k & E').
        rewrite E' in E. apply app_inj_tail in E as [_ E]. discriminate.
    + intros bs1 bs2 E Hne1 Hne2.
      destruct (exists_last Hne1) as (pre & [keys pause] & ->).
      rewrite <- app_assoc in E. simpl in E.
      destruct (keyBatches_split entries pre (keys, pause) bs2 E) as [Hp _].
      simpl in Hp. assert (pause = true) by (apply Hp; exact Hne2). subst pause.
      rewrite E in Htr.
      apply (loopTrace_between pre keys bs2 tr); [|exact Htr].
      rewrite <- E, keyBatches_keys. exact Hnd.
  - intros entry l. apply worker_returns.
  - destruct (runBatches_stores net coerce showValue apiKey currentDate
                (batches entries) ∅ [])
      as [log E].
    rewrite Hconcat in E. eexists. exists log. split; [exact E|]. split.
    + intros k sid Hin.
      rewrite (fold_store_lookup net coerce showValue apiKey currentDate
                 entries Hnd ∅ k sid Hin).
      destruct (written net coerce showValue apiKey currentDate (k, sid));
        [reflexivity | apply lookup_empty].
    + intros k Hk. rewrite fold_store_other by exact Hk. apply lookup_empty.
  - intros net2 entry l. apply worker_local.
Qed.

End Schedule.

Import Samples.

Lemma batched_fetch_groups_witness :
  NoDup (map fst indicators) /\ length (batches indicators) = 7%nat.
Proof.
  assert (H : NoDup (map fst indicators)).
  { apply (bool_decide_unpack _). vm_compute. exact I. }
  split; [exact H|].
  exact (proj1 (batched_fetch_groups offline coerce showValue "demo" today
                  indicators H)).
Defined.

End BatchSpec.

(** ** The treasury fallback *)

Module FallbackSpec.
Import Js Net Economic NetFacts WorkerSpec.

Lemma fred_is_not_yahoo (apiKey sid sym : string) :
  fredUrl apiKey sid <> quoteUrl sym.
Proof. unfold fredUrl, quoteUrl. cbn [String.append]. discriminate. Qed.

Section Fallback.
Variable net : string -> Outcome JsValue.
Variable coerce : JsValue -> JsNum.number.
Variable showValue : JsValue -> string.
Variable apiKey currentDate : string.

Local Abbreviation worker' := (worker net coerce showValue apiKey currentDate).

(** The body of the worker's [try]: the FRED request and what is read from
    its answer. *)
Local Abbreviation attempt sid :=
  (Js.bind (net (fredUrl apiKey sid)) (primaryValue coerce showValue sid)).

Lemma worker_primary_returns (key sid : string) (w : option Indicator) :
  attempt sid = Ret w ->
  worker' (key, sid) [] = (Ret w, [fredUrl apiKey sid]).
Proof.
  intros H. unfold worker, tryCatch, primary, Net.bind, get, lift. cbn [snd fst].
  destruct (net (fredUrl apiKey sid)) as [data|e]; cbn [Js.bind] in H;
    [|discriminate].
  rewrite H. reflexivity.
Qed.

Lemma worker_primary_throws (key sid e : string) :
  isTreasury key = true ->
  attempt sid = Throw e ->
  exists w,
    worker' (key, sid) [] = (Ret w, [fredUrl apiKey sid; quoteUrl (symbolMap key)])
    /\ (forall e', net (quoteUrl (symbolMap key)) = Throw e' -> w = None).
Proof.
  intros Ht H.
  assert (Hp : primary net coerce showValue apiKey sid []
               = (Throw e, [fredUrl apiKey sid])).
  { unfold primary, Net.bind, get, lift.
    destruct (net (fredUrl apiKey sid)) as [data|e0]; cbn [Js.bind] in H.
    - rewrite H. reflexivity.
    - injection H as ->. reflexivity. }
  unfold worker, tryCatch. cbn [snd fst]. rewrite Hp, Ht.
  unfold fallback, Net.bind, get.
  destruct (net (quoteUrl (symbolMap key))) as [data|e'] eqn:Hy.
  - destruct (asString data ([fredUrl apiKey sid] ++ [quoteUrl (symbolMap key)]))
      as [[html|e1] l1] eqn:Ha.
    + assert (l1 = [fredUrl apiKey sid; quoteUrl (symbolMap key)]).
      { destruct data; cbn in Ha; try discriminate. injection Ha as _ <-.
        reflexivity. }
      subst l1.
      destruct (Regex.jsMatch pricePattern html) as [[|m1 [|? ?]]|];
        cbn; eexists; (split; [reflexivity | intros ? [=]]).
    + assert (l1 = [fredUrl apiKey sid; quoteUrl (symbolMap key)]).
      { destruct data; cbn in Ha; try discriminate; injection Ha as _ <-;
          reflexivity. }
      subst l1. exists None. split; [reflexivity | reflexivity].
  - exists None. split; [reflexivity | reflexivity].
Qed.

(** C5, as the code has it.  For a treasury key the substitute page is
    requested exactly when the FRED attempt throws; when the attempt
    returns, with or without a usable observation, the worker returns that
    and requests nothing else.  A failing substitute leaves the key absent,
    no worker rejects, and whatever the substitute answers, an attempt that
    returned is what its worker returns. *)
Theorem treasury_fallback (key sid : string) :
  isTreasury key = true ->
  let fred := fredUrl apiKey sid in
  let yahoo := quoteUrl (symbolMap key) in
  (forall w, attempt sid = Ret w -> worker' (key, sid) [] = (Ret w, [fred]))
  /\ (forall e, attempt sid = Throw e ->
        exists w, worker' (key, sid) [] = (Ret w, [fred; yahoo])
                  /\ (forall e', net yahoo = Throw e' -> w = None))
  /\ (In yahoo (snd (worker' (key, sid) [])) <-> exists e, attempt sid = Throw e)
  /\ (forall entry l, exists w l', worker' entry l = (Ret w, l'))
  /\ (forall key' sid' w,
        attempt sid' = Ret w ->
        worker' (key', sid') [] = (Ret w, [fredUrl apiKey sid'])).
Proof.
  intros Ht fred yahoo.
  split; [apply worker_primary_returns|].
  split; [intros e; apply (worker_primary_throws key sid e Ht)|].
  split; [|split; [apply worker_returns | intros key'; apply worker_primary_returns]].
  destruct (attempt sid) as [w|e] eqn:Ha.
  - rewrite (worker_primary_returns key sid w Ha). cbn [snd In]. split.
    + intros [E|[]]. exfalso. apply (fred_is_not_yahoo apiKey sid (symbolMap key) E).
    + intros [e [=]].
  - destruct (worker_primary_throws key sid e Ht Ha) as (w & -> & _).
    cbn [snd In]. split; [eauto | auto].
Qed.

End Fallback.

Import Samples.

Lemma treasury_fallback_witness :
  isTreasury "treasury10y" = true
  /\ exists w,
       worker fredDown coerce showValue "demo" today ("treasury10y", "DGS10") []
       = (Ret w, [fredUrl "demo" "DGS10"; quoteUrl "^TNX"]).
Proof.
  assert (H : isTreasury "treasury10y" = true) by reflexivity.
  split; [exact H|].
  destruct (proj1 (proj2 (treasury_fallback fredDown coerce showValue "demo" today
                            "treasury10y" "DGS10" H))
              "Request failed with status code 404" eq_refl) as (w & E & _).
  exists w. exact E.
Defined.

(** FRED answers for a treasury key with nothing but a placeholder: the
    worker stores nothing and the quote page, which would have given 4.25,
    is never requested. *)
Lemma placeholder_answer_no_fallback :
  isTreasury "treasury10y" = true
  /\ Js.bind (pendingRate (fredUrl "demo" "DGS10"))
       (primaryValue coerce showValue "DGS10") = Ret None
  /\ worker pendingRate coerce showValue "demo" today ("treasury10y", "DGS10") []
     = (Ret None, [fredUrl "demo" "DGS10"])
  /\ exists ind,
       run (fallback pendingRate today "treasury10y")
       = (Ret (Some ind), [quoteUrl "^TNX"])
       /\ value ind = JNum 4.25%float.
Proof.
  split; [reflexivity|]. split; [vm_compute; reflexivity|].
  split; [vm_compute; reflexivity|].
  eexists. split; vm_compute; reflexivity.
Qed.

End FallbackSpec.

(** ** Placeholder observations *)

Module PlaceholderSpec.
Import Js Net Profile Economic FredSeries.

Lemma In_firstn {A : Type} (n : nat) (l : list A) (x : A) :
  In x (firstn n l) -> In x l.
Proof.
  intros H. rewrite <- (firstn_skipn n l). apply in_or_app. left. exact H.
Qed.

Lemma validObservation_record (obs : JsValue) :
  isRecord obs = true -> validObservation obs = Ret (usable obs).
Proof. destruct obs; try discriminate. reflexivity. Qed.

Lemma findValid_records (observations : list JsValue) :
  Forall (fun o => isRecord o = true) observations ->
  findValid observations
  = Ret (match find usable observations with
         | Some o => o
         | None => JUndefined
         end).
Proof.
  induction 1 as [|o l Ho _ IH]; [reflexivity|].
  cbn [findValid find]. rewrite (validObservation_record o Ho). cbn [Js.bind].
  destruct (usable o); [reflexivity | exact IH].
Qed.

Lemma filterValid_records (observations : list JsValue) :
  Forall (fun o => isRecord o = true) observations ->
  filterValid observations = Ret (List.filter usable observations).
Proof.
  induction 1 as [|o l Ho _ IH]; [reflexivity|].
  cbn [filterValid List.filter]. rewrite (validObservation_record o Ho), IH.
  cbn [Js.bind]. reflexivity.
Qed.

Lemma usable_not_placeholder (o : JsValue) :
  usable o = true ->
  isPlaceholder (observationValue o) = false
  /\ isNull (observationValue o) = false.
Proof.
  unfold usable. intros H. apply andb_true_iff in H as [H1 H2].
  apply negb_true_iff in H1, H2. auto.
Qed.

Lemma find_usable_none (observations : list JsValue) :
  Forall (fun o => isPlaceholder (observationValue o) = true
                   \/ isNull (observationValue o) = true) observations ->
  find usable observations = None.
Proof.
  induction 1 as [|o l Ho _ IH]; [reflexivity|].
  cbn [find]. unfold usable at 1.
  destruct Ho as [-> | ->]; cbn [negb andb]; [exact IH|].
  rewrite andb_false_r. exact IH.
Qed.

Section Environment.
Variable coerce : JsValue -> JsNum.number.
Variable showValue : JsValue -> string.
Variable currentDate : string.

Local Abbreviation primaryValue' := (primaryValue coerce showValue).

Lemma guardedObservations_array (fields : list (string * JsValue))
    (observations : list JsValue) :
  assoc "observations" fields = Some (JArr observations) ->
  guardedObservations coerce (JObj fields)
  = Ret (match observations with [] => None | _ :: _ => Some observations end).
Proof.
  intros H. unfold guardedObservations. cbn [truthy getProp]. rewrite H.
  reflexivity.
Qed.

Lemma primaryValue_records (sid : string) (fields : list (string * JsValue))
    (observations : list JsValue) :
  assoc "observations" fields = Some (JArr observations) ->
  Forall (fun o => isRecord o = true) observations ->
  exists r,
    primaryValue' sid (JObj fields) = Ret r
    /\ match r with
       | Some ind =>
           exists o,
             find usable observations = Some o
             /\ Economic.value ind = JNum (parseFloatValue showValue (observationValue o))
       | None => find usable observations = None
       end.
Proof.
  intros Hf Hrec. unfold primaryValue.
  rewrite (guardedObservations_array fields observations Hf). cbn [Js.bind].
  destruct observations as [|o0 rest] eqn:E; [exists None; split; reflexivity|].
  rewrite <- E in *. rewrite (findValid_records observations Hrec). cbn [Js.bind].
  destruct (find usable observations) as [o|] eqn:Hfind.
  - apply find_some in Hfind as Hin. destruct Hin as [Hin _].
    rewrite List.Forall_forall in Hrec. specialize (Hrec o Hin).
    destruct o as [| | | | | |ofields]; try discriminate.
    cbn [truthy getProp Js.bind]. eexists. split; [reflexivity|].
    exists (JObj ofields). split; reflexivity.
  - cbn [truthy]. exists None. split; reflexivity.
Qed.

Lemma toFredSeriesRows_values (sd : SeriesData) :
  Forall (fun o => isRecord o = true) (observations sd) ->
  exists rows,
    toFredSeriesRows showValue currentDate (Some sd) = Ret rows
    /\ map FredSeries.value rows
       = map (fun o => JNum (parseFloatValue showValue (observationValue o)))
           (observations sd).
Proof.
  unfold toFredSeriesRows.
  induction 1 as [|o l Ho _ [rows [IH1 IH2]]]; [exists []; split; reflexivity|].
  destruct o as [| | | | | |ofields]; try discriminate.
  cbn [getProp Js.bind]. rewrite IH1. cbn [Js.bind].
  eexists. split; [reflexivity|]. cbn [map FredSeries.value]. rewrite IH2.
  reflexivity.
Qed.


End Environment.

Import Samples.



End PlaceholderSpec.

(** ** The summary snapshot *)

Module SummarySpec.
Import Js Text Regex Decode Profile Summary.

(** Every entry the DOM scan stores is a Typed Value with a numeric raw. *)
Lemma domScan_typed (els : list FinStreamer) :
  forall k x, domScan els !! k = Some x -> exists v fmt, x = typed v fmt.
Proof.
  unfold domScan.
  assert (H : forall sd : gmap string JsValue,
             (forall k x, sd !! k = Some x -> exists v fmt, x = typed v fmt) ->
             forall k x, fold_left domStep els sd !! k = Some x ->
                         exists v fmt, x = typed v fmt).
  { induction els as [|el els IH]; intros sd Hsd k x; simpl; [apply Hsd|].
    apply IH. clear k x. intros k x. unfold domStep.
    destruct (dataField el) as [f|]; [|apply Hsd].
    destruct (fieldMapping f) as [key|]; [|apply Hsd].
    destruct (parseFinancialValue (dataValue el) (text el)) as [value|]; [|apply Hsd].
    destruct (decide (key = k)) as [->|Hne].
    - rewrite lookup_insert_eq. intros [= <-]. eauto.
    - rewrite lookup_insert_ne by exact Hne. apply Hsd. }
  apply H. intros k x. rewrite lookup_empty. discriminate.
Qed.

Section Environment.
Variable JSON_parse : list ascii -> Outcome JsValue.
Variable coerce : JsValue -> JsNum.number.

Local Abbreviation jsonStep' := (jsonStep JSON_parse).
Local Abbreviation fixTrailingPE' := (fixTrailingPE JSON_parse coerce).
Local Abbreviation collectSummary' := (collectSummary JSON_parse coerce).
Local Abbreviation jsonTrailingPE' := (jsonTrailingPE JSON_parse coerce).

Lemma additionalStep_other (html : list ascii) (sd : gmap string JsValue)
    (fp : string * regex) (k : string) :
  fst fp <> k -> additionalStep html sd fp !! k = sd !! k.
Proof.
  intros Hne. unfold additionalStep.
  destruct (jsMatch (snd fp) html) as [[|m1 [|? ?]]|]; try reflexivity.
  destruct m1; [reflexivity|].
  destruct (JsNum.isNaN _); [reflexivity|].
  apply lookup_insert_ne. exact Hne.
Qed.

Lemma jsonStep_other (html : list ascii) (sd : gmap string JsValue)
    (fp : string * regex) (k : string) :
  fst fp <> k -> jsonStep' html sd fp !! k = sd !! k.
Proof.
  intros Hne. unfold jsonStep.
  destruct (truthy _); [reflexivity|].
  destruct (jsMatch (snd fp) html) as [[|m1 [|? ?]]|]; try reflexivity.
  destruct (JSON_parse _); [|reflexivity].
  apply lookup_insert_ne. exact Hne.
Qed.

Lemma fold_other {A : Type} (step : gmap string JsValue -> A -> gmap string JsValue)
    (key : A -> string) (k : string) (l : list A) :
  (forall sd a, key a <> k -> step sd a !! k = sd !! k) ->
  Forall (fun a => key a <> k) l ->
  forall sd, fold_left step l sd !! k = sd !! k.
Proof.
  intros Hstep. induction 1 as [|a l Ha _ IH]; intros sd; simpl; [reflexivity|].
  rewrite IH. apply Hstep. exact Ha.
Qed.

(** Only the DOM scan fills [trailingPE] before the plausibility check. *)
Lemma trailingPE_before_check (html : list ascii) (els : list FinStreamer) :
  fold_left (jsonStep' html) jsonFieldPatterns
    (fold_left (additionalStep html) additionalMetrics (domScan els))
    !! "trailingPE"
  = domScan els !! "trailingPE".
Proof.
  rewrite (fold_other _ fst "trailingPE").
  - rewrite (fold_other _ fst "trailingPE"); [reflexivity | |].
    + intros sd a. apply additionalStep_other.
    + unfold additionalMetrics. repeat constructor; discriminate.
  - intros sd a. apply jsonStep_other.
  - unfold jsonFieldPatterns. repeat constructor; discriminate.
Qed.

Lemma fixTrailingPE_typed (html : list ascii) (sd : gmap string JsValue)
    (v : JsNum.number) (fmt : string) :
  sd !! "trailingPE" = Some (typed v fmt) ->
  fixTrailingPE' html sd !! "trailingPE"
  = Some (if JsNum.lt v 10%float
          then match jsonTrailingPE' html with
               | Some peData => peData
               | None => typed v fmt
               end
          else typed v fmt).
Proof.
  intros Hsd. unfold fixTrailingPE, member. rewrite Hsd. simpl.
  destruct (JsNum.lt v 10%float); [|exact Hsd].
  destruct (jsonTrailingPE' html); [apply lookup_insert_eq | exact Hsd].
Qed.

Lemma jsonTrailingPE_spec (html m1 : list ascii) (peData raw : JsValue) :
  jsMatch (jsonMember "trailingPE" Plus) html = Some [m1] ->
  JSON_parse (unescapeQuotes m1) = Ret peData ->
  getProp peData "raw" = Ret raw ->
  jsonTrailingPE' html
  = if JsNum.gt (toNumber coerce raw) 10%float then Some peData else None.
Proof.
  intros Hm Hp Hr. unfold jsonTrailingPE. rewrite Hm, Hp. simpl. rewrite Hr.
  reflexivity.
Qed.

Lemma fixTrailingPE_other (html : list ascii) (sd : gmap string JsValue)
    (k : string) :
  k <> "trailingPE" -> fixTrailingPE' html sd !! k = sd !! k.
Proof.
  intros Hne. unfold fixTrailingPE.
  destruct (truthy _); [|reflexivity].
  destruct (getProp _ _); [|reflexivity].
  destruct (JsNum.lt _ _); [|reflexivity].
  destruct (jsonTrailingPE' _); [|reflexivity].
  apply lookup_insert_ne. congruence.
Qed.

(** [marketCap] is read from the elements alone, never from the page text. *)
Lemma marketCap_from_elements (html : list ascii) (els : list FinStreamer) :
  collectSummary' html els !! "marketCap"
  = domScan els !! "marketCap".
Proof.
  unfold collectSummary. rewrite fixTrailingPE_other by discriminate.
  rewrite (fold_other _ fst "marketCap").
  - rewrite (fold_other _ fst "marketCap"); [reflexivity | |].
    + intros sd a. apply additionalStep_other.
    + unfold additionalMetrics. repeat constructor; discriminate.
  - intros sd a. apply jsonStep_other.
  - unfold jsonFieldPatterns. repeat constructor; discriminate.
Qed.

(** C9. When the DOM scan has filled [trailingPE], the final snapshot keeps
    that value unless its raw is below 10 and the escaped-JSON member
    parses to a value whose raw exceeds 10, which then replaces it. *)
Theorem trailingPE_plausibility (html : list ascii) (els : list FinStreamer)
    (dom : JsValue) :
  domScan els !! "trailingPE" = Some dom ->
  exists v fmt,
    dom = typed v fmt
    /\ (forall m1 peData raw,
          jsMatch (jsonMember "trailingPE" Plus) html = Some [m1] ->
          JSON_parse (unescapeQuotes m1) = Ret peData ->
          getProp peData "raw" = Ret raw ->
          collectSummary' html els !! "trailingPE"
          = Some (if JsNum.lt v 10%float && JsNum.gt (toNumber coerce raw) 10%float
                  then peData else dom))
    /\ (jsonTrailingPE' html = None ->
        collectSummary' html els !! "trailingPE" = Some dom)
    /\ (JsNum.lt v 10%float = false ->
        collectSummary' html els !! "trailingPE" = Some dom).
Proof.
  intros Hdom. destruct (domScan_typed els _ _ Hdom) as (v & fmt & ->).
  exists v, fmt. split; [reflexivity|].
  assert (Hfinal : collectSummary' html els !! "trailingPE"
                   = Some (if JsNum.lt v 10%float
                           then match jsonTrailingPE' html with
                                | Some peData => peData
                                | None => typed v fmt
                                end
                           else typed v fmt)).
  { unfold collectSummary. apply fixTrailingPE_typed.
    rewrite trailingPE_before_check. exact Hdom. }
  repeat split.
  - intros m1 peData raw Hm Hp Hr. rewrite Hfinal.
    rewrite (jsonTrailingPE_spec html m1 peData raw Hm Hp Hr).
    destruct (JsNum.lt v 10%float), (JsNum.gt (toNumber coerce raw) 10%float);
      reflexivity.
  - intros Hnone. rewrite Hfinal, Hnone. destruct (JsNum.lt v 10%float); reflexivity.
  - intros Hlt. rewrite Hfinal, Hlt. reflexivity.
Qed.

End Environment.

Import Samples.

Lemma trailingPE_plausibility_witness :
  domScan [trailingPEElement] !! "trailingPE" = Some (typed 6.5 "6.5")
  /\ collectSummary parseTyped coerce trailingPEPage [trailingPEElement]
       !! "trailingPE"
     = Some (typed 28.4 "28.40").
Proof.
  assert (H : domScan [trailingPEElement] !! "trailingPE" = Some (typed 6.5 "6.5")).
  { vm_compute. reflexivity. }
  split; [exact H|].
  destruct (trailingPE_plausibility parseTyped coerce trailingPEPage
              [trailingPEElement] (typed 6.5 "6.5") H)
    as (v & fmt & E & Hjson & _).
  injection E as <- <-.
  rewrite (Hjson (q "{\'raw\':28.4,\'fmt\':\'28.40\'}") (typed 28.4 "28.40")
             (JNum 28.4)).
  - reflexivity.
  - vm_compute. reflexivity.
  - vm_compute. reflexivity.
  - reflexivity.
Defined.

End SummarySpec.

(** ** What the extractors reject *)

Module ExtractionSpec.
Import Js Net Text Regex Profile Summary NetFacts.

Section Environment.
Variable JSON_parse : list ascii -> Outcome JsValue.
Variable coerce : JsValue -> JsNum.number.
Variable showValue : JsValue -> string.
Variable net : string -> Outcome JsValue.
Variable finStreamers : list ascii -> string -> list FinStreamer.
Variable currentDate : string.

Local Abbreviation extractSummaryData' :=
  (extractSummaryData JSON_parse coerce net finStreamers).
Local Abbreviation fetchYahooSummary' :=
  (fetchYahooSummary JSON_parse coerce showValue net finStreamers currentDate).
Local Abbreviation collect' := (collectSummary JSON_parse coerce).

Lemma extractSummaryData_returns (symbol : string) (l : list string) :
  exists r l', extractSummaryData' symbol l = (Ret r, l').
Proof.
  unfold extractSummaryData. apply tryCatch_returns.
  intros e l0. unfold ret. eauto.
Qed.

Lemma extractAssetProfile_returns (symbol : string) (l : list string) :
  exists r l', extractAssetProfile net symbol l = (Ret r, l').
Proof.
  unfold extractAssetProfile. apply tryCatch_returns.
  intros e l0. unfold ret. eauto.
Qed.

Lemma extractSummaryData_page (symbol doc : string) :
  net (quoteUrl symbol) = Ret (JStr doc) ->
  let html := list_ascii_of_string doc in
  let sd := collect' html (finStreamers html symbol) in
  extractSummaryData' symbol []
  = (Ret (if (0 <? size sd)%nat then Some sd else None), [quoteUrl symbol]).
Proof.
  intros Hnet html sd.
  unfold extractSummaryData, tryCatch, bind, get. rewrite Hnet.
  cbv beta iota delta [asString ret].
  fold html. fold sd. destruct (0 <? size sd)%nat; reflexivity.
Qed.

Lemma extractSummaryData_failure (symbol : string) :
  (forall doc, net (quoteUrl symbol) <> Ret (JStr doc)) ->
  extractSummaryData' symbol [] = (Ret None, [quoteUrl symbol]).
Proof.
  intros Hnet.
  unfold extractSummaryData, tryCatch, bind, get.
  destruct (net (quoteUrl symbol)) as [data|e]; [|reflexivity].
  destruct data as [| | | |doc| |]; try reflexivity.
  exfalso. apply (Hnet doc). reflexivity.
Qed.

Lemma extractAssetProfile_some (symbol : string) (l : list string)
    (p : gmap string JsValue) :
  fst (extractAssetProfile net symbol l) = Ret (Some p) ->
  (5 < size p)%nat
  /\ exists doc rawJson,
       net (quoteUrl symbol) = Ret (JStr doc)
       /\ jsMatch jsonPattern (list_ascii_of_string doc) = Some [rawJson]
       /\ p = profileFields rawJson.
Proof.
  unfold extractAssetProfile, tryCatch, bind, get.
  destruct (net (quoteUrl symbol)) as [data|e]; [|discriminate].
  destruct data as [| | | |doc| |]; try discriminate.
  cbv beta iota delta [asString ret fst].
  destruct (negb _ || negb _); [discriminate|].
  destruct (jsMatch jsonPattern (list_ascii_of_string doc))
    as [[|rawJson [|? ?]]|] eqn:Hm; try discriminate.
  destruct (5 <? size (profileFields rawJson))%nat eqn:Hsz; [|discriminate].
  intros [= <-]. apply Nat.ltb_lt in Hsz. split; [exact Hsz|]. eauto.
Qed.

Lemma fetchYahooSummary_rejects (symbol : string) (l l' : list string) :
  extractSummaryData' symbol l = (Ret None, l') ->
  fetchYahooSummary' symbol l = (Throw summaryFailure, l').
Proof.
  intros H. unfold fetchYahooSummary, tryCatch, bind. rewrite H. reflexivity.
Qed.

Lemma fetchYahooProfile_rejects (symbol : string) (l l' : list string) :
  extractAssetProfile net symbol l = (Ret None, l') ->
  fetchYahooProfile net currentDate symbol l = (Throw profileFailure, l').
Proof.
  intros H. unfold fetchYahooProfile, tryCatch, bind. rewrite H. reflexivity.
Qed.


End Environment.

Import Samples.


End ExtractionSpec.

(** ** Canonical rows *)

Module RowSpec.
Import Js Net Text Regex Profile Summary.

Lemma orElse_cases (a b : JsValue) :
  (truthy a = true /\ orElse a b = a) \/ (truthy a = false /\ orElse a b = b).
Proof. unfold orElse. destruct (truthy a); auto. Qed.

Lemma member_truthy (obj : gmap string JsValue) (k : string) :
  truthy (member obj k) = true -> obj !! k = Some (member obj k).
Proof.
  unfold member. destruct (obj !! k); [reflexivity|]. discriminate.
Qed.

Section GetValue.
Variable showValue : JsValue -> string.

Lemma getValue_typed (x r : JsValue) :
  TypedValue x r -> getValue showValue x = Ret r.
Proof.
  intros (fields & -> & Hraw & Hr). unfold getValue.
  cbn [truthy negb getProp Js.bind]. rewrite Hraw, Hr. reflexivity.
Qed.

Lemma getValue_member (sd : gmap string JsValue) (k : string) :
  (forall x, sd !! k = Some x -> exists r, TypedValue x r) ->
  exists v,
    getValue showValue (member sd k) = Ret v
    /\ ((sd !! k = None /\ v = JNull)
        \/ exists x, sd !! k = Some x /\ TypedValue x v).
Proof.
  intros H. unfold member. destruct (sd !! k) as [x|] eqn:E.
  - destruct (H x eq_refl) as [r Hr]. exists r. split.
    + apply getValue_typed. exact Hr.
    + right. eauto.
  - exists JNull. split; [reflexivity | auto].
Qed.

(** Over a snapshot of Typed Values the summary row holds, field by field,
    the raw member, or [null] where the snapshot has no entry. *)
Lemma toStockSummaryRow_unwraps (currentDate sym : string)
    (sd : gmap string JsValue) :
  (forall k x, sd !! k = Some x -> exists r, TypedValue x r) ->
  exists row,
    toStockSummaryRow showValue currentDate sym sd = Ret row
    /\ (forall k v, In (k, v) (metricFields row) ->
          (sd !! k = None /\ v = JNull)
          \/ exists x, sd !! k = Some x /\ TypedValue x v)
    /\ currency row = orElse (member sd "currency") (JStr "USD").
Proof.
  intros Hsd.
  destruct (getValue_member sd "marketCap" (Hsd _)) as (v1 & E1 & C1).
  destruct (getValue_member sd "enterpriseValue" (Hsd _)) as (v2 & E2 & C2).
  destruct (getValue_member sd "sharesOutstanding" (Hsd _)) as (v3 & E3 & C3).
  destruct (getValue_member sd "beta" (Hsd _)) as (v4 & E4 & C4).
  destruct (getValue_member sd "trailingPE" (Hsd _)) as (v5 & E5 & C5).
  destruct (getValue_member sd "forwardPE" (Hsd _)) as (v6 & E6 & C6).
  destruct (getValue_member sd "trailingEps" (Hsd _)) as (v7 & E7 & C7).
  destruct (getValue_member sd "forwardEps" (Hsd _)) as (v8 & E8 & C8).
  destruct (getValue_member sd "enterpriseToEbitda" (Hsd _)) as (v9 & E9 & C9).
  destruct (getValue_member sd "enterpriseToRevenue" (Hsd _)) as (v10 & E10 & C10).
  destruct (getValue_member sd "pegRatio" (Hsd _)) as (v11 & E11 & C11).
  unfold toStockSummaryRow.
  rewrite E1, E2, E3, E4, E5, E6, E7, E8, E9, E10, E11.
  cbn [Js.bind]. eexists. split; [reflexivity|]. split; [|reflexivity].
  intros k v Hin. unfold metricFields in Hin. cbn [In] in Hin.
  repeat (destruct Hin as [Hin|Hin]; [injection Hin as <- <-; assumption|]).
  destruct Hin.
Qed.

End GetValue.

Lemma toStockProfileRow_fallbacks (currentDate sym : string)
    (profile : gmap string JsValue) :
  let row := toStockProfileRow currentDate sym profile in
  (forall k v, In (k, v) (nullableFields row) ->
     (truthy v = true /\ profile !! k = Some v)
     \/ (truthy (member profile k) = false /\ v = JNull))
  /\ (forall k v d, In (k, v, d) (describedFields row) ->
        (truthy v = true /\ profile !! k = Some v)
        \/ (truthy (member profile k) = false /\ v = JStr d)).
Proof.
  intros row. split.
  - intros k v Hin. unfold nullableFields in Hin. cbn [In] in Hin.
    repeat (destruct Hin as [Hin|Hin];
            [injection Hin as <- <-; cbn;
             match goal with
             | |- context [orElse ?a ?b] =>
                 destruct (orElse_cases a b) as [[Ht ->]|[Ht ->]];
                 [left; split; [exact Ht | apply member_truthy; exact Ht]
                 |right; split; [exact Ht | reflexivity]]
             end|]).
    destruct Hin.
  - intros k v d Hin. unfold describedFields in Hin. cbn [In] in Hin.
    repeat (destruct Hin as [Hin|Hin];
            [injection Hin as <- <- <-; cbn;
             match goal with
             | |- context [orElse ?a ?b] =>
                 destruct (orElse_cases a b) as [[Ht ->]|[Ht ->]];
                 [left; split; [exact Ht | apply member_truthy; exact Ht]
                 |right; split; [exact Ht | reflexivity]]
             end|]).
    destruct Hin.
Qed.

End RowSpec.

Module PricingSpec.
Import Js Profile Pricing RowSpec.

Lemma pricing_getValue_member (pd : gmap string JsValue) (k : string) :
  (forall x, pd !! k = Some x -> exists r, TypedValue x r) ->
  exists v,
    getValue (member pd k) = Ret v
    /\ ((pd !! k = None /\ v = JNull)
        \/ exists x, pd !! k = Some x /\ TypedValue x v).
Proof.
  intros H. unfold member. destruct (pd !! k) as [x|] eqn:E.
  - destruct (H x eq_refl) as [r Hr]. exists r. split; [|right; eauto].
    destruct Hr as (fields & -> & Hraw & Hr). unfold getValue.
    cbn [truthy negb getProp Js.bind]. rewrite Hraw, Hr. reflexivity.
  - exists JNull. split; [reflexivity | auto].
Qed.

Lemma toStockPricingRow_unwraps (currentDate sym : string)
    (pd : gmap string JsValue) :
  (forall k x, pd !! k = Some x -> k <> "marketState" -> exists r, TypedValue x r) ->
  exists row,
    toStockPricingRow currentDate sym pd = Ret row
    /\ (forall k v, In (k, v) (pricingFields row) ->
          (pd !! k = None /\ v = JNull)
          \/ exists x, pd !! k = Some x /\ TypedValue x v)
    /\ market_state row = orElse (member pd "marketState") (JStr "UNKNOWN")
    /\ currency row = "USD".
Proof.
  intros Hpd.
  assert (H : forall k, k <> "marketState" ->
              forall x, pd !! k = Some x -> exists r, TypedValue x r).
  { intros k Hk x Hx. apply (Hpd k x Hx Hk). }
  destruct (pricing_getValue_member pd "currentPrice" (H "currentPrice" ltac:(discriminate))) as (v0 & E0 & _).
  destruct (pricing_getValue_member pd "regularMarketPrice" (H "regularMarketPrice" ltac:(discriminate))) as (v0' & E0' & _).
  destruct (pricing_getValue_member pd "previousClose" (H "previousClose" ltac:(discriminate))) as (v1 & E1 & C1).
  destruct (pricing_getValue_member pd "open" (H "open" ltac:(discriminate))) as (v2 & E2 & C2).
  destruct (pricing_getValue_member pd "dayLow" (H "dayLow" ltac:(discriminate))) as (v3 & E3 & C3).
  destruct (pricing_getValue_member pd "dayHigh" (H "dayHigh" ltac:(discriminate))) as (v4 & E4 & C4).
  destruct (pricing_getValue_member pd "regularMarketChange" (H "regularMarketChange" ltac:(discriminate))) as (v5 & E5 & C5).
  destruct (pricing_getValue_member pd "regularMarketChangePercent" (H "regularMarketChangePercent" ltac:(discriminate))) as (v6 & E6 & C6).
  destruct (pricing_getValue_member pd "preMarketPrice" (H "preMarketPrice" ltac:(discriminate))) as (v7 & E7 & C7).
  destruct (pricing_getValue_member pd "preMarketChange" (H "preMarketChange" ltac:(discriminate))) as (v8 & E8 & C8).
  destruct (pricing_getValue_member pd "preMarketChangePercent" (H "preMarketChangePercent" ltac:(discriminate))) as (v9 & E9 & C9).
  destruct (pricing_getValue_member pd "postMarketPrice" (H "postMarketPrice" ltac:(discriminate))) as (v10 & E10 & C10).
  destruct (pricing_getValue_member pd "postMarketChange" (H "postMarketChange" ltac:(discriminate))) as (v11 & E11 & C11).
  destruct (pricing_getValue_member pd "postMarketChangePercent" (H "postMarketChangePercent" ltac:(discriminate))) as (v12 & E12 & C12).
  destruct (pricing_getValue_member pd "volume" (H "volume" ltac:(discriminate))) as (v13 & E13 & C13).
  destruct (pricing_getValue_member pd "averageVolume" (H "averageVolume" ltac:(discriminate))) as (v14 & E14 & C14).
  destruct (pricing_getValue_member pd "averageDailyVolume10Day" (H "averageDailyVolume10Day" ltac:(discriminate))) as (v15 & E15 & C15).
  destruct (pricing_getValue_member pd "fiftyTwoWeekLow" (H "fiftyTwoWeekLow" ltac:(discriminate))) as (v16 & E16 & C16).
  destruct (pricing_getValue_member pd "fiftyTwoWeekHigh" (H "fiftyTwoWeekHigh" ltac:(discriminate))) as (v17 & E17 & C17).
  destruct (pricing_getValue_member pd "fiftyDayAverage" (H "fiftyDayAverage" ltac:(discriminate))) as (v18 & E18 & C18).
  destruct (pricing_getValue_member pd "twoHundredDayAverage" (H "twoHundredDayAverage" ltac:(discriminate))) as (v19 & E19 & C19).
  destruct (pricing_getValue_member pd "bid" (H "bid" ltac:(discriminate))) as (v20 & E20 & C20).
  destruct (pricing_getValue_member pd "ask" (H "ask" ltac:(discriminate))) as (v21 & E21 & C21).
  destruct (pricing_getValue_member pd "bidSize" (H "bidSize" ltac:(discriminate))) as (v22 & E22 & C22).
  destruct (pricing_getValue_member pd "askSize" (H "askSize" ltac:(discriminate))) as (v23 & E23 & C23).
  unfold toStockPricingRow.
  rewrite E0, E0', E1, E2, E3, E4, E5, E6, E7, E8, E9, E10, E11, E12, E13, E14,
    E15, E16, E17, E18, E19, E20, E21, E22, E23.
  cbn [Js.bind]. eexists. split; [reflexivity|].
  split; [|split; reflexivity].
  intros k v Hin. unfold pricingFields in Hin. cbn [In] in Hin.
  repeat (destruct Hin as [Hin|Hin]; [injection Hin as <- <-; assumption|]).
  destruct Hin.
Qed.

End PricingSpec.

Module CanonicalRowSpec.
Import Js Net Text Profile Summary RowSpec PricingSpec SummarySpec.

Section Rows.
Variable JSON_parse : list ascii -> Outcome JsValue.
Variable coerce : JsValue -> JsNum.number.
Variable showValue : JsValue -> string.
Variable currentDate : string.


End Rows.

Import Samples.



End CanonicalRowSpec.

(** ** Proxy correlation *)

Module CorrelationGuardSpec.
Import Js Net Correlation.

(** C6.  With fewer than two symbols [fetchStockCorrelation] throws the
    precondition error before any request, while
    [extractStockCorrelationData] catches its own and returns [null]. *)
Theorem too_few_symbols (net : string -> Outcome JsValue) (currentDate : string)
    (syms : list string) :
  (length syms < 2)%nat ->
  run (fetchStockCorrelation net currentDate syms) = (Throw tooFew, [])
  /\ run (extractStockCorrelationData net currentDate syms) = (Ret None, []).
Proof.
  intros Hlen. apply Nat.ltb_lt in Hlen.
  unfold run, fetchStockCorrelation, extractStockCorrelationData, tryCatch.
  rewrite Hlen. split; reflexivity.
Qed.

Import Samples.

Lemma too_few_symbols_witness :
  (length ["AAPL"] < 2)%nat
  /\ run (fetchStockCorrelation offline today ["AAPL"]) = (Throw tooFew, []).
Proof.
  assert (H : (length ["AAPL"] < 2)%nat) by (simpl; lia).
  split; [exact H|].
  exact (proj1 (too_few_symbols offline today ["AAPL"] H)).
Defined.

(** With one symbol the extractor returns [null]; it does not throw. *)
Lemma one_symbol_extractor_returns_null :
  run (extractStockCorrelationData offline today ["AAPL"]) = (Ret None, [])
  /\ fst (run (extractStockCorrelationData offline today ["AAPL"])) <> Throw tooFew.
Proof. split; [reflexivity | discriminate]. Qed.

End CorrelationGuardSpec.

Module CapSpec.
Import JsNum Correlation NumberFacts.

(** The cap holds every score that is a number within its bounds. *)
Lemma cap_in_range (x : number) :
  isNaN x = false ->
  isNaN (cap x) = false
  /\ le (-0.5)%float (cap x) = true /\ le (cap x) 0.95%float = true.
Proof.
  intros Hx. unfold cap.
  assert (Hmax : max (-0.5)%float x = x /\ lt (-0.5)%float x = true
                 \/ max (-0.5)%float x = (-0.5)%float).
  { unfold max. change (isNaN (-0.5)%float) with false. rewrite Hx.
    cbn [orb]. change (isNegZero (-0.5)%float) with false.
    destruct (PrimFloat.ltb (-0.5)%float x) eqn:E; [left; auto|].
    right. destruct (PrimFloat.ltb x (-0.5)%float); reflexivity. }
  destruct Hmax as [[-> Hlo]| ->].
  - unfold min. change (isNaN 0.95%float) with false. rewrite Hx. cbn [orb].
    change (isNegZero 0.95%float) with false.
    destruct (PrimFloat.ltb 0.95%float x) eqn:Hhi.
    + repeat split; reflexivity.
    + assert (Hle : le x 0.95%float = true).
      { apply not_gt_le; [exact Hx | reflexivity | exact Hhi]. }
      destruct (PrimFloat.ltb x 0.95%float);
        (split; [exact Hx | split; [apply lt_le; exact Hlo | exact Hle]]).
  - repeat split; reflexivity.
Qed.

End CapSpec.

Module CorrelationSpec.
Import Js Net Profile Peers Correlation NetFacts.

(** *** Keys of [priceData] *)

Lemma setKey_keys {A : Type} (k : string) (v : A) (l : list (string * A)) :
  map fst (setKey k v l)
  = if existsb (String.eqb k) (map fst l) then map fst l else map fst l ++ [k].
Proof.
  induction l as [|[k' v'] l IH]; [reflexivity|].
  cbn [setKey map fst existsb]. destruct (String.eqb k k') eqn:E.
  - apply String.eqb_eq in E. subst k'. reflexivity.
  - cbn [orb map fst]. rewrite IH.
    destruct (existsb (String.eqb k) (map fst l)); reflexivity.
Qed.

Lemma setKey_NoDup {A : Type} (k : string) (v : A) (l : list (string * A)) :
  NoDup (map fst l) -> NoDup (map fst (setKey k v l)).
Proof.
  intros H. rewrite setKey_keys.
  destruct (existsb (String.eqb k) (map fst l)) eqn:E; [exact H|].
  apply NoDup_app. split; [exact H|]. split; [|apply NoDup_singleton].
  intros x Hx Hk. apply list_elem_of_In in Hx.
  apply list_elem_of_In in Hk. destruct Hk as [<-|[]].
  assert (existsb (String.eqb k) (map fst l) = true); [|congruence].
  apply existsb_exists. exists k. split; [exact Hx | apply String.eqb_refl].
Qed.

Lemma fetchMetrics_NoDup (net : string -> Outcome JsValue) (syms : list string) :
  forall acc l pd l',
  NoDup (map fst acc) ->
  fetchMetrics net syms acc l = (Ret pd, l') ->
  NoDup (map fst pd).
Proof.
  induction syms as [|s syms IH]; intros acc l pd l' Hacc H.
  - injection H as <- _. exact Hacc.
  - cbn [fetchMetrics] in H. unfold Net.bind at 1 in H.
    destruct (tryCatch _ _ l) as [[acc'|e] l1] eqn:Et; [|discriminate].
    apply (IH acc' l1 pd l'); [|exact H].
    unfold tryCatch, Net.bind, get in Et.
    destruct (net (quoteUrl s)) as [data|e].
    + destruct data; cbn in Et; injection Et as <- _;
        try exact Hacc. apply setKey_NoDup. exact Hacc.
    + cbn in Et. injection Et as <- _. exact Hacc.
Qed.

(** *** The matrix *)

Lemma assoc_indexed {B : Type} (f : nat * string -> B) (s : string) :
  forall (l : list string) (n : nat),
  In s l ->
  exists i, assoc s (map (fun p => (snd p, f p)) (indexed n l)) = Some (f (i, s))
            /\ nth_error l (i - n) = Some s /\ (n <= i)%nat
            /\ (forall j, (n <= j < i)%nat -> nth_error l (j - n) <> Some s).
Proof.
  induction l as [|a l IH]; intros n Hin; [destruct Hin|].
  cbn [indexed map assoc snd]. destruct (String.eqb s a) eqn:E.
  - apply String.eqb_eq in E. subst a. exists n.
    rewrite Nat.sub_diag. repeat split; [lia | intros j Hj; lia].
  - assert (Hin' : In s l).
    { destruct Hin as [->|H]; [|exact H]. rewrite String.eqb_refl in E.
      discriminate. }
    destruct (IH (S n) Hin') as (i & Ha & Hn & Hle & Hfirst).
    exists i. split; [exact Ha|]. split; [|split; [lia|]].
    + replace (i - n)%nat with (S (i - S n)) by lia. exact Hn.
    + intros j Hj. destruct (Nat.eq_dec j n) as [->|Hne].
      * rewrite Nat.sub_diag. cbn. intros [= ->].
        rewrite String.eqb_refl in E. discriminate.
      * replace (j - n)%nat with (S (j - S n)) by lia. apply Hfirst. lia.
Qed.

(** Every symbol paired with itself is given 1, and two different symbols
    the rounded capped score of their metrics. *)
Lemma buildMatrix_entries (pd : list (string * Metrics)) (s1 s2 : string) :
  In s1 (map fst pd) -> In s2 (map fst pd) ->
  entry (buildMatrix pd) s1 s2
  = Some (if String.eqb s1 s2 then 1.0%float
          else pairCorrelation (dataOf pd s1) (dataOf pd s2)).
Proof.
  intros H1 H2.
  pose (cell := fun (is1 js2 : nat * string) =>
                  if Nat.eqb (fst is1) (fst js2) then 1.0%float
                  else pairCorrelation (dataOf pd (snd is1)) (dataOf pd (snd js2))).
  pose (row := fun is1 : nat * string =>
                 map (fun js2 => (snd js2, cell is1 js2)) (indexed 0 (map fst pd))).
  change (buildMatrix pd)
    with (map (fun is1 => (snd is1, row is1)) (indexed 0 (map fst pd))).
  unfold entry.
  destruct (assoc_indexed row s1 (map fst pd) 0 H1) as (i & Hr & Hi & _ & Hfi).
  rewrite Hr. unfold row.
  destruct (assoc_indexed (cell (i, s1)) s2 (map fst pd) 0 H2)
    as (j & Hc & Hj & _ & Hfj).
  rewrite Hc. unfold cell.
  cbn [fst snd]. f_equal. rewrite Nat.sub_0_r in Hi, Hj.
  destruct (String.eqb s1 s2) eqn:E.
  - apply String.eqb_eq in E. subst s2.
    destruct (Nat.lt_trichotomy i j) as [Hlt|[->|Hgt]].
    + exfalso. apply (Hfj i); [lia|]. replace (i - 0)%nat with i by lia. exact Hi.
    + rewrite Nat.eqb_refl. reflexivity.
    + exfalso. apply (Hfi j); [lia|]. replace (j - 0)%nat with j by lia. exact Hj.
  - destruct (Nat.eqb i j) eqn:Eij; [|reflexivity].
    apply Nat.eqb_eq in Eij. subst j. rewrite Hi in Hj. injection Hj as ->.
    rewrite String.eqb_refl in E. discriminate.
Qed.

(** *** The rows *)

Lemma others_count (s : string) (l : list string) :
  NoDup l -> In s l ->
  length (List.filter (fun s2 => negb (String.eqb s s2)) l) = (length l - 1)%nat.
Proof.
  induction 1 as [|a l Ha Hnd IH]; intros Hin; [destruct Hin|].
  rewrite list_elem_of_In in Ha.
  cbn [List.filter]. destruct (String.eqb s a) eqn:E; cbn [negb length].
  - apply String.eqb_eq in E. subst a.
    replace (S (length l) - 1)%nat with (length l) by lia.
    clear IH Hin. induction l as [|b l IHl]; [reflexivity|].
    cbn [List.filter]. destruct (String.eqb s b) eqn:Eb.
    + apply String.eqb_eq in Eb. subst b. exfalso. apply Ha. left. reflexivity.
    + cbn [negb length]. f_equal. apply IHl.
      * intros H. apply Ha. right. exact H.
      * apply NoDup_cons in Hnd as [_ Hnd]. exact Hnd.
  - destruct Hin as [->|Hin]; [rewrite String.eqb_refl in E; discriminate|].
    rewrite (IH Hin). destruct l; [destruct Hin | cbn; lia].
Qed.

Lemma flat_map_filter_length {A B : Type} (p : A -> bool) (f : A -> B) (l : list A) :
  length (flat_map (fun a => if p a then [f a] else []) l)
  = length (List.filter p l).
Proof.
  induction l as [|a l IH]; [reflexivity|].
  cbn [flat_map List.filter]. destruct (p a); cbn; rewrite IH; reflexivity.
Qed.

Lemma flat_map_const_length {A B : Type} (f : A -> list B) (n : nat) (l : list A) :
  (forall a, In a l -> length (f a) = n) ->
  length (flat_map f l) = (length l * n)%nat.
Proof.
  induction l as [|a l IH]; intros H; [reflexivity|].
  cbn [flat_map length]. rewrite length_app, H by (left; reflexivity).
  rewrite IH by (intros b Hb; apply H; right; exact Hb). lia.
Qed.

(** The rows leave out every self-pair: k symbols give k * (k - 1) rows. *)
Lemma toCorrelationRows_count (cd : CorrelationData) :
  NoDup (symbols cd) ->
  length (toCorrelationRows (Some cd))
  = (length (symbols cd) * (length (symbols cd) - 1))%nat
  /\ Forall (fun row => symbol_1 row <> symbol_2 row) (toCorrelationRows (Some cd)).
Proof.
  intros Hnd. split.
  - unfold toCorrelationRows. apply flat_map_const_length.
    intros s1 H1. rewrite flat_map_filter_length.
    apply others_count; assumption.
  - unfold toCorrelationRows. apply List.Forall_forall. intros row Hrow.
    apply in_flat_map in Hrow as (s1 & _ & Hrow).
    apply in_flat_map in Hrow as (s2 & _ & Hrow).
    destruct (String.eqb s1 s2) eqn:E; cbn [negb] in Hrow; [destruct Hrow|].
    destruct Hrow as [<-|[]]. cbn. intros ->. rewrite String.eqb_refl in E.
    discriminate.
Qed.

(** What every correlation result has, whatever the pages held: distinct
    symbols, 1 on the diagonal, the rounded capped score elsewhere, and
    k * (k - 1) rows without a self-pair. *)
Theorem correlation_structure (net : string -> Outcome JsValue)
    (currentDate : string) (syms : list string) (cd : CorrelationData) :
  fst (run (extractStockCorrelationData net currentDate syms)) = Ret (Some cd) ->
  NoDup (symbols cd)
  /\ (forall s, In s (symbols cd) -> entry (correlationMatrix cd) s s = Some 1.0%float)
  /\ (forall s1 s2, In s1 (symbols cd) -> In s2 (symbols cd) -> s1 <> s2 ->
        entry (correlationMatrix cd) s1 s2
        = Some (round3 (cap (rawScore (dataOf (priceData cd) s1)
                               (dataOf (priceData cd) s2)))))
  /\ length (toCorrelationRows (Some cd))
     = (length (symbols cd) * (length (symbols cd) - 1))%nat
  /\ Forall (fun row => symbol_1 row <> symbol_2 row) (toCorrelationRows (Some cd)).
Proof.
  unfold run, extractStockCorrelationData, tryCatch.
  destruct (length syms <? 2)%nat; [discriminate|].
  unfold Net.bind.
  destruct (fetchMetrics net syms [] []) as [[pd|e] l1] eqn:Ef; [|discriminate].
  destruct (0 <? length (buildMatrix pd))%nat; [|discriminate].
  cbn [fst ret]. intros [= <-]. cbn [symbols correlationMatrix priceData].
  assert (Hnd : NoDup (map fst pd)).
  { apply (fetchMetrics_NoDup net syms [] [] pd l1); [constructor | exact Ef]. }
  split; [exact Hnd|]. split; [|split].
  - intros s Hs. rewrite (buildMatrix_entries pd s s Hs Hs), String.eqb_refl.
    reflexivity.
  - intros s1 s2 H1 H2 Hne. rewrite (buildMatrix_entries pd s1 s2 H1 H2).
    apply String.eqb_neq in Hne. rewrite Hne. reflexivity.
  - apply (toCorrelationRows_count
             {| symbols := map fst pd; priceData := pd;
                correlationMatrix := buildMatrix pd; analysisDate := currentDate |}).
    exact Hnd.
Qed.

Import Samples.

(** C10.  Every correlation result has distinct symbols, 1 for each symbol
    paired with itself, the capped and rounded score for two different
    ones, and k * (k - 1) rows without a self-pair.  The cap keeps every
    score that is a number within -0.5 and 0.95, but it does not hold back
    NaN: two pages whose 52-week high and low coincide below the price give
    a matrix whose off-diagonal entries are NaN, outside every interval. *)
Theorem correlation_cap_misses_NaN :
  (forall net currentDate syms cd,
     fst (run (extractStockCorrelationData net currentDate syms)) = Ret (Some cd) ->
     NoDup (symbols cd)
     /\ (forall s, In s (symbols cd) ->
           entry (correlationMatrix cd) s s = Some 1.0%float)
     /\ (forall s1 s2, In s1 (symbols cd) -> In s2 (symbols cd) -> s1 <> s2 ->
           entry (correlationMatrix cd) s1 s2
           = Some (round3 (cap (rawScore (dataOf (priceData cd) s1)
                                  (dataOf (priceData cd) s2)))))
     /\ length (toCorrelationRows (Some cd))
        = (length (symbols cd) * (length (symbols cd) - 1))%nat
     /\ Forall (fun row => symbol_1 row <> symbol_2 row)
          (toCorrelationRows (Some cd)))
  /\ (forall x, JsNum.isNaN x = false ->
        JsNum.isNaN (cap x) = false
        /\ JsNum.le (-0.5)%float (cap x) = true
        /\ JsNum.le (cap x) 0.95%float = true)
  /\ exists cd x,
       fst (run (extractStockCorrelationData flatRanges today ["AAA"; "BBB"]))
       = Ret (Some cd)
       /\ entry (correlationMatrix cd) "AAA" "BBB" = Some x
       /\ JsNum.isNaN x = true
       /\ JsNum.le (-0.5)%float x = false
       /\ JsNum.le x 0.95%float = false
       /\ map correlation (toCorrelationRows (Some cd)) = [Some x; Some x].
Proof.
  split; [apply correlation_structure|].
  split; [apply CapSpec.cap_in_range|].
  eexists. eexists. split; [vm_compute; reflexivity|].
  split; [vm_compute; reflexivity|].
  repeat split; vm_compute; reflexivity.
Qed.

End CorrelationSpec.

(** ** Values read from elements *)

Module ElementSpec.
Import Js Text Regex Decode Profile Summary SummarySpec.

Lemma parseFloatChars_not_numeric (c : ascii) (s : list ascii) :
  numericStart c = false -> parseFloatChars (c :: s) = JsNum.NaN.
Proof.
  unfold numericStart.
  destruct (isWhite c) eqn:Hw; [discriminate|].
  destruct (Ascii.eqb c "-"%char) eqn:Hm; [discriminate|].
  destruct (Ascii.eqb c "+"%char) eqn:Hp; [discriminate|].
  destruct (Ascii.eqb c "I"%char) eqn:Hi; [discriminate|].
  destruct (isDigit c) eqn:Hd; [discriminate|].
  destruct (Ascii.eqb c "."%char) eqn:Hdot; [discriminate|].
  intros _. unfold parseFloatChars. cbn [span]. rewrite Hw. cbn [snd readSign].
  rewrite Hm, Hp.
  change (list_ascii_of_string "Infinity")
    with ("I"%char :: list_ascii_of_string "nfinity").
  cbn [startsWith]. rewrite Ascii.eqb_sym, Hi. cbn [andb].
  unfold scanDecimal. cbn [span]. rewrite Hd, Hdot. reflexivity.
Qed.

(** [parseFinancialValue] returns [null] for an empty text, [--] and [N/A],
    and for nothing else. *)
Lemma parseFinancialValue_null (el : FinStreamer) :
  parseFinancialValue (dataValue el) (text el) = None
  <-> In (displayText el) blankTexts.
Proof.
  unfold parseFinancialValue, displayText, blankTexts.
  destruct (dataValue el) as [v|]; cbn [In].
  - destruct (String.eqb v "") eqn:Ev.
    + apply String.eqb_eq in Ev. subst v. cbn [andb].
      destruct (String.eqb (text el) "") eqn:Et.
      * apply String.eqb_eq in Et. rewrite Et. tauto.
      * destruct (String.eqb (text el) "--") eqn:E1;
          [apply String.eqb_eq in E1; rewrite E1; cbn; tauto|].
        destruct (String.eqb (text el) "N/A") eqn:E2;
          [apply String.eqb_eq in E2; rewrite E2; cbn; tauto|].
        cbn [orb]. apply String.eqb_neq in Et, E1, E2.
        split; [|intros [H|[H|[H|[]]]]; congruence].
        repeat match goal with |- context [if ?b then _ else _] => destruct b end;
          discriminate.
    + cbn [andb].
      destruct (String.eqb v "--") eqn:E1;
        [apply String.eqb_eq in E1; rewrite E1; cbn; tauto|].
      destruct (String.eqb v "N/A") eqn:E2;
        [apply String.eqb_eq in E2; rewrite E2; cbn; tauto|].
      cbn [orb]. apply String.eqb_neq in Ev, E1, E2.
      split; [|intros [H|[H|[H|[]]]]; congruence].
      repeat match goal with |- context [if ?b then _ else _] => destruct b end;
        discriminate.
  - rewrite String.eqb_refl. cbn [andb].
    destruct (String.eqb (text el) "") eqn:Et.
    + apply String.eqb_eq in Et. rewrite Et. tauto.
    + destruct (String.eqb (text el) "--") eqn:E1;
        [apply String.eqb_eq in E1; rewrite E1; cbn; tauto|].
      destruct (String.eqb (text el) "N/A") eqn:E2;
        [apply String.eqb_eq in E2; rewrite E2; cbn; tauto|].
      cbn [orb]. apply String.eqb_neq in Et, E1, E2.
      split; [|intros [H|[H|[H|[]]]]; congruence].
      repeat match goal with |- context [if ?b then _ else _] => destruct b end;
        discriminate.
Qed.

(** Otherwise it returns the number read at the head of the text, commas
    removed, scaled by the first of T, B, M, K that the text contains. *)
Lemma parseFinancialValue_shown (el : FinStreamer) :
  ~ In (displayText el) blankTexts ->
  parseFinancialValue (dataValue el) (text el)
  = let cleanStr := removeCommas (list_ascii_of_string (displayText el)) in
    Some (if includes "T"%char cleanStr
          then PrimFloat.mul (parseFloatChars cleanStr) 1e12%float
          else if includes "B"%char cleanStr
          then PrimFloat.mul (parseFloatChars cleanStr) 1e9%float
          else if includes "M"%char cleanStr
          then PrimFloat.mul (parseFloatChars cleanStr) 1e6%float
          else if includes "K"%char cleanStr
          then PrimFloat.mul (parseFloatChars cleanStr) 1e3%float
          else parseFloatChars cleanStr).
Proof.
  unfold blankTexts. cbn [In]. intros H.
  assert (H0 : String.eqb (displayText el) "" = false)
    by (apply String.eqb_neq; intros E; apply H; auto).
  assert (H1 : String.eqb (displayText el) "--" = false)
    by (apply String.eqb_neq; intros E; apply H; auto).
  assert (H2 : String.eqb (displayText el) "N/A" = false)
    by (apply String.eqb_neq; intros E; apply H; auto).
  clear H. unfold parseFinancialValue. unfold displayText in *.
  destruct (dataValue el) as [v|].
  - destruct (String.eqb v "") eqn:Ev; cbn [andb].
    + rewrite H0, H1, H2. cbn [orb].
      repeat match goal with |- context [if ?b then _ else _] => destruct b end;
        reflexivity.
    + rewrite H1, H2. cbn [orb].
      repeat match goal with |- context [if ?b then _ else _] => destruct b end;
        reflexivity.
  - rewrite String.eqb_refl, H0, H1, H2. cbn [andb orb].
    repeat match goal with |- context [if ?b then _ else _] => destruct b end;
      reflexivity.
Qed.

Section Rows.
Variable showValue : JsValue -> string.

(** X1.  An element of a mapped field stores nothing when its value (or, for want
    of one, its text) is empty, [--] or [N/A], and a Typed Value for every
    other text.  A text that begins with a code unit no number begins with
    is stored with raw NaN, which [toStockSummaryRow] hands on as it is. *)
Theorem element_value (sd : gmap string JsValue) (el : FinStreamer)
    (f key : string) :
  dataField el = Some f -> fieldMapping f = Some key ->
  (In (displayText el) blankTexts -> domStep sd el = sd)
  /\ (~ In (displayText el) blankTexts ->
      exists v, domStep sd el = <[key := typed v (displayText el)]> sd)
  /\ (forall c s,
        displayText el = String c s ->
        numericStart c = false -> c <> ","%char -> displayText el <> "N/A" ->
        domStep sd el = <[key := typed JsNum.NaN (displayText el)]> sd
        /\ getValue showValue (typed JsNum.NaN (displayText el))
           = Ret (JNum JsNum.NaN)).
Proof.
  intros Hf Hkey. unfold domStep. rewrite Hf, Hkey.
  split; [|split].
  - intros Hin. apply parseFinancialValue_null in Hin. rewrite Hin. reflexivity.
  - intros Hnot. rewrite (parseFinancialValue_shown el Hnot). cbv zeta.
    eexists. reflexivity.
  - intros c s Eshown Hc Hcomma Hna.
    assert (Hnot : ~ In (displayText el) blankTexts).
    { unfold blankTexts. cbn [In]. intros [H|[H|[H|[]]]].
      - rewrite Eshown in H. discriminate.
      - rewrite Eshown in H. injection H as <- _. discriminate.
      - apply Hna. symmetry. exact H. }
    rewrite (parseFinancialValue_shown el Hnot). cbv zeta.
    assert (Eclean : removeCommas (list_ascii_of_string (displayText el))
                     = c :: removeCommas (list_ascii_of_string s)).
    { rewrite Eshown. cbn [list_ascii_of_string]. unfold removeCommas.
      cbn [List.filter].
      replace (Ascii.eqb c ","%char) with false
        by (symmetry; apply Ascii.eqb_neq; exact Hcomma).
      reflexivity. }
    rewrite Eclean, (parseFloatChars_not_numeric c _ Hc).
    split; [|reflexivity].
    repeat match goal with |- context [if ?b then _ else _] => destruct b end;
      reflexivity.
Qed.

End Rows.

Import Samples Cases.

Lemma element_value_witness :
  domStep ∅ wordElement = <["marketCap" := typed JsNum.NaN "abc"]> ∅
  /\ getValue showValue (typed JsNum.NaN "abc") = Ret (JNum JsNum.NaN).
Proof.
  destruct (element_value showValue ∅ wordElement "marketCap" "marketCap"
              eq_refl eq_refl) as (_ & _ & H).
  apply (H "a"%char "bc"); [reflexivity | reflexivity | discriminate | discriminate].
Defined.

End ElementSpec.

(** ** Precedence of the sources of a snapshot *)

Module SnapshotSpec.
Import Js Text Regex Decode Profile Summary SummarySpec.

(** Whatever the two HTML scans store is a Typed Value. *)
Lemma htmlSnapshot_typed (html : list ascii) (els : list FinStreamer) :
  forall k x, htmlSnapshot html els !! k = Some x -> exists v fmt, x = typed v fmt.
Proof.
  unfold htmlSnapshot.
  assert (H : forall (l : list (string * regex)) (sd : gmap string JsValue),
             (forall k x, sd !! k = Some x -> exists v fmt, x = typed v fmt) ->
             forall k x, fold_left (additionalStep html) l sd !! k = Some x ->
                         exists v fmt, x = typed v fmt).
  { induction l as [|fp l IH]; intros sd Hsd k x; cbn [fold_left]; [apply Hsd|].
    apply IH. clear k x. intros k x. unfold additionalStep.
    destruct (jsMatch (snd fp) html) as [[|m1 [|? ?]]|]; try apply Hsd.
    destruct m1; [apply Hsd|].
    destruct (JsNum.isNaN _); [apply Hsd|].
    destruct (decide (fst fp = k)) as [->|Hne].
    - rewrite lookup_insert_eq. intros [= <-]. eauto.
    - rewrite lookup_insert_ne by exact Hne. apply Hsd. }
  apply H. apply domScan_typed.
Qed.

Section Environment.
Variable JSON_parse : list ascii -> Outcome JsValue.
Variable coerce : JsValue -> JsNum.number.

(** A key that holds a truthy value is left alone by the JSON scan. *)
Lemma jsonStep_keeps (html : list ascii) (sd : gmap string JsValue)
    (fp : string * regex) (k : string) (x : JsValue) :
  sd !! k = Some x -> truthy x = true ->
  jsonStep JSON_parse html sd fp !! k = Some x.
Proof.
  intros Hk Hx. destruct (decide (fst fp = k)) as [E|Hne].
  - unfold jsonStep, member. rewrite E, Hk, Hx. exact Hk.
  - rewrite jsonStep_other by exact Hne. exact Hk.
Qed.

Lemma jsonScan_keeps (html : list ascii) (l : list (string * regex)) :
  forall (sd : gmap string JsValue) (k : string) (x : JsValue),
  sd !! k = Some x -> truthy x = true ->
  fold_left (jsonStep JSON_parse html) l sd !! k = Some x.
Proof.
  induction l as [|fp l IH]; intros sd k x Hk Hx; cbn [fold_left]; [exact Hk|].
  apply IH; [|exact Hx]. apply jsonStep_keeps; assumption.
Qed.

(** A key untouched by the HTML scans and unknown to the JSON scan stays
    empty. *)
Lemma jsonScan_other (html : list ascii) (sd : gmap string JsValue) (k : string) :
  ~ In k (map fst jsonFieldPatterns) ->
  fold_left (jsonStep JSON_parse html) jsonFieldPatterns sd !! k = sd !! k.
Proof.
  intros Hk. apply (fold_other _ fst k).
  - intros sd' a. apply jsonStep_other.
  - apply List.Forall_forall. intros a Ha E. apply Hk. rewrite <- E.
    apply in_map. exact Ha.
Qed.


End Environment.

Import Samples.


End SnapshotSpec.

(** ** Requests of the economic indicators *)

Module EconomicSpec.
Import Js Net Profile Economic NetFacts WorkerSpec FallbackSpec.

Section Environment.
Variable net : string -> Outcome JsValue.
Variable coerce : JsValue -> JsNum.number.
Variable showValue : JsValue -> string.
Variable apiKey currentDate : string.

Local Abbreviation worker' := (worker net coerce showValue apiKey currentDate).
Local Abbreviation written' := (written net coerce showValue apiKey currentDate).
Local Abbreviation store' := (store net coerce showValue apiKey currentDate).
Local Abbreviation requests' := (requests net coerce showValue apiKey currentDate).
Local Abbreviation throws' := (attemptThrows net coerce showValue apiKey).

Lemma worker_run (entry : string * string) (l : list string) :
  worker' entry l = (Ret (written' entry), l ++ requests' entry).
Proof.
  destruct (worker_written net coerce showValue apiKey currentDate entry l)
    as [l' E].
  rewrite E. f_equal.
  pose proof (parametric_worker net coerce showValue apiKey currentDate entry l)
    as Hp.
  rewrite E in Hp. injection Hp as _ ->. reflexivity.
Qed.

Lemma runBatch_log (batch : list (string * string)) :
  forall results l,
  runBatch net coerce showValue apiKey currentDate batch results l
  = (Ret (fold_left store' batch results), l ++ concat (map requests' batch)).
Proof.
  induction batch as [|entry batch IH]; intros results l; cbn [runBatch map concat].
  - rewrite app_nil_r. reflexivity.
  - unfold Net.bind. rewrite worker_run.
    change (match written' entry with
            | Some ind => <[fst entry := ind]> results
            | None => results
            end) with (store' results entry).
    rewrite IH. cbn [fold_left]. rewrite <- app_assoc. reflexivity.
Qed.

Lemma runBatches_log (bs : list (list (string * string) * bool)) :
  forall results l,
  runBatches net coerce showValue apiKey currentDate bs results l
  = (Ret (fold_left store' (concat (map fst bs)) results),
     l ++ concat (map requests' (concat (map fst bs)))).
Proof.
  induction bs as [|[batch pause] bs IH]; intros results l;
    cbn [runBatches map concat fst].
  - rewrite app_nil_r. reflexivity.
  - unfold Net.bind. rewrite runBatch_log, IH.
    rewrite fold_left_app, map_app, concat_app, <- app_assoc. reflexivity.
Qed.

(** The requests of one worker: the FRED series, and after it the quote
    page of the substitute exactly when the key is a treasury one and the
    FRED attempt threw. *)
Lemma requests_spec (key sid : string) :
  requests' (key, sid)
  = fredUrl apiKey sid
    :: (if isTreasury key && throws' sid then [quoteUrl (symbolMap key)] else []).
Proof.
  unfold requests, attemptThrows.
  destruct (Js.bind (net (fredUrl apiKey sid)) (primaryValue coerce showValue sid))
    as [w|e] eqn:Ha.
  - rewrite (worker_primary_returns net coerce showValue apiKey currentDate
               key sid w Ha).
    rewrite andb_false_r. reflexivity.
  - destruct (isTreasury key) eqn:Ht.
    + destruct (worker_primary_throws net coerce showValue apiKey currentDate
                  key sid e Ht Ha) as (w & -> & _).
      reflexivity.
    + unfold worker, tryCatch, primary, Net.bind, get, lift. cbn [fst snd].
      destruct (net (fredUrl apiKey sid)) as [data|e0]; cbn [Js.bind] in Ha.
      * rewrite Ha, Ht. reflexivity.
      * rewrite Ht. reflexivity.
Qed.

Lemma requests_count (entries : list (string * string)) :
  (length entries <= length (concat (map requests' entries))
   <= length entries
      + length (List.filter (fun e => isTreasury (fst e)) entries))%nat.
Proof.
  induction entries as [|[key sid] entries IH]; [cbn; lia|].
  cbn [map concat List.filter fst]. rewrite length_app, requests_spec.
  destruct (isTreasury key); cbn [andb length].
  - destruct (throws' sid); cbn [length]; lia.
  - cbn [length]. lia.
Qed.

Lemma batches_concat (entries : list (string * string)) :
  concat (map fst (batches entries)) = entries.
Proof.
  unfold batches.
  rewrite (ScheduleSpec.batchLoop_concat _ _ _ (ScheduleSpec.batches_fuel entries)).
  reflexivity.
Qed.

Lemma extractEconomicData_run :
  run (extractEconomicData net coerce showValue apiKey currentDate)
  = (Ret (if (0 <? size (fold_left store' indicators ∅))%nat
          then Some (fold_left store' indicators ∅) else None),
     concat (map requests' indicators)).
Proof.
  unfold run, extractEconomicData, extractEconomicDataOf, tryCatch, Net.bind.
  rewrite runBatches_log, batches_concat. cbn [app].
  destruct (0 <? size (fold_left store' indicators ∅))%nat; reflexivity.
Qed.


(** X4.  [fetchEconomicIndicators] never throws and never returns an empty list:
    when the extraction gave nothing it returns the one row of the
    ten-year treasury rate whose value is the text N/A. *)
Theorem economic_rows_never_empty :
  exists rows log,
    run (fetchEconomicIndicators net coerce showValue apiKey currentDate)
    = (Ret rows, log)
    /\ rows <> []
    /\ (fst (run (extractEconomicData net coerce showValue apiKey currentDate))
        = Ret None ->
        rows = [{| indicator := "treasury10y";
                   indicator_name := "10-Year Treasury Rate";
                   row_value := JStr "N/A";
                   unit := "Percent";
                   row_date := JStr currentDate;
                   series_id := "N/A";
                   row_source := JStr "FRED";
                   report_date := currentDate |}]).
Proof.
  pose proof extractEconomicData_run as Erun.
  unfold run in *. unfold fetchEconomicIndicators, tryCatch, Net.bind.
  rewrite Erun.
  destruct (0 <? size (fold_left store' indicators ∅))%nat eqn:Esize.
  - eexists. eexists. split; [reflexivity|]. split; [|discriminate].
    unfold toEconomicRows. intros E. apply map_eq_nil in E.
    apply Nat.ltb_lt in Esize.
    rewrite <- (length_map_to_list (fold_left store' indicators ∅)) in Esize.
    rewrite E in Esize. cbn in Esize. lia.
  - eexists. eexists. split; [reflexivity|].
    unfold toEconomicRows, fallbackData. rewrite map_to_list_singleton.
    split; [discriminate|]. intros _. reflexivity.
Qed.

End Environment.

End EconomicSpec.

(** ** Requests of the correlation analysis *)

Module CorrelationFetchSpec.
Import Js Net Profile Peers Correlation NetFacts CorrelationSpec.

Section Network.
Variable net : string -> Outcome JsValue.
Variable currentDate : string.

Lemma setKey_In {A : Type} (k : string) (v : A) (l : list (string * A)) (s : string) :
  In s (map fst (setKey k v l)) <-> In s (map fst l) \/ s = k.
Proof.
  rewrite setKey_keys. destruct (existsb (String.eqb k) (map fst l)) eqn:E.
  - split; [auto|]. intros [H| ->]; [exact H|].
    apply existsb_exists in E as (x & Hx & Ex). apply String.eqb_eq in Ex.
    subst x. exact Hx.
  - rewrite in_app_iff. cbn [In]. split.
    + intros [H|[<-|[]]]; auto.
    + intros [H| ->]; auto.
Qed.

(** The loop over the symbols asks for every quote page once, in order,
    and keeps the symbols whose page was served as a text. *)
Lemma fetchMetrics_run (syms : list string) :
  forall acc l,
  exists pd,
    fetchMetrics net syms acc l = (Ret pd, l ++ map quoteUrl syms)
    /\ (forall s, In s (map fst pd)
                  <-> In s (map fst acc) \/ (In s syms /\ fetched net s = true)).
Proof.
  induction syms as [|sym syms IH]; intros acc l.
  - exists acc. cbn [fetchMetrics map]. rewrite app_nil_r.
    split; [reflexivity|]. intros s. cbn [In]. tauto.
  - cbn [fetchMetrics map]. unfold Net.bind at 1, tryCatch, Net.bind, get.
    destruct (net (quoteUrl sym)) as [data|e] eqn:Enet.
    + destruct data as [| | | |doc| |];
        try (cbn [asString throw ret];
             destruct (IH acc (l ++ [quoteUrl sym])) as (pd & E & Hpd);
             exists pd; rewrite E, <- app_assoc; split; [reflexivity|];
             intros s; rewrite Hpd; cbn [In]; split;
             [intros [H|[H1 H2]]; auto
             |intros [H|[[<-|H1] H2]]; auto;
              unfold fetched in H2; rewrite Enet in H2; discriminate]).
      cbn [asString ret].
      destruct (IH (setKey sym (pageMetrics (list_ascii_of_string doc)) acc)
                  (l ++ [quoteUrl sym])) as (pd & E & Hpd).
      exists pd. rewrite E, <- app_assoc. split; [reflexivity|].
      intros s. rewrite Hpd, setKey_In. cbn [In]. split.
      * intros [[H| ->]|[H1 H2]]; auto.
        right. split; [auto|]. unfold fetched. rewrite Enet. reflexivity.
      * intros [H|[[<-|H1] H2]]; auto.
    + cbn [ret].
      destruct (IH acc (l ++ [quoteUrl sym])) as (pd & E & Hpd).
      exists pd. rewrite E, <- app_assoc. split; [reflexivity|].
      intros s. rewrite Hpd. cbn [In]. split.
      * intros [H|[H1 H2]]; auto.
      * intros [H|[[<-|H1] H2]]; auto.
        unfold fetched in H2. rewrite Enet in H2. discriminate.
Qed.

Lemma buildMatrix_length (pd : list (string * Metrics)) :
  length (buildMatrix pd) = length pd.
Proof.
  unfold buildMatrix. rewrite length_map.
  assert (H : forall (A : Type) (l : list A) n, length (indexed n l) = length l).
  { induction l as [|a l IH]; intros n; cbn; [reflexivity | rewrite IH; reflexivity]. }
  rewrite H, length_map. reflexivity.
Qed.

(** The extraction in terms of the pages that were served. *)
Lemma extraction_of_pages (syms : list string) :
  (2 <= length syms)%nat ->
  exists pd,
    (forall s, In s (map fst pd) <-> In s syms /\ fetched net s = true)
    /\ run (extractStockCorrelationData net currentDate syms)
       = (Ret match pd with
              | [] => None
              | _ :: _ =>
                  Some {| symbols := map fst pd;
                          priceData := pd;
                          correlationMatrix := buildMatrix pd;
                          analysisDate := currentDate |}
              end,
          map quoteUrl syms).
Proof.
  intros Hlen. unfold run, extractStockCorrelationData, tryCatch.
  replace (length syms <? 2)%nat with false by (symmetry; apply Nat.ltb_ge; lia).
  unfold Net.bind.
  destruct (fetchMetrics_run syms [] []) as (pd & -> & Hpd). cbn [app].
  rewrite buildMatrix_length. exists pd. split.
  - intros s. rewrite Hpd. cbn [map In]. tauto.
  - destruct pd; reflexivity.
Qed.



End Network.

Import Samples Cases.



End CorrelationFetchSpec.

(** ** Decoding after a prefix or a sign *)

Module PrefixSpec.
Import Js Text Regex Decode TextFacts RegexFacts DecodeSpec.

(** The magnitude pattern cannot match at a code unit that is neither a
    digit nor a point, so the search moves past it. *)
Lemma magnitude_skips (c : ascii) (s : list ascii) :
  digitOrDot c = false ->
  search magnitudePattern (c :: s) = search magnitudePattern s.
Proof.
  intros Hc. cbn [search].
  replace (matchHere magnitudePattern (c :: s)) with (@None (list (list ascii)));
    [reflexivity|].
  unfold magnitudePattern. rewrite matchHere_group_open.
  cbn [matchHere candidates]. unfold runLength. cbn [span]. rewrite Hc.
  reflexivity.
Qed.

Lemma magnitude_skips_prefix (pre s : list ascii) :
  Forall (fun a => digitOrDot a = false) pre ->
  decodeMagnitude (pre ++ s) = decodeMagnitude s.
Proof.
  unfold decodeMagnitude, jsMatch.
  induction 1 as [|c pre Hc _ IH]; [reflexivity|].
  cbn [app]. rewrite (magnitude_skips c _ Hc). exact IH.
Qed.

(** A text that holds a digit or a point is none of the tokens. *)
Lemma holds_numeral_not_token (pre num rest : list ascii) :
  numeral num ->
  let s := string_of_list_ascii (pre ++ num ++ rest) in
  String.eqb s "" = false /\ String.eqb s "--" = false
  /\ String.eqb s "N/A" = false.
Proof.
  intros Hnum s.
  destruct (numeral_head num Hnum) as (a & tl & -> & Ha).
  assert (Hin : In a (pre ++ (a :: tl) ++ rest)).
  { apply in_or_app. right. left. reflexivity. }
  assert (H : forall tok : string,
             Forall (fun x => digitOrDot x = false) (list_ascii_of_string tok) ->
             String.eqb s tok = false).
  { intros tok Htok. apply String.eqb_neq. intros E.
    assert (E' : pre ++ (a :: tl) ++ rest = list_ascii_of_string tok).
    { rewrite <- E. unfold s. rewrite list_ascii_of_string_of_list_ascii.
      reflexivity. }
    rewrite E' in Hin. rewrite List.Forall_forall in Htok.
    rewrite (Htok a Hin) in Ha. discriminate. }
  repeat split; apply H; repeat constructor.
Qed.

Lemma parseFloatChars_minus (num rest : list ascii) :
  numeral num ->
  parseFloatChars ("-"%char :: num ++ rest)
  = PrimFloat.opp (parseFloatChars (num ++ rest)).
Proof.
  intros Hnum. destruct (numeral_head num Hnum) as (a & tl & -> & Ha).
  destruct (digitOrDot_plain a Ha) as (Hw & Hset & _).
  assert (Hm : Ascii.eqb a "-"%char = false) by (by_chars a).
  assert (Hp : Ascii.eqb a "+"%char = false) by (by_chars a).
  assert (Hi : Ascii.eqb "I"%char a = false) by (by_chars a).
  unfold parseFloatChars. cbn [app span]. rewrite Hw.
  change (isWhite "-"%char) with false. cbn [snd readSign].
  change (Ascii.eqb "-"%char "-"%char) with true. cbv iota.
  rewrite Hm, Hp.
  change (list_ascii_of_string "Infinity")
    with ("I"%char :: list_ascii_of_string "nfinity").
  cbn [startsWith]. rewrite Hi. cbn [andb].
  unfold scanDecimal.
  destruct (span isDigit (a :: tl ++ rest)) as [ip r1].
  destruct (match r1 with
            | [] => ([], r1)
            | c :: r => if Ascii.eqb c "."%char then span isDigit r else ([], r1)
            end) as [fp r2].
  destruct (ip ++ fp); [reflexivity|].
  unfold JsNum.decimalToNumber. reflexivity.
Qed.

Section GetValue.
Variable showValue : JsValue -> string.

(** X7.  In a formatted text [parseRevenueValue] and [getValue] decode the first
    numeral and ignore whatever stands before it, a currency sign or a
    minus sign alike, so a negative amount comes out positive;
    [parseFinancialValue] reads the sign and returns the negative amount. *)
Theorem formatted_prefix_and_sign (num : list ascii) :
  numeral num ->
  (forall pre rest,
     Forall (fun a => digitOrDot a = false) pre ->
     parseRevenueValue (string_of_list_ascii (pre ++ num ++ rest))
     = decodeMagnitude (num ++ rest)
     /\ Summary.getValue showValue
          (JObj [("fmt", JStr (string_of_list_ascii (pre ++ num ++ rest)))])
        = Summary.getValue showValue
            (JObj [("fmt", JStr (string_of_list_ascii (num ++ rest)))]))
  /\ (forall c k text,
        In (c, k) unitSuffixes ->
        let s := string_of_list_ascii ("-"%char :: num ++ [c]) in
        parseRevenueValue s = Some (PrimFloat.mul (parseFloatChars num) k)
        /\ Summary.getValue showValue (JObj [("fmt", JStr s)])
           = Ret (JNum (PrimFloat.mul (parseFloatChars num) k))
        /\ parseFinancialValue (Some s) text
           = Some (PrimFloat.mul (PrimFloat.opp (parseFloatChars num)) k)).
Proof.
  intros Hnum.
  assert (Hprefix :
    forall pre rest,
      Forall (fun a => digitOrDot a = false) pre ->
      parseRevenueValue (string_of_list_ascii (pre ++ num ++ rest))
      = decodeMagnitude (num ++ rest)
      /\ Summary.getValue showValue
           (JObj [("fmt", JStr (string_of_list_ascii (pre ++ num ++ rest)))])
         = Summary.getValue showValue
             (JObj [("fmt", JStr (string_of_list_ascii (num ++ rest)))])).
  { intros pre rest Hpre. split.
    - destruct (holds_numeral_not_token pre num rest Hnum) as (E1 & E2 & E3).
      unfold parseRevenueValue. rewrite E1, E2, E3. cbn [orb].
      rewrite list_ascii_of_string_of_list_ascii.
      apply magnitude_skips_prefix. exact Hpre.
    - rewrite !getValue_fmt_only, !list_ascii_of_string_of_list_ascii.
      rewrite (magnitude_skips_prefix pre _ Hpre). reflexivity. }
  split; [exact Hprefix|].
  intros c k text Hin s.
  destruct (unitSuffix_cases c k Hin) as (Hc & Hc' & Hk).
  assert (Hminus : Forall (fun a => digitOrDot a = false) ["-"%char])
    by (repeat constructor).
  destruct (Hprefix ["-"%char] [c] Hminus) as [R1 R2].
  assert (Ed : decodeMagnitude (num ++ [c])
               = Some (PrimFloat.mul (parseFloatChars num) k)).
  { rewrite (decodeMagnitude_suffix num c Hnum Hc).
    unfold scaleBySuffix. rewrite Hk. reflexivity. }
  split; [|split].
  - unfold s. change ("-"%char :: num ++ [c]) with (["-"%char] ++ num ++ [c]).
    rewrite R1. exact Ed.
  - unfold s. change ("-"%char :: num ++ [c]) with (["-"%char] ++ num ++ [c]).
    rewrite R2, getValue_fmt_only, list_ascii_of_string_of_list_ascii, Ed.
    reflexivity.
  - destruct (holds_numeral_not_token ["-"%char] num [c] Hnum) as (E1 & E2 & E3).
    cbn [app] in E1, E2, E3. fold s in E1, E2, E3.
    destruct Hnum as [Hne Hall].
    assert (Hcomma : Ascii.eqb c ","%char = false) by (by_chars c).
    destruct (removeCommas_numeral num c Hall Hcomma) as [Eclean _].
    assert (Eclean' : removeCommas (list_ascii_of_string s)
                      = "-"%char :: num ++ [c]).
    { unfold s. rewrite list_ascii_of_string_of_list_ascii.
      unfold removeCommas in *. cbn [List.filter].
      change (negb (Ascii.eqb "-"%char ","%char)) with true. cbv iota.
      rewrite Eclean. reflexivity. }
    assert (Einc : forall x, anyOf "TBMK" x = true ->
                     includes x ("-"%char :: num ++ [c]) = Ascii.eqb x c).
    { intros x Hx. unfold includes. cbn [existsb].
      replace (Ascii.eqb x "-"%char) with false by (by_chars x).
      cbn [orb]. apply (proj1 (includes_suffix x c num Hx Hall)). }
    assert (Epf : parseFloatChars ("-"%char :: num ++ [c])
                  = PrimFloat.opp (parseFloatChars num)).
    { rewrite (parseFloatChars_minus num [c] (conj Hne Hall)).
      rewrite (parseFloatChars_suffix num c (conj Hne Hall) Hc). reflexivity. }
    cbv beta iota zeta delta [parseFinancialValue].
    replace (String.eqb s "") with false. rewrite E2, E3. cbn [andb orb].
    rewrite Eclean', Epf.
    rewrite (Einc "T"%char eq_refl), (Einc "B"%char eq_refl),
      (Einc "M"%char eq_refl), (Einc "K"%char eq_refl).
    unfold unitSuffixes in Hin. cbn [In] in Hin.
    destruct Hin as [H|[H|[H|[H|[]]]]]; injection H as <- <-; reflexivity.
Qed.

End GetValue.

Import Samples.

Lemma formatted_prefix_and_sign_witness :
  parseRevenueValue "$5B" = decodeMagnitude (list_ascii_of_string "5B").
Proof.
  assert (H : numeral ["5"%char]).
  { split; [discriminate | repeat constructor]. }
  assert (Hpre : Forall (fun a => digitOrDot a = false) ["$"%char]).
  { repeat constructor. }
  exact (proj1 (proj1 (formatted_prefix_and_sign showValue ["5"%char] H)
                  ["$"%char] ["B"%char] Hpre)).
Defined.

End PrefixSpec.

(** ** Keys of an object *)

Module KeyFacts.

Lemma setKey_fresh {A : Type} (k : string) (v : A) (l : list (string * A)) :
  ~ In k (map fst l) -> Peers.setKey k v l = l ++ [(k, v)].
Proof.
  induction l as [|[k' v'] l IH]; intros Hk; [reflexivity|].
  cbn [Peers.setKey app]. cbn [map fst In] in Hk.
  destruct (String.eqb k k') eqn:E.
  - apply String.eqb_eq in E. subst k'. tauto.
  - rewrite IH by tauto. reflexivity.
Qed.

End KeyFacts.

(** ** The stock screener *)

Module ScreenerSpec.
Import Js Net Text Regex Profile Correlation Screener NetFacts.

Section Criteria.
Variable coerce : JsValue -> JsNum.number.

Local Abbreviation apply' := (applyScreeningCriteria coerce).


(** X9.  No key other than the ten criteria has any effect on the screen: a
    sector list, for one, filters nothing. *)
Theorem screen_ignores_other_keys (found : gmap string JsNum.number)
    (fields : list (string * JsValue)) (k : string) (v : JsValue) :
  ~ In k criteriaKeys ->
  apply' found (JObj ((k, v) :: fields)) = apply' found (JObj fields).
Proof.
  intros Hk.
  assert (H : forall k', In k' criteriaKeys ->
              finalCriterion (JObj ((k, v) :: fields)) k'
              = finalCriterion (JObj fields) k').
  { intros k' Hk'. unfold finalCriterion. cbn [assoc].
    replace (String.eqb k' k) with false; [reflexivity|].
    symmetry. apply String.eqb_neq. intros ->. exact (Hk Hk'). }
  unfold applyScreeningCriteria.
  rewrite !H by (unfold criteriaKeys; cbn [In]; tauto). reflexivity.
Qed.

End Criteria.

Section Environment.
Variable coerce : JsValue -> JsNum.number.
Variable net : string -> Outcome JsValue.
Variable currentDate : string.

Local Abbreviation apply' := (applyScreeningCriteria coerce).
Local Abbreviation screenOne' := (screenOne coerce net currentDate).
Local Abbreviation screenLoop' := (screenLoop coerce net currentDate).

(** [Math.min(70, x)] never exceeds 70. *)
Lemma maxStocks_bound (maxResults : JsValue) :
  JsNum.lt 70%float (maxStocksOf coerce maxResults) = false.
Proof.
  unfold maxStocksOf, JsNum.min.
  destruct (JsNum.isNaN 70%float || JsNum.isNaN _); [reflexivity|].
  destruct (PrimFloat.ltb 70%float _) eqn:E; [reflexivity|].
  change (JsNum.isNegZero 70%float) with false. cbv iota.
  destruct (PrimFloat.ltb _ 70%float); exact E.
Qed.

Lemma lt_70 (maxStocks : JsNum.number) :
  JsNum.lt 70%float maxStocks = false ->
  JsNum.lt (JsNum.ofZ (Z.of_nat 70)) maxStocks = false.
Proof.
  intros H. replace (JsNum.ofZ (Z.of_nat 70)) with 70%float; [exact H|].
  vm_compute. reflexivity.
Qed.

Lemma loopCount_bound (maxStocks : JsNum.number) :
  JsNum.lt 70%float maxStocks = false ->
  forall fuel i, (i <= 70)%nat -> (i + loopCount fuel i maxStocks <= 70)%nat.
Proof.
  intros Hmax. induction fuel as [|fuel IH]; intros i Hi; cbn [loopCount]; [lia|].
  destruct (JsNum.lt (JsNum.ofZ (Z.of_nat i)) maxStocks) eqn:E; [|lia].
  assert (i <> 70%nat) by (intros ->; rewrite (lt_70 _ Hmax) in E; discriminate).
  specialize (IH (S i)). lia.
Qed.

(** The loop stops at its test, not for want of fuel. *)
Lemma loopCount_exit (maxStocks : JsNum.number) :
  JsNum.lt 70%float maxStocks = false ->
  forall fuel i, (i <= 70)%nat -> (70 < i + fuel)%nat ->
  JsNum.lt (JsNum.ofZ (Z.of_nat (i + loopCount fuel i maxStocks))) maxStocks
  = false.
Proof.
  intros Hmax. induction fuel as [|fuel IH]; intros i Hi Hfuel; [lia|].
  cbn [loopCount].
  destruct (JsNum.lt (JsNum.ofZ (Z.of_nat i)) maxStocks) eqn:E.
  - assert (i <> 70%nat) by (intros ->; rewrite (lt_70 _ Hmax) in E; discriminate).
    replace (i + S (loopCount fuel (S i) maxStocks))%nat
      with (S i + loopCount fuel (S i) maxStocks)%nat by lia.
    apply IH; lia.
  - rewrite Nat.add_0_r. exact E.
Qed.

Lemma screenOne_run (criteria : JsValue) (sym : string) (l : list string) :
  exists pushed,
    screenOne' criteria sym l = (Ret pushed, l ++ [quoteUrl sym])
    /\ (forall stock, pushed = Some stock ->
          symbol stock = sym /\ apply' (metrics stock) criteria = true).
Proof.
  unfold screenOne, tryCatch, Net.bind, get.
  destruct (net (quoteUrl sym)) as [data|e].
  - destruct data as [| | | |doc| |];
      try (exists None; split; [reflexivity | discriminate]).
    cbn [asString ret].
    destruct (apply' (pageMetrics (list_ascii_of_string doc)) criteria) eqn:E.
    + eexists. split; [reflexivity|]. intros stock [= <-]. cbn. auto.
    + exists None. split; [reflexivity | discriminate].
  - exists None. split; [reflexivity | discriminate].
Qed.

Lemma skipn_nth {A : Type} (d : A) (l : list A) (i : nat) :
  (i < length l)%nat -> skipn i l = nth i l d :: skipn (S i) l.
Proof.
  revert i. induction l as [|a l IH]; intros i Hi; [cbn in Hi; lia|].
  destruct i as [|i]; [reflexivity|]. cbn [skipn nth].
  rewrite IH by (cbn in Hi; lia). reflexivity.
Qed.

Lemma screenLoop_run (maxStocks : JsNum.number) (criteria : JsValue) :
  JsNum.lt 70%float maxStocks = false ->
  forall fuel i results l,
  (i <= 70)%nat ->
  exists pushed,
    screenLoop' fuel i maxStocks criteria results l
    = (Ret (results ++ pushed),
       l ++ map quoteUrl (firstn (loopCount fuel i maxStocks)
                            (skipn i stockUniverse)))
    /\ (length pushed <= loopCount fuel i maxStocks)%nat
    /\ Forall (fun stock =>
                 In (symbol stock)
                   (firstn (loopCount fuel i maxStocks) (skipn i stockUniverse))
                 /\ apply' (metrics stock) criteria = true) pushed.
Proof.
  intros Hmax. induction fuel as [|fuel IH]; intros i results l Hi.
  - exists []. cbn [screenLoop loopCount firstn map length].
    rewrite !app_nil_r. repeat split; [lia | constructor].
  - cbn [screenLoop loopCount].
    destruct (JsNum.lt (JsNum.ofZ (Z.of_nat i)) maxStocks) eqn:E.
    + assert (Hlt : (i < 70)%nat).
      { assert (i <> 70%nat) by (intros ->; rewrite (lt_70 _ Hmax) in E; discriminate). lia. }
      unfold Net.bind.
      destruct (screenOne_run criteria (nth i stockUniverse "undefined") l)
        as (p & -> & Hp).
      destruct (IH (S i)
                  (results ++ match p with Some stock => [stock] | None => [] end)
                  (l ++ [quoteUrl (nth i stockUniverse "undefined")]))
        as (pushed & -> & Hlen & Hall); [lia|].
      rewrite (skipn_nth "undefined" stockUniverse i) by exact Hlt.
      cbn [firstn map].
      exists (match p with Some stock => [stock] | None => [] end ++ pushed).
      rewrite <- !app_assoc. cbn [app]. split; [reflexivity|]. split.
      * rewrite length_app. destruct p; cbn [length]; lia.
      * assert (Hrest : Forall (fun stock =>
                   In (symbol stock)
                     (nth i stockUniverse "undefined"
                      :: firstn (loopCount fuel (S i) maxStocks)
                           (skipn (S i) stockUniverse))
                   /\ apply' (metrics stock) criteria = true) pushed).
        { eapply List.Forall_impl; [|exact Hall].
          intros stock [H1 H2]. split; [right; exact H1 | exact H2]. }
        destruct p as [stock|]; [|exact Hrest].
        destruct (Hp stock eq_refl) as [Hs Ha].
        constructor; [|exact Hrest].
        split; [left; symmetry; exact Hs | exact Ha].
    + exists []. cbn [firstn map length]. rewrite !app_nil_r.
      repeat split; [lia | constructor].
Qed.

(** X10.  [extractStockScreenerData] never throws.  It asks for the quote pages
    of the first [n] symbols of its universe, in order, where [n] is fixed
    by [maxResults] alone (20 without one, never more than 70): the limit
    bounds the stocks examined, not the stocks returned.  Every stock it
    returns is one of those [n] and passes the criteria.  For the
    criteria [null] it returns [null] without a request. *)
Theorem screener_requests (criteria : JsValue) :
  run (extractStockScreenerData coerce net currentDate JNull) = (Ret None, [])
  /\ (forall maxResults,
        getProp (defaulted criteria) "maxResults" = Ret maxResults ->
        let n := stocksScreened (maxStocksOf coerce maxResults) in
        (n <= 70)%nat
        /\ JsNum.lt (JsNum.ofZ (Z.of_nat n)) (maxStocksOf coerce maxResults)
           = false
        /\ (truthy maxResults = false -> n = 20%nat)
        /\ exists r,
             run (extractStockScreenerData coerce net currentDate criteria)
             = (Ret r, map quoteUrl (firstn n stockUniverse))
             /\ (forall stocks,
                   r = Some stocks ->
                   stocks <> [] /\ (length stocks <= n)%nat
                   /\ Forall (fun stock =>
                                In (symbol stock) (firstn n stockUniverse)
                                /\ apply' (metrics stock) (defaulted criteria)
                                   = true)
                        stocks)).
Proof.
  split; [reflexivity|].
  intros maxResults Hmr n. pose proof (maxStocks_bound maxResults) as Hmax.
  split; [|split; [|split]].
  - pose proof (loopCount_bound _ Hmax 71 0). unfold n, stocksScreened. lia.
  - apply (loopCount_exit _ Hmax 71 0); lia.
  - intros Hfalsy. unfold n, stocksScreened, maxStocksOf, orElse.
    rewrite Hfalsy. vm_compute. reflexivity.
  - unfold run, extractStockScreenerData, tryCatch, Net.bind, lift.
    rewrite Hmr.
    destruct (screenLoop_run _ (defaulted criteria) Hmax 71 0 [] [])
      as (pushed & -> & Hlen & Hall); [lia|].
    cbn [app skipn]. fold (stocksScreened (maxStocksOf coerce maxResults)).
    fold n. fold (stocksScreened (maxStocksOf coerce maxResults)) in Hlen, Hall.
    fold n in Hlen, Hall. cbn [skipn] in Hall.
    destruct pushed as [|stock pushed].
    + exists None. split; [reflexivity | discriminate].
    + eexists. split; [reflexivity|]. intros stocks [= <-].
      split; [discriminate|]. split; [exact Hlen | exact Hall].
Qed.

End Environment.

Import Samples Cases.

Lemma screen_ignores_other_keys_witness :
  applyScreeningCriteria coerce ∅ sectorCriteria
  = applyScreeningCriteria coerce ∅ (JObj []).
Proof.
  assert (H : ~ In "sectors" criteriaKeys).
  { unfold criteriaKeys. cbn [In]. intros H.
    repeat (destruct H as [H|H]; [discriminate|]). exact H. }
  exact (screen_ignores_other_keys coerce ∅ [] "sectors"
           (JArr [JStr "Technology"]) H).
Defined.

End ScreenerSpec.

(** ** The market indices *)

Module IndicesSpec.
Import Js Net Text Regex Profile Correlation Indices NetFacts.

Section Network.
Variable net : string -> Outcome JsValue.
Variable currentDate : string.

Local Abbreviation present' :=
  (List.filter (fun e : string * string => quoted net (snd e))).
Local Abbreviation keyed' :=
  (map (fun kd : string * IndexData => (fst kd, symbol (snd kd)))).
Local Abbreviation named' :=
  (fun kd : string * IndexData =>
     name (snd kd) = getIndexName (fst kd)
     /\ (0 < size (metrics (snd kd)))%nat).

Lemma fetchIndex_run (entry : string * string) (l : Log) :
  exists stored,
    fetchIndex net currentDate entry l = (Ret stored, l ++ [quoteUrl (snd entry)])
    /\ match stored with
       | Some data =>
           quoted net (snd entry) = true /\ symbol data = snd entry
           /\ named' (fst entry, data)
       | None => quoted net (snd entry) = false
       end.
Proof.
  unfold fetchIndex, tryCatch, Net.bind, get, quoted.
  destruct (net (quoteUrl (snd entry))) as [data|e].
  - destruct data as [| | | |doc| |];
      try (exists None; split; reflexivity).
    cbn [asString ret].
    destruct (0 <? size (pageMetrics (list_ascii_of_string doc)))%nat eqn:E.
    + eexists. split; [reflexivity|]. cbn.
      apply Nat.ltb_lt in E. auto.
    + exists None. split; reflexivity.
  - exists None. split; reflexivity.
Qed.

Lemma fetchIndices_run (entries : list (string * string)) :
  NoDup (map fst entries) ->
  forall results l,
  (forall e, In e entries -> ~ In (fst e) (map fst results)) ->
  exists added,
    fetchIndices net currentDate entries results l
    = (Ret (results ++ added), l ++ map (fun e => quoteUrl (snd e)) entries)
    /\ keyed' added = present' entries
    /\ Forall named' added.
Proof.
  induction entries as [|entry entries IH]; intros Hnd results l Hfresh.
  - exists []. cbn [fetchIndices map List.filter]. rewrite !app_nil_r.
    repeat split. constructor.
  - cbn [fetchIndices map List.filter]. unfold Net.bind.
    cbn [map] in Hnd. apply NoDup_cons in Hnd as [Hhead Hnd].
    destruct (fetchIndex_run entry l) as (stored & -> & Hstored).
    destruct stored as [data|].
    + destruct Hstored as (-> & Hsym & Hname).
      rewrite KeyFacts.setKey_fresh by (apply Hfresh; left; reflexivity).
      destruct (IH Hnd (results ++ [(fst entry, data)])
                  (l ++ [quoteUrl (snd entry)])) as (added & -> & Hk & Hn).
      { intros e He. rewrite map_app, in_app_iff. cbn [map fst In].
        intros [H|[H|[]]].
        - exact (Hfresh e (or_intror He) H).
        - apply Hhead. rewrite H. apply list_elem_of_In, in_map, He. }
      exists ((fst entry, data) :: added). rewrite <- !app_assoc. cbn [app].
      split; [reflexivity|]. split.
      * cbn [map fst snd]. rewrite Hk, Hsym. destruct entry; reflexivity.
      * constructor; assumption.
    + rewrite Hstored.
      destruct (IH Hnd results (l ++ [quoteUrl (snd entry)]))
        as (added & -> & Hk & Hn).
      { intros e He. apply Hfresh. right. exact He. }
      exists added. rewrite <- !app_assoc. cbn [app]. auto.
Qed.

Lemma indices_distinct : NoDup (map fst indices).
Proof.
  apply NoDup_ListNoDup.
  repeat (constructor; [cbn [map fst indices In]; intros H;
                        repeat (destruct H as [H|H]; [discriminate|]); exact H|]).
  constructor.
Qed.


End Network.

End IndicesSpec.

(** ** The peer comparison *)

Module PeerSpec.
Import Js Net Text Regex Profile Correlation Peers PeerData NetFacts.

Lemma industryPeers_cases (industry : list ascii) :
  In (industryPeers industry)
    [["F"; "GM"; "HMC"; "TM"]; ["AAPL"; "MSFT"; "GOOGL"; "META"];
     ["JPM"; "BAC"; "WFC"; "C"]; ["JNJ"; "PFE"; "MRK"; "UNH"];
     ["AAPL"; "MSFT"; "AMZN"; "GOOGL"]].
Proof.
  unfold industryPeers.
  repeat match goal with
         | |- context [if ?b then _ else _] => destruct b
         end; cbn [In]; tauto.
Qed.

Lemma mapped_peers (k : string) (l : list string) :
  assoc k peerMappings = Some l -> In l (map snd peerMappings).
Proof.
  generalize peerMappings. intros t. induction t as [|[k' l'] t IH]; [discriminate|].
  cbn [assoc map snd In]. destruct (String.eqb k k').
  - intros [= ->]. left. reflexivity.
  - intros H. right. exact (IH H).
Qed.

(** Every list of peers has four distinct symbols. *)
Lemma peersOf_four (symbol : string) (industry : list ascii) :
  length (peersOf symbol industry) = 4%nat
  /\ List.NoDup (peersOf symbol industry).
Proof.
  assert (Hok : forall l, In l (map snd peerMappings) ->
                          length l = 4%nat /\ List.NoDup l).
  { intros l Hl. cbn [map snd peerMappings In] in Hl.
    repeat (destruct Hl as [<-|Hl];
            [split; [reflexivity|];
             repeat (constructor;
                     [cbn [In]; intros H;
                      repeat (destruct H as [H|H]; [discriminate|]); exact H|]);
             constructor|]).
    destruct Hl. }
  assert (Hind : length (industryPeers industry) = 4%nat
                 /\ List.NoDup (industryPeers industry)).
  { pose proof (industryPeers_cases industry) as Hl. cbn [In] in Hl.
    repeat (destruct Hl as [<-|Hl];
            [split; [reflexivity|];
             repeat (constructor;
                     [cbn [In]; intros H;
                      repeat (destruct H as [H|H]; [discriminate|]); exact H|]);
             constructor|]).
    destruct Hl. }
  unfold peersOf.
  destruct (assoc (toUpperCase symbol) peerMappings) as [l|] eqn:E.
  - destruct (Hok l (mapped_peers _ _ E)) as [H4 Hnd]. rewrite H4.
    cbn [Nat.eqb]. auto.
  - cbn [length Nat.eqb]. exact Hind.
Qed.

Section Network.
Variable net : string -> Outcome JsValue.
Variable currentDate : string.

Local Abbreviation stored' :=
  (fun pm : string * option (gmap string JsValue) =>
     match snd pm with Some _ => true | None => false end = fetched net (fst pm)).

(** Over distinct peers the loop asks for every page once, in order, and
    stores an entry per peer: the metrics of a page served as a text,
    [null] otherwise. *)
Lemma fetchPeerMetricsFrom_run (peers : list string) :
  List.NoDup peers ->
  forall acc l,
  (forall p, In p peers -> ~ In p (map fst acc)) ->
  exists added,
    fetchPeerMetricsFrom net peers acc l
    = (Ret (acc ++ added), l ++ map quoteUrl peers)
    /\ map fst added = peers
    /\ Forall stored' added.
Proof.
  induction peers as [|peer peers IH]; intros Hnd acc l Hfresh.
  - exists []. cbn [fetchPeerMetricsFrom map]. rewrite !app_nil_r.
    repeat split. constructor.
  - apply List.NoDup_cons_iff in Hnd as [Hhead Hnd].
    assert (Htail : forall v,
               stored' (peer, v) ->
               exists added,
                 fetchPeerMetricsFrom net peers (setKey peer v acc)
                   (l ++ [quoteUrl peer])
                 = (Ret (acc ++ added), l ++ quoteUrl peer :: map quoteUrl peers)
                 /\ map fst added = peer :: peers
                 /\ Forall stored' added).
    { intros v Hv. rewrite KeyFacts.setKey_fresh by (apply Hfresh; left; reflexivity).
      destruct (IH Hnd (acc ++ [(peer, v)]) (l ++ [quoteUrl peer]))
        as (added & -> & Hk & Hall).
      { intros p Hp. rewrite map_app, in_app_iff. cbn [map fst In].
        intros [H|[H|[]]].
        - exact (Hfresh p (or_intror Hp) H).
        - subst p. exact (Hhead Hp). }
      exists ((peer, v) :: added). rewrite <- !app_assoc. cbn [app].
      split; [reflexivity|]. split.
      - cbn [map fst]. rewrite Hk. reflexivity.
      - constructor; [exact Hv | exact Hall]. }
    cbn [fetchPeerMetricsFrom map]. unfold Net.bind at 1, tryCatch, Net.bind, get.
    destruct (net (quoteUrl peer)) as [data|e] eqn:Enet.
    + destruct data as [| | | |doc| |];
        try (cbn [asString throw ret]; apply (Htail None);
             unfold fetched; cbn [fst snd]; rewrite Enet; reflexivity).
      cbn [asString ret]. apply (Htail (Some _)).
      unfold fetched. cbn [fst snd]. rewrite Enet. reflexivity.
    + cbn [ret]. apply (Htail None).
      unfold fetched. cbn [fst snd]. rewrite Enet. reflexivity.
Qed.

Lemma peer_rows (target : TargetData)
    (pms : list (string * option (gmap string JsValue))) :
  Forall stored' pms ->
  let rows := flat_map
                (fun pm =>
                   match snd pm with
                   | Some metrics =>
                       [comparisonRow currentDate (fst pm) "peer" target metrics]
                   | None => []
                   end) pms in
  map rowKey rows
  = map (fun p => (p, "peer")) (List.filter (fetched net) (map fst pms))
  /\ Forall (fun r => industry r = t_industry target
                      /\ sector r = t_sector target) rows.
Proof.
  induction 1 as [|[p v] pms Hv Hall IH]; cbn zeta.
  - split; [reflexivity | constructor].
  - cbn [flat_map map fst snd List.filter]. cbn [fst snd] in Hv.
    cbn zeta in IH. destruct IH as [IH1 IH2].
    rewrite <- Hv. destruct v as [metrics|]; cbn [app map].
    + split; [rewrite IH1; reflexivity|]. constructor; [|exact IH2].
      split; reflexivity.
    + split; assumption.
Qed.


End Network.

End PeerSpec.

(** ** The tool handler *)

Module ServerSpec.
Import Js Text Profile Server.

(** *** Splitting and joining *)

Lemma split_nonempty (sep : ascii) (s : list ascii) : split sep s <> [].
Proof.
  destruct s as [|c s]; cbn [split]; [discriminate|].
  destruct (Ascii.eqb c sep); [discriminate|].
  destruct (split sep s); discriminate.
Qed.

Lemma split_pieces (sep : ascii) (s : list ascii) :
  Forall (fun piece => ~ In sep piece) (split sep s).
Proof.
  induction s as [|c s IH]; cbn [split].
  - repeat constructor. intros [].
  - destruct (Ascii.eqb c sep) eqn:E.
    + constructor; [intros []|exact IH].
    + apply Ascii.eqb_neq in E.
      destruct (split sep s) as [|piece pieces].
      * repeat constructor. intros [H|[]]. auto.
      * inversion IH as [|? ? Hp Hps]; subst. constructor; [|exact Hps].
        intros [H|H]; auto.
Qed.

Lemma split_app_sep (sep : ascii) (x r : list ascii) :
  ~ In sep x -> split sep (x ++ sep :: r) = x :: split sep r.
Proof.
  induction x as [|c x IH]; intros Hx; cbn [app split].
  - rewrite Ascii.eqb_refl. reflexivity.
  - destruct (Ascii.eqb c sep) eqn:E.
    + apply Ascii.eqb_eq in E. subst c. exfalso. apply Hx. left. reflexivity.
    + rewrite IH by (intros H; apply Hx; right; exact H). reflexivity.
Qed.

Lemma split_whole (sep : ascii) (x : list ascii) :
  ~ In sep x -> split sep x = [x].
Proof.
  induction x as [|c x IH]; intros Hx; cbn [split]; [reflexivity|].
  destruct (Ascii.eqb c sep) eqn:E.
  - apply Ascii.eqb_eq in E. subst c. exfalso. apply Hx. left. reflexivity.
  - rewrite IH by (intros H; apply Hx; right; exact H). reflexivity.
Qed.

(** Joining pieces that hold no separator and splitting again gives the
    pieces back. *)
Lemma split_join (sep : ascii) (l : list (list ascii)) :
  l <> [] -> Forall (fun piece => ~ In sep piece) l ->
  split sep (join sep l) = l.
Proof.
  induction l as [|x l IH]; intros Hne Hall; [contradiction|].
  inversion Hall as [|? ? Hx Hl]; subst.
  destruct l as [|y l].
  - cbn [join]. apply split_whole, Hx.
  - change (join sep (x :: y :: l)) with (x ++ sep :: join sep (y :: l)).
    rewrite split_app_sep by exact Hx. rewrite IH; [reflexivity|discriminate|exact Hl].
Qed.

(** *** Trimming *)

Lemma dropWhile_parts (p : ascii -> bool) (s : list ascii) :
  exists pre, s = pre ++ dropWhile p s.
Proof.
  induction s as [|c s [pre IH]]; [exists []; reflexivity|].
  cbn [dropWhile]. destruct (p c).
  - exists (c :: pre). cbn [app]. rewrite <- IH. reflexivity.
  - exists []. reflexivity.
Qed.

Lemma dropWhile_head (p : ascii -> bool) (s : list ascii) (c : ascii)
    (r : list ascii) :
  dropWhile p s = c :: r -> p c = false.
Proof.
  induction s as [|a s IH]; cbn [dropWhile]; [discriminate|].
  destruct (p a) eqn:E; [exact IH|]. intros [= -> _]. exact E.
Qed.

Lemma dropWhile_In (p : ascii -> bool) (s : list ascii) (c : ascii) :
  In c (dropWhile p s) -> In c s.
Proof.
  destruct (dropWhile_parts p s) as [pre E]. intros H.
  rewrite E. apply in_or_app. right. exact H.
Qed.

Lemma trim_In (s : list ascii) (c : ascii) : In c (trim s) -> In c s.
Proof.
  unfold trim. intros H. apply in_rev in H. apply dropWhile_In in H.
  apply in_rev in H. apply dropWhile_In in H. exact H.
Qed.

(** Trimming a trimmed text changes nothing. *)
Lemma trim_trim (s : list ascii) : trim (trim s) = trim s.
Proof.
  unfold trim. set (a := dropWhile isWhite s).
  destruct (dropWhile isWhite (rev a)) as [|c b] eqn:Eb; [reflexivity|].
  pose proof (dropWhile_head _ _ _ _ Eb) as Hc.
  destruct (dropWhile_parts isWhite (rev a)) as [pre Epre]. rewrite Eb in Epre.
  assert (Ea : a = rev (c :: b) ++ rev pre).
  { rewrite <- rev_app_distr, <- Epre, rev_involutive. reflexivity. }
  assert (Hfront : dropWhile isWhite (rev (c :: b)) = rev (c :: b)).
  { destruct (rev (c :: b)) as [|h t] eqn:Er; [reflexivity|].
    cbn [dropWhile]. replace (isWhite h) with false; [reflexivity|].
    symmetry. destruct a as [|h' a'] eqn:Ea'.
    - cbn [app] in Ea. discriminate.
    - cbn [app] in Ea. injection Ea as -> _.
      unfold a in Ea'. exact (dropWhile_head _ _ _ _ Ea'). }
  rewrite Hfront, rev_involutive. cbn [dropWhile]. rewrite Hc. reflexivity.
Qed.

Lemma symbolsIn_pieces (s : string) :
  Forall (fun piece => ~ In ","%char piece /\ trim piece = piece
                       /\ nonEmpty piece = true) (symbolsIn s).
Proof.
  unfold symbolsIn. apply List.Forall_forall. intros piece Hp.
  apply List.filter_In in Hp as [Hp Hne]. apply in_map_iff in Hp as (x & <- & Hx).
  pose proof (split_pieces ","%char (list_ascii_of_string s)) as Hall.
  rewrite List.Forall_forall in Hall. split; [|split].
  - intros H. apply trim_In in H. exact (Hall x Hx H).
  - apply trim_trim.
  - exact Hne.
Qed.

Section Environment.
Variable JSON_parse : list ascii -> Outcome JsValue.
Variable showValue : JsValue -> string.

Local Abbreviation validate' := (validateAndProcessInput JSON_parse showValue).
Local Abbreviation handle' := (handle JSON_parse showValue).
Local Abbreviation upper' :=
  (fun piece : list ascii => toUpperCase (string_of_list_ascii piece)).

Lemma handle_correlation (s : string) (search_type : JsValue) :
  handle' (JStr "stock_correlation") (JStr s) search_type
  = if String.eqb s "" then Rejected SymbolRequired
    else if (length (symbolsIn s) <? 2)%nat then Rejected CorrelationNeedsTwo
    else Accepted (StockCorrelation (map upper' (symbolsIn s))).
Proof.
  unfold handle, validateAndProcessInput.
  change (truthy (JStr "stock_correlation")) with true.
  change (listed ALL_METHODS (JStr "stock_correlation")) with true.
  change (listed noSymbolRequired (JStr "stock_correlation")) with false.
  change (isMethod (JStr "stock_correlation") "stock_correlation") with true.
  change (isMethod (JStr "stock_correlation") "stock_screener") with false.
  cbn [truthy]. destruct (String.eqb s "") eqn:Es;
    cbv beta iota delta [negb andb]; [reflexivity|].
  unfold processCorrelation. destruct (length (symbolsIn s) <? 2)%nat eqn:El;
    cbv beta iota; [reflexivity|].
  apply Nat.ltb_ge in El. pose proof (symbolsIn_pieces s) as Hall.
  set (pieces := symbolsIn s) in *.
  assert (Hjoin : join ","%char pieces <> []).
  { destruct pieces as [|x [|y l]]; cbn [length] in El; try lia.
    inversion Hall as [|? ? (_ & _ & Hx) _]; subst.
    destruct x; [discriminate|]. discriminate. }
  unfold route.
  change (isMethod (JStr "stock_correlation") "stock_correlation") with true.
  repeat match goal with
         | |- context [isMethod (JStr "stock_correlation") ?m] =>
             change (isMethod (JStr "stock_correlation") m) with false
         end.
  cbv iota. cbn [truthy].
  replace (String.eqb (string_of_list_ascii (join ","%char pieces)) "")
    with false.
  2:{ symmetry. apply String.eqb_neq. intros E. apply Hjoin.
      rewrite <- (list_ascii_of_string_of_list_ascii (join ","%char pieces)), E.
      reflexivity. }
  cbn [negb]. rewrite list_ascii_of_string_of_list_ascii.
  rewrite split_join.
  - f_equal. f_equal. apply map_ext_in. intros piece Hp.
    rewrite List.Forall_forall in Hall. destruct (Hall piece Hp) as (_ & -> & _).
    reflexivity.
  - destruct pieces; [cbn [length] in El; lia | discriminate].
  - eapply List.Forall_impl; [|exact Hall]. intros piece (H & _). exact H.
Qed.

Lemma upper_nonempty (piece : list ascii) :
  nonEmpty piece = true -> upper' piece <> "".
Proof.
  destruct piece as [|c piece]; [discriminate|]. intros _.
  unfold toUpperCase. rewrite list_ascii_of_string_of_list_ascii.
  cbn [map string_of_list_ascii]. discriminate.
Qed.

Lemma correlation_other (symbol search_type : JsValue) :
  (forall s, symbol <> JStr s) ->
  handle' (JStr "stock_correlation") symbol search_type
  = Rejected (if truthy symbol then NotAFunction else SymbolRequired).
Proof.
  intros Hs. unfold handle, validateAndProcessInput.
  change (truthy (JStr "stock_correlation")) with true.
  change (listed ALL_METHODS (JStr "stock_correlation")) with true.
  change (listed noSymbolRequired (JStr "stock_correlation")) with false.
  change (isMethod (JStr "stock_correlation") "stock_correlation") with true.
  destruct (truthy symbol) eqn:Ht; cbv beta iota delta [negb andb];
    [|reflexivity].
  destruct symbol; try reflexivity. exfalso. exact (Hs _ eq_refl).
Qed.

Lemma correlation_accepted (symbol search_type : JsValue) (call : Call) :
  handle' (JStr "stock_correlation") symbol search_type = Accepted call ->
  exists symbols,
    call = StockCorrelation symbols /\ (2 <= length symbols)%nat
    /\ Forall (fun x => x <> "") symbols.
Proof.
  intros Hcall. destruct symbol as [| | | |s| |];
    try (rewrite correlation_other in Hcall by discriminate; discriminate).
  rewrite handle_correlation in Hcall.
  destruct (String.eqb s ""); [discriminate|].
  destruct (length (symbolsIn s) <? 2)%nat eqn:El; [discriminate|].
  apply Nat.ltb_ge in El. injection Hcall as <-.
  eexists. split; [reflexivity|]. split.
  - rewrite length_map. exact El.
  - rewrite List.Forall_map. eapply List.Forall_impl; [|apply symbolsIn_pieces].
    intros piece (_ & _ & H). apply upper_nonempty, H.
Qed.


(** X14.  Every accepted request reaches a case of the handler.  A method that
    needs a symbol is called with the symbol it was given, never with the
    default written beside it; the screener is called with the parsed
    criteria, never with its fallback; a correlation is called with two
    symbols or more. *)
Theorem routed_calls (method symbol search_type : JsValue) (call : Call) :
  handle' method symbol search_type = Accepted call ->
  match call with
  | UnknownMethod => False
  | StockCorrelation symbols => (2 <= length symbols)%nat
  | StockScreener criteria =>
      truthy symbol = true
      /\ JSON_parse (textOf showValue symbol) = Ret criteria
  | StockNews v st => v = symbol /\ truthy symbol = true /\ st = search_type
  | YahooProfile v | YahooSummary v | YahooEstimates v | YahooPricing v
  | YahooFinancials v | RevenueBreakdown v | YahooEarningsHistory v
  | YahooRecommendations v | YahooESG v | StockDividends v
  | StockTechnicals v | StockPeers v | FredVintageData v
  | FredSeriesRelationships v | FredSeriesSearch v _ | FredSeriesData v _
  | FredRegionalData v _ | FredSources v _ | FredMapsData v _ =>
      v = symbol /\ truthy symbol = true
  | FredCategories v _ => v = orElse symbol JNull
  | FredTags v _ => v = orElse symbol (JStr "")
  | EconomicIndicators | MarketIndices | FredReleases _
  | FredSeriesUpdates _ => True
  end.
Proof.
  intros H.
  assert (Hm : exists m, method = JStr m /\ In m ALL_METHODS).
  { unfold handle, validateAndProcessInput in H.
    destruct (truthy method); [|discriminate]. cbn [negb] in H.
    destruct (listed ALL_METHODS method) eqn:Hl; [|discriminate].
    destruct method as [| | | |m| |]; try discriminate.
    exists m. split; [reflexivity|]. cbn [listed] in Hl.
    apply existsb_exists in Hl as (m' & Hin & E). apply String.eqb_eq in E.
    subst m'. exact Hin. }
  destruct Hm as (m & -> & Hin).
  destruct (String.eqb m "stock_correlation") eqn:Ec.
  { apply String.eqb_eq in Ec. subst m.
    destruct (correlation_accepted _ _ _ H) as (symbols & -> & Hlen & _).
    exact Hlen. }
  unfold ALL_METHODS in Hin. cbn [In] in Hin.
  unfold handle, validateAndProcessInput in H. unfold orElse.
  destruct (truthy symbol) eqn:Ht;
    remember (JSON_parse (textOf showValue symbol)) as parsed eqn:Ep;
    repeat (destruct Hin as [<-|Hin];
            [vm_compute in Ec; try discriminate Ec; clear Ec;
             cbv - [route textOf] in H; try discriminate H;
             destruct parsed; try discriminate H;
             unfold route, orElse in H; rewrite ?Ht in H;
             cbv beta iota in H; rewrite <- ?Ep in H; vm_compute in H;
             injection H as <-; repeat split; reflexivity|]);
    destruct Hin.
Qed.

End Environment.

Import Samples Cases.

Lemma routed_calls_witness :
  handle parseEmptyObject showValue (JStr "fred_maps_data") (JStr "state")
    JUndefined
  = Accepted (FredMapsData (JStr "state") 20)
  /\ truthy (JStr "state") = true.
Proof.
  assert (H : handle parseEmptyObject showValue (JStr "fred_maps_data")
                (JStr "state") JUndefined
              = Accepted (FredMapsData (JStr "state") 20)).
  { vm_compute. reflexivity. }
  split; [exact H|].
  exact (proj2 (routed_calls parseEmptyObject showValue _ _ _ _ H)).
Defined.

End ServerSpec.

(** ** Vintages as fetched *)

Module VintageFetchSpec.
Import Js Net Text Profile Economic VintageFetch.

Lemma datesOf_bounds (seriesId : string) (data : JsValue) (dates : list JsValue) :
  datesOf seriesId data = Ret dates -> (0 < length dates <= 5)%nat.
Proof.
  unfold datesOf. destruct (truthy data); [|discriminate].
  destruct (getProp data "vintage_dates") as [vd|e]; cbn [Js.bind]; [|discriminate].
  destruct (truthy vd); [|discriminate].
  destruct vd as [| | | | |l|fields]; try discriminate.
  - destruct l as [|d l]; [discriminate|]. intros E.
    assert (Ed : dates = firstn 5 (d :: l)) by congruence.
    rewrite Ed, length_firstn. cbn [length]. lia.
  - destruct (assoc "length" fields) as [[| | |len| | |]|]; try discriminate.
    destruct (PrimFloat.eqb len 0%float); discriminate.
Qed.

Lemma analyzeRevisions_error (showValue : JsValue -> string)
    (vs : list (option Vintage)) (e : string) :
  analyzeRevisions showValue vs = Throw e -> e = typeError.
Proof.
  unfold analyzeRevisions.
  destruct vs as [|[latest|] [|[previous|] vs]]; try discriminate;
    try (intros [= <-]; reflexivity).
  - destruct (observations latest) as [|latestData ?]; [discriminate|].
    destruct (observations previous) as [|? ?]; [discriminate|].
    destruct (find _ _); discriminate.
  - destruct (observations latest) as [|latestData ?]; [discriminate|].
    intros [= <-]. reflexivity.
Qed.

(** The filter throws on an entry that is [undefined] and keeps, in
    order, the entries that hold an observation. *)
Lemma withObservations_some (vs : list Vintage) :
  withObservations (map Some vs)
  = Ret (List.filter (fun v => (0 <? length (observations v))%nat) vs).
Proof.
  induction vs as [|v vs IH]; [reflexivity|].
  cbn [map withObservations List.filter]. rewrite IH. cbn [Js.bind].
  destruct (observations v); reflexivity.
Qed.

Lemma withObservations_none (vs : list (option Vintage)) :
  In None vs -> withObservations vs = Throw typeError.
Proof.
  induction vs as [|[v|] vs IH]; intros Hin.
  - destruct Hin.
  - destruct Hin as [H|H]; [discriminate|].
    cbn [withObservations]. rewrite (IH H). reflexivity.
  - reflexivity.
Qed.

Lemma toObservations_length (showValue : JsValue -> string) (l : list JsValue)
    (obs : list Observation) :
  toObservations showValue l = Ret obs -> length obs = length l.
Proof.
  revert obs. induction l as [|o l IH]; intros obs.
  - intros [= <-]. reflexivity.
  - cbn [toObservations].
    destruct (toObservation showValue o) as [x|e]; cbn [Js.bind]; [|discriminate].
    destruct (toObservations showValue l) as [rest|e]; cbn [Js.bind];
      [|discriminate].
    intros [= <-]. cbn [length]. rewrite (IH rest eq_refl). reflexivity.
Qed.

Lemma find_ofObservation (d : string) (obs : list Vintage.Observation) :
  find (fun o => strictEq (date o) (JStr d)) (map ofObservation obs)
  = option_map ofObservation
      (find (fun o => String.eqb (Vintage.date o) d) obs).
Proof.
  induction obs as [|o obs IH]; [reflexivity|].
  cbn [map find ofObservation date strictEq].
  destruct (String.eqb (Vintage.date o) d); [reflexivity | exact IH].
Qed.

(** On entries whose members are texts, the analysis is that of
    [Vintage.analyzeRevisions]. *)
Lemma analyzeRevisions_of_texts (showValue : JsValue -> string)
    (vs : list (option Vintage.Vintage)) :
  analyzeRevisions showValue (map (option_map ofVintage) vs)
  = Js.bind (Vintage.analyzeRevisions (Some vs)) (fun a => Ret (ofAnalysis a)).
Proof.
  unfold analyzeRevisions, Vintage.analyzeRevisions.
  destruct vs as [|[latest|] [|[previous|] vs]]; try reflexivity;
    cbn [map option_map ofVintage observations].
  - destruct (Vintage.observations latest) as [|latestData l1]; [reflexivity|].
    destruct (Vintage.observations previous) as [|p l2] eqn:Ep; [reflexivity|].
    cbn [map]. rewrite <- Ep.
    change (ofObservation p :: map ofObservation l2)
      with (map ofObservation (p :: l2)).
    rewrite <- Ep.
    change (date (ofObservation latestData)) with (JStr (Vintage.date latestData)).
    rewrite find_ofObservation.
    destruct (find _ (Vintage.observations previous)); reflexivity.
  - destruct (Vintage.observations latest) as [|latestData l1]; reflexivity.
Qed.

Section Environment.
Variable net : string -> Outcome JsValue.
Variable showValue : JsValue -> string.
Variable apiKey : option string.

Local Abbreviation dataUrl' := (dataUrl showValue).
Local Abbreviation extract' := (extractFredVintageData net showValue apiKey).

(** What the callback makes of one date. *)
Local Abbreviation entryOf' :=
  (fun (key seriesId : string) (d : JsValue) (v : option Vintage) =>
     (v = None <-> lacksObservations net (dataUrl' key seriesId d) = true)
     /\ (forall x, v = Some x ->
           vintageDate x = d /\ (length (observations x) <= 3)%nat
           /\ (observations x <> [] ->
               exists answer, net (dataUrl' key seriesId d) = Ret answer))).

Lemma vintageOf_cases (d data : JsValue) :
  match vintageOf showValue d data with
  | Ret None =>
      truthy data && truthy (FredSeries.optProp data "observations") = false
  | Ret (Some x) =>
      truthy data && truthy (FredSeries.optProp data "observations") = true
      /\ vintageDate x = d /\ (length (observations x) <= 3)%nat
  | Throw _ =>
      truthy data && truthy (FredSeries.optProp data "observations") = true
  end.
Proof.
  unfold vintageOf, FredSeries.optProp.
  destruct (truthy data) eqn:Hd; [|reflexivity].
  assert (Hp : exists o, getProp data "observations" = Ret o).
  { destruct data; try discriminate; eexists; reflexivity. }
  destruct Hp as (o & ->). cbn [Js.bind andb].
  destruct (truthy o) eqn:Ho; [|reflexivity].
  destruct o as [| | | | |l0|]; try reflexivity.
  destruct (filterValid l0) as [valid|e]; cbn [Js.bind]; [|reflexivity].
  destruct (toObservations showValue (firstn 3 valid)) as [obs|e] eqn:Eo;
    cbn [Js.bind]; [|reflexivity].
  cbn [vintageDate observations]. split; [reflexivity|]. split; [reflexivity|].
  rewrite (toObservations_length _ _ _ Eo), length_firstn. lia.
Qed.

Lemma fetchVintage_run (key seriesId : string) (d : JsValue) (l : Log) :
  exists v,
    fetchVintage net showValue key seriesId d l
    = (Ret v, l ++ [dataUrl' key seriesId d])
    /\ entryOf' key seriesId d v.
Proof.
  unfold fetchVintage, tryCatch, Net.bind, get, lift, lacksObservations.
  destruct (net (dataUrl' key seriesId d)) as [data|e].
  - pose proof (vintageOf_cases d data) as Hc.
    destruct (vintageOf showValue d data) as [[x|]|e].
    + destruct Hc as (Hc & Hx1 & Hx2). rewrite Hc.
      exists (Some x). split; [reflexivity|]. split.
      * split; discriminate.
      * intros x' [= <-]. split; [exact Hx1|]. split; [exact Hx2|].
        intros _. eexists. reflexivity.
    + rewrite Hc. exists None. split; [reflexivity|].
      split; [tauto | discriminate].
    + rewrite Hc. eexists. split; [reflexivity|]. split.
      * split; discriminate.
      * intros x [= <-]. cbn [vintageDate observations].
        split; [reflexivity|]. split; [cbn; lia|]. intros _.
        eexists. reflexivity.
  - eexists. split; [reflexivity|]. split.
    + split; discriminate.
    + intros x [= <-]. cbn [vintageDate observations].
      split; [reflexivity|]. split; [cbn; lia|]. intros H. exfalso. apply H.
      reflexivity.
Qed.

Lemma fetchVintages_run (key seriesId : string) (dates : list JsValue) :
  forall l,
  exists vs,
    fetchVintages net showValue key seriesId dates l
    = (Ret vs, l ++ map (dataUrl' key seriesId) dates)
    /\ Forall2 (entryOf' key seriesId) dates vs.
Proof.
  induction dates as [|d dates IH]; intros l.
  - exists []. cbn [fetchVintages map]. rewrite app_nil_r.
    split; [reflexivity | constructor].
  - cbn [fetchVintages map]. unfold Net.bind.
    destruct (fetchVintage_run key seriesId d l) as (v & -> & Hv).
    destruct (IH (l ++ [dataUrl' key seriesId d])) as (vs & -> & Hvs).
    exists (v :: vs). rewrite <- app_assoc. cbn [app ret].
    split; [reflexivity|]. constructor; assumption.
Qed.

Lemma entries_lacking (key seriesId : string) (dates : list JsValue)
    (vs : list (option Vintage)) :
  Forall2 (entryOf' key seriesId) dates vs ->
  (In None vs <-> exists d, In d dates
                            /\ lacksObservations net (dataUrl' key seriesId d) = true).
Proof.
  induction 1 as [|d v dates vs [Hv _] _ IH].
  - split; [intros [] | intros (d & [] & _)].
  - cbn [In]. rewrite IH. split.
    + intros [H|(d' & H1 & H2)].
      * exists d. split; [left; reflexivity|]. apply Hv. exact H.
      * exists d'. split; [right; exact H1 | exact H2].
    + intros (d' & [<-|H1] & H2).
      * left. apply Hv. exact H2.
      * right. exists d'. split; assumption.
Qed.

Lemma entries_all_some (vs : list (option Vintage)) :
  ~ In None vs -> exists xs, vs = map Some xs.
Proof.
  induction vs as [|[x|] vs IH]; intros Hn.
  - exists []. reflexivity.
  - destruct IH as (xs & ->); [intros H; apply Hn; right; exact H|].
    exists (x :: xs). reflexivity.
  - exfalso. apply Hn. left. reflexivity.
Qed.

(** The entries that the filter keeps. *)
Lemma kept_entries (key seriesId : string) (dates : list JsValue)
    (xs : list Vintage) :
  Forall2 (entryOf' key seriesId) dates (map Some xs) ->
  let kept := List.filter (fun v => (0 <? length (observations v))%nat) xs in
  (length kept <= length dates)%nat
  /\ Forall (fun v =>
               In (vintageDate v) dates
               /\ (0 < length (observations v) <= 3)%nat
               /\ exists answer,
                    net (dataUrl' key seriesId (vintageDate v)) = Ret answer)
       kept.
Proof.
  intros Hvs kept. split.
  - apply Forall2_length in Hvs. rewrite length_map in Hvs. rewrite Hvs.
    apply List.filter_length_le.
  - apply List.Forall_forall. intros v Hv.
    apply List.filter_In in Hv as [Hv Hpos]. apply Nat.ltb_lt in Hpos.
    assert (Hent : exists d, In d dates /\ entryOf' key seriesId d (Some v)).
    { clear - Hvs Hv. revert dates Hvs.
      induction xs as [|x xs IH]; intros dates Hvs; [destruct Hv|].
      cbn [map] in Hvs. inversion Hvs as [|d ? dates' ? Hd Hrest]; subst.
      destruct Hv as [<-|Hv].
      - exists d. split; [left; reflexivity | exact Hd].
      - destruct (IH Hv dates' Hrest) as (d' & H1 & H2).
        exists d'. split; [right; exact H1 | exact H2]. }
    destruct Hent as (d & Hd & _ & Hx).
    destruct (Hx v eq_refl) as (-> & H3 & Hans).
    split; [exact Hd|]. split; [lia|].
    apply Hans. intros E. rewrite E in Hpos. cbn in Hpos. lia.
Qed.

(** The extraction once the dates are known. *)
Lemma extract_with_dates (seriesId analysisType key : string) (data : JsValue)
    (dates : list JsValue) :
  apiKey = Some key -> key <> "" -> key <> "demo" ->
  net (vintageDatesUrl key seriesId) = Ret data ->
  datesOf seriesId data = Ret dates ->
  exists vs,
    Forall2 (entryOf' key seriesId) dates vs
    /\ run (extract' seriesId analysisType)
       = (match analyzeRevisions showValue vs with
          | Ret ra =>
              match withObservations vs with
              | Ret kept =>
                  Ret {| VintageFetch.seriesId := seriesId;
                         VintageFetch.analysisType := analysisType;
                         vintageData := kept;
                         revisionAnalysis := ra;
                         totalVintages := length dates |}
              | Throw e => Throw e
              end
          | Throw e => Throw e
          end,
          vintageDatesUrl key seriesId :: map (dataUrl' key seriesId) dates).
Proof.
  intros Hkey Hne Hdemo Hnet Hdates.
  destruct (fetchVintages_run key seriesId dates [vintageDatesUrl key seriesId])
    as (vs & Efetch & Hvs).
  exists vs. split; [exact Hvs|].
  unfold run, extractFredVintageData, tryCatch. rewrite Hkey.
  apply String.eqb_neq in Hne, Hdemo. rewrite Hne, Hdemo. cbn [orb].
  unfold Net.bind, get, lift. rewrite Hnet, Hdates. cbn [app].
  rewrite Efetch. cbn [app].
  destruct (analyzeRevisions showValue vs); [|reflexivity].
  destruct (withObservations vs); reflexivity.
Qed.

Lemma analyzeRevisions_some (xs : list Vintage) :
  exists ra, analyzeRevisions showValue (map Some xs) = Ret ra.
Proof.
  unfold analyzeRevisions.
  destruct xs as [|latest [|previous xs]]; try (eexists; reflexivity).
  cbn [map].
  destruct (observations latest); [eexists; reflexivity|].
  destruct (observations previous); [eexists; reflexivity|].
  destruct (find _ _); eexists; reflexivity.
Qed.

(** X15.  Without a usable key [extractFredVintageData] throws before any
    request.  With one, and an answer that lists dates, it asks for the
    observations of the first dates, five at most, in order and whatever
    the earlier answers were.  A request that fails gives an entry without
    observations, which is counted in [totalVintages] and dropped from
    [vintageData]; an answer that is served without a list of
    observations makes the whole extraction throw a [TypeError]. *)
Theorem vintage_requests (seriesId analysisType : string) :
  ((forall key, apiKey = Some key -> key = "" \/ key = "demo") ->
   run (extract' seriesId analysisType) = (Throw keyRequired, []))
  /\ (forall key data dates,
        apiKey = Some key -> key <> "" -> key <> "demo" ->
        net (vintageDatesUrl key seriesId) = Ret data ->
        datesOf seriesId data = Ret dates ->
        let log := vintageDatesUrl key seriesId
                   :: map (dataUrl' key seriesId) dates in
        (0 < length dates <= 5)%nat
        /\ ((exists d, In d dates
                       /\ lacksObservations net (dataUrl' key seriesId d) = true) ->
            run (extract' seriesId analysisType) = (Throw typeError, log))
        /\ ((forall d, In d dates ->
                       lacksObservations net (dataUrl' key seriesId d) = false) ->
            exists result,
              run (extract' seriesId analysisType) = (Ret result, log)
              /\ totalVintages result = length dates
              /\ (length (vintageData result) <= length dates)%nat
              /\ Forall (fun v =>
                           In (vintageDate v) dates
                           /\ (0 < length (observations v) <= 3)%nat
                           /\ exists answer,
                                net (dataUrl' key seriesId (vintageDate v))
                                = Ret answer)
                   (vintageData result))).
Proof.
  split.
  - intros Hkey. unfold run, extractFredVintageData, tryCatch.
    destruct apiKey as [key|]; [|reflexivity].
    destruct (Hkey key eq_refl) as [-> | ->]; reflexivity.
  - intros key data dates Hkey Hne Hdemo Hnet Hdates log.
    split; [exact (datesOf_bounds _ _ _ Hdates)|].
    destruct (extract_with_dates seriesId analysisType key data dates
                Hkey Hne Hdemo Hnet Hdates) as (vs & Hvs & ->).
    fold log. split.
    + intros Hlack. apply (entries_lacking _ _ _ _ Hvs) in Hlack.
      rewrite (withObservations_none vs Hlack).
      destruct (analyzeRevisions showValue vs) as [ra|e] eqn:Ea; [reflexivity|].
      rewrite (analyzeRevisions_error _ _ _ Ea). reflexivity.
    + intros Hall.
      assert (Hn : ~ In None vs).
      { intros H. apply (entries_lacking _ _ _ _ Hvs) in H as (d & H1 & H2).
        rewrite (Hall d H1) in H2. discriminate. }
      destruct (entries_all_some vs Hn) as (xs & ->).
      rewrite withObservations_some.
      destruct (analyzeRevisions_some xs) as (ra & ->).
      eexists. split; [reflexivity|]. cbn [totalVintages vintageData].
      split; [reflexivity|]. exact (kept_entries _ _ _ _ Hvs).
Qed.

End Environment.

Section Rows.
Variable net : string -> Outcome JsValue.
Variable showValue : JsValue -> string.
Variable currentDate : string.
Variable apiKey : option string.

Local Abbreviation dataUrl' := (dataUrl showValue).
Local Abbreviation extract' := (extractFredVintageData net showValue apiKey).
Local Abbreviation fetch' := (fetchFredVintageData net showValue currentDate apiKey).

Lemma rows_count (result : VintageResult) (n : nat) :
  Forall (fun v => (length (observations v) <= n)%nat) (vintageData result) ->
  (length (toFredVintageRows currentDate result)
   <= n * length (vintageData result))%nat.
Proof.
  unfold toFredVintageRows. generalize (vintageData result) as kept.
  induction kept as [|v kept IH]; intros Hall; cbn [flat_map length]; [lia|].
  inversion Hall as [|? ? Hv Hrest]; subst.
  rewrite length_app, length_map. specialize (IH Hrest). lia.
Qed.

(** X16.  [fetchFredVintageData] throws without a request when the series id
    is blank.  When it returns, it has made between two and six requests
    and returns fifteen rows at most, three for each vintage, all of them
    for the series and the analysis type it was given. *)
Theorem vintage_rows (seriesId analysisType : string) :
  (Server.trim (list_ascii_of_string seriesId) = [] ->
   run (fetch' seriesId analysisType) = (Throw idRequired, []))
  /\ (forall rows log,
        run (fetch' seriesId analysisType) = (Ret rows, log) ->
        (length rows <= 15)%nat /\ (2 <= length log <= 6)%nat
        /\ Forall (fun r => series_id r = seriesId
                            /\ analysis_type r = analysisType
                            /\ fetch_date r = currentDate) rows).
Proof.
  split.
  - intros Hblank. unfold run, fetchFredVintageData, tryCatch.
    rewrite Hblank. reflexivity.
  - intros rows log Hrun.
    unfold run, fetchFredVintageData, tryCatch in Hrun.
    destruct (Server.trim (list_ascii_of_string seriesId)); [discriminate|].
    unfold Net.bind in Hrun.
    destruct (extract' seriesId analysisType []) as [[result|e] l'] eqn:Ex;
      [|discriminate].
    cbn [ret] in Hrun. injection Hrun as <- <-.
    assert (Hshape : exists key data dates,
               apiKey = Some key /\ key <> "" /\ key <> "demo"
               /\ net (vintageDatesUrl key seriesId) = Ret data
               /\ datesOf seriesId data = Ret dates).
    { unfold extractFredVintageData, tryCatch in Ex.
      destruct apiKey as [key|] eqn:Ek; [|discriminate].
      destruct (String.eqb key "") eqn:E1; [discriminate|].
      destruct (String.eqb key "demo") eqn:E2; [discriminate|].
      cbn [orb] in Ex. unfold Net.bind, get, lift in Ex.
      destruct (net (vintageDatesUrl key seriesId)) as [data|e] eqn:En;
        [|discriminate].
      destruct (datesOf seriesId data) as [dates|e] eqn:Ed; [|discriminate].
      exists key, data, dates. apply String.eqb_neq in E1, E2.
      repeat split; assumption. }
    destruct Hshape as (key & data & dates & Hkey & Hne & Hdemo & Hnet & Hdates).
    destruct (extract_with_dates net showValue apiKey seriesId analysisType key data dates
                Hkey Hne Hdemo Hnet Hdates) as (vs & Hvs & Erun).
    unfold run in Erun. rewrite Ex in Erun.
    pose proof (datesOf_bounds _ _ _ Hdates) as Hb.
    destruct (analyzeRevisions showValue vs) as [ra|e]; [|discriminate].
    destruct (withObservations vs) as [kept|e] eqn:Ew; [|discriminate].
    injection Erun as -> ->.
    assert (Hn : ~ In None vs).
    { intros H. rewrite (withObservations_none vs H) in Ew. discriminate. }
    destruct (entries_all_some vs Hn) as (xs & ->).
    rewrite withObservations_some in Ew. injection Ew as <-.
    destruct (kept_entries net showValue _ _ _ _ Hvs) as [Hlen Hall]. cbv zeta in Hlen, Hall.
    split; [|split].
    + match goal with
      | |- (length (toFredVintageRows _ ?r) <= _)%nat =>
          pose proof (rows_count r 3) as Hc
      end.
      cbn [vintageData] in Hc.
      assert (H3 : Forall (fun v => (length (observations v) <= 3)%nat)
                     (List.filter (fun v => (0 <? length (observations v))%nat) xs)).
      { eapply List.Forall_impl; [|exact Hall]. intros v (_ & H & _). lia. }
      specialize (Hc H3). lia.
    + cbn [length]. rewrite length_map. lia.
    + unfold toFredVintageRows. apply List.Forall_forall. intros r Hr.
      apply in_flat_map in Hr as (v & _ & Hr).
      apply in_map_iff in Hr as (obs & <- & _). cbn. auto.
Qed.

End Rows.

Import Samples Cases.

Lemma vintage_requests_witness :
  run (extractFredVintageData lackingSite showValue (Some fredKey) "GDP"
         "revisions")
  = (Throw typeError,
     [vintageDatesUrl fredKey "GDP";
      dataUrl showValue fredKey "GDP" (JStr "2024-03-28");
      dataUrl showValue fredKey "GDP" (JStr "2024-02-28")]).
Proof.
  assert (Hkey : fredKey <> "") by discriminate.
  assert (Hdemo : fredKey <> "demo") by discriminate.
  apply (proj1 (proj2 (proj2 (vintage_requests lackingSite showValue
                                (Some fredKey) "GDP" "revisions")
                         fredKey vintageDates
                         [JStr "2024-03-28"; JStr "2024-02-28"]
                         eq_refl Hkey Hdemo eq_refl eq_refl))).
  exists (JStr "2024-02-28"). split; [right; left; reflexivity|].
  vm_compute. reflexivity.
Defined.

Lemma vintage_rows_witness :
  exists rows log,
    run (fetchFredVintageData vintageSite showValue today (Some fredKey) "GDP"
           "revisions") = (Ret rows, log)
    /\ (length rows <= 15)%nat.
Proof.
  destruct (run (fetchFredVintageData vintageSite showValue today (Some fredKey)
                   "GDP" "revisions")) as [[rows|e] log] eqn:E.
  - exists rows, log. split; [reflexivity|].
    exact (proj1 (proj2 (vintage_rows vintageSite showValue today
                           (Some fredKey) "GDP" "revisions") rows log E)).
  - exfalso. vm_compute in E. discriminate.
Defined.

End VintageFetchSpec.
